(** * Constrained-mixture remodelling engine: a shallow embedding

    The development follows [src/core/models.py] (class
    [ConstrainedMixtureModel]) and [src/core/constans.py] (the stand-alone
    resolver [get_parameters]).

    Modelling conventions.
    - Python and numpy floats are idealised as real numbers ([R]); rounding is
      not modelled.  A division whose operands are Python floats raises
      [ZeroDivisionError] on a zero divisor and is written [pydiv]; a division
      involving a numpy scalar never raises (numpy yields inf or nan and a
      warning) and is written with the total [/] of [R], whose value at a zero
      divisor carries no meaning.
    - A parameter dict is a finite map from key to Python value; an absent
      key raises [KeyError] at the read, exactly where the source indexes.
    - The instance is a record whose attribute [params] is optional: it is
      unset while [__init__] is still running [_validate_and_complete_params].
    - [scipy.integrate.quad] is an external routine, kept abstract. *)

From Stdlib Require Import Reals Lra Lia ZArith String List FunctionalExtensionality.
From stdpp Require Import gmap strings list fin_maps.

Open Scope R_scope.

(** ** Exceptions and the error monad *)

Inductive exn : Type :=
| KeyError (key : string)
| ValueError (msg : string)
| AttributeError (attr : string)
| ZeroDivisionError
| TypeError
| IndexError
| NameError (var : string).

Inductive result (A : Type) : Type :=
| Ok (a : A)
| Raise (e : exn).
Arguments Ok {A} a.
Arguments Raise {A} e.

Definition bind {A B} (m : result A) (k : A -> result B) : result B :=
  match m with
  | Ok a => k a
  | Raise e => Raise e
  end.

Notation "'let*' x ':=' m 'in' k" := (bind m (fun x => k))
  (at level 10, x pattern, m at level 100, k at level 200).

Definition is_ok {A} (m : result A) : Prop := exists a, m = Ok a.

(** A loop body run over a list, left to right, stopping at the first
    exception. *)
Fixpoint mapM {A B} (f : A -> result B) (l : list A) : result (list B) :=
  match l with
  | [] => Ok []
  | x :: l' =>
      let* y := f x in
      let* ys := mapM f l' in
      Ok (y :: ys)
  end.

Fixpoint foldM {A S} (f : S -> A -> result S) (s : S) (l : list A) : result S :=
  match l with
  | [] => Ok s
  | x :: l' =>
      let* s' := f s x in
      foldM f s' l'
  end.

(** [enumerate(l)] *)
Definition enumerate {A} (l : list A) : list (nat * A) := imap pair l.

(** ** Python values and dicts *)

Inductive pyval : Type :=
| VNone
| VFloat (x : R)
| VInt (n : Z)
| VStr (s : string)
| VArr (a : list R).

Abbreviation pydict := (gmap string pyval).

(** [d[k]] *)
Definition getitem (d : pydict) (k : string) : result pyval :=
  match d !! k with
  | Some v => Ok v
  | None => Raise (KeyError k)
  end.

(** The number a value stands for in an arithmetic expression. *)
Definition num (v : pyval) : result R :=
  match v with
  | VFloat x => Ok x
  | VInt n => Ok (IZR n)
  | _ => Raise TypeError
  end.

Definition getnum (d : pydict) (k : string) : result R :=
  let* v := getitem d k in num v.

Definition getint (d : pydict) (k : string) : result Z :=
  let* v := getitem d k in
  match v with
  | VInt n => Ok n
  | _ => Raise TypeError
  end.

Definition getarr (d : pydict) (k : string) : result (list R) :=
  let* v := getitem d k in
  match v with
  | VArr a => Ok a
  | _ => Raise TypeError
  end.

(** [a[i]] on an array *)
Definition arr_get (a : list R) (i : nat) : result R :=
  match a !! i with
  | Some x => Ok x
  | None => Raise IndexError
  end.

(** Comparisons of reals, as decisions. *)
#[global] Instance R_eq_dec : EqDecision R := Req_dec_T.
#[global] Instance R_lt_dec (x y : R) : Decision (x < y) := Rlt_dec x y.
#[global] Instance R_le_dec (x y : R) : Decision (x <= y) := Rle_dec x y.

(** Python float division and power. *)
Definition pydiv (x y : R) : result R :=
  if bool_decide (y = 0) then Raise ZeroDivisionError else Ok (x / y).

Definition rpow (x y : R) : R :=
  if bool_decide (x = 0) then (if bool_decide (y = 0) then 1 else 0)
  else Rpower x y.

Definition pypow (x y : R) : result R :=
  if bool_decide (x = 0) && bool_decide (y < 0) then Raise ZeroDivisionError
  else Ok (rpow x y).

(** [np.linspace(0, stop, num)]: [num] evenly spaced samples, the first at 0
    and (for [num > 1]) the last at [stop]. *)
Definition linspace (stop : R) (n : Z) : result (list R) :=
  if (n <? 0)%Z then Raise (ValueError "Number of samples must be non-negative")
  else
    let k := Z.to_nat n in
    Ok (map (fun i : nat => INR i * (stop / (INR k - 1))) (seq 0 k)).

(** ** The engine: [src/core/models.py] *)

Module Models.

(** The default table of [_validate_and_complete_params]. *)
Definition default_params : pydict :=
  list_to_map
    [ ("c_c", VFloat 1.0); ("c_e", VFloat 50.0); ("c_g", VFloat 10.0);
      ("fi0_c", VFloat 0.75); ("fi0_e", VFloat 0.05); ("fi0_g", VFloat 0.20);
      ("k_cplus", VFloat 1.0); ("k_cminus", VFloat 1.0);
      ("k_eplus", VFloat 1.0); ("k_eminus", VFloat 1.0);
      ("lambda0_c", VFloat 1.05); ("lambda0_e", VFloat 1.10);
      ("lambda_roof", VFloat 1.1); ("a", VFloat 0.1);
      ("K_cplus", VFloat 0.04); ("sigma0_c", VNone);
      ("alpha_c", VFloat 0.01); ("gamma", VFloat 1.0);
      ("t_end", VFloat 10.0); ("n_points", VInt 1000) ].

(** The instance: [params] is [None] until [__init__] assigns it. *)
Record ConstrainedMixtureModel : Type := { params : option pydict }.

(** [self.params] *)
Definition self_params (self : ConstrainedMixtureModel) : result pydict :=
  match params self with
  | Some p => Ok p
  | None => Raise (AttributeError "params")
  end.

Definition _sigma_c_roof (self : ConstrainedMixtureModel) (lambda_ : R) : result R :=
  let* p := self_params self in
  let* c_c := getnum p "c_c" in
  let* alpha_c := getnum p "alpha_c" in
  Ok (4 * c_c * lambda_ ^ 2 * (lambda_ ^ 2 - 1) * exp (alpha_c * (lambda_ ^ 2 - 1) ^ 2)).

Definition _validate_and_complete_params
    (self : ConstrainedMixtureModel) (user : option pydict) : result pydict :=
  let complete_params : pydict := default ∅ user ∪ default_params in
  let* t_end := getnum complete_params "t_end" in
  let* n_points := getint complete_params "n_points" in
  let* time := linspace t_end n_points in
  let complete_params := <["time" := VArr time]> complete_params in
  let complete_params := <["J0" := VFloat 1.0]> complete_params in
  let* fi0_c := getitem complete_params "fi0_c" in
  let complete_params := <["Jc0" := fi0_c]> complete_params in
  let* fi0_e := getitem complete_params "fi0_e" in
  let complete_params := <["Je0" := fi0_e]> complete_params in
  let* fi0_g := getitem complete_params "fi0_g" in
  let complete_params := <["Jg0" := fi0_g]> complete_params in
  let* s0 := getitem complete_params "sigma0_c" in
  match s0 with
  | VNone =>
      let* Jc0 := getnum complete_params "Jc0" in
      let* gamma := getnum complete_params "gamma" in
      let* e := pydiv 1 (1 + 2 * gamma) in
      let* Gx_c0 := pypow Jc0 e in
      let* lambda_c0 := getnum complete_params "lambda0_c" in
      let* sigma_c_roof := _sigma_c_roof self lambda_c0 in
      let* Jc0 := getnum complete_params "Jc0" in
      let* J0 := getnum complete_params "J0" in
      let* r := pydiv Jc0 J0 in
      Ok (<["sigma0_c" := VFloat (r * sigma_c_roof)]> complete_params)
  | _ => Ok complete_params
  end.

(** The constructor.  While the resolver runs, the instance has no
    attribute yet. *)
Definition __init__ (user : option pydict) : result ConstrainedMixtureModel :=
  let self := {| params := None |} in
  let* p := _validate_and_complete_params self user in
  let* p :=
    match p !! "j_cplus" with
    | None =>
        let* k := getnum p "k_cplus" in
        let* J := getnum p "Jc0" in
        Ok (<["j_cplus" := VFloat (k * J)]> p)
    | Some _ => Ok p
    end in
  let* p :=
    match p !! "j_eplus" with
    | None =>
        let* k := getnum p "k_eplus" in
        let* J := getnum p "Je0" in
        Ok (<["j_eplus" := VFloat (k * J)]> p)
    | Some _ => Ok p
    end in
  Ok {| params := Some p |}.

(** *** Constituent kinetics and stress responses *)

Definition _q_c (self : ConstrainedMixtureModel) (tau t : R) : result R :=
  let* p := self_params self in
  let* k_cminus := getnum p "k_cminus" in
  Ok (exp (- k_cminus * (t - tau))).

Definition _q_e (self : ConstrainedMixtureModel) (tau t : R) : result R :=
  let* p := self_params self in
  let* k_eminus := getnum p "k_eminus" in
  Ok (exp (- k_eminus * (t - tau))).

(** The guard returns 1 when both collagen rates are zero. *)
Definition _Q_c (self : ConstrainedMixtureModel) (t : R) : result R :=
  let* p := self_params self in
  let* k_cminus := getnum p "k_cminus" in
  let* k_cplus := getnum p "k_cplus" in
  if bool_decide (k_cminus = 0) && bool_decide (k_cplus = 0) then Ok 1.0
  else
    let* ratio := pydiv k_cplus k_cminus in
    Ok (exp (- k_cminus * t) + ratio * (1.0 - exp (- k_cminus * t))).

(** The elastin guard tests [k_eminus == 0 and k_eplus != 0]. *)
Definition _Q_e (self : ConstrainedMixtureModel) (t : R) : result R :=
  let* p := self_params self in
  let* k_eminus := getnum p "k_eminus" in
  let* k_eplus := getnum p "k_eplus" in
  if bool_decide (k_eminus = 0) && negb (bool_decide (k_eplus = 0)) then Ok 1.0
  else
    let* ratio := pydiv k_eplus k_eminus in
    Ok (exp (- k_eminus * t) + ratio * (1.0 - exp (- k_eminus * t))).

Definition _calc_J_c (self : ConstrainedMixtureModel) (t : R) : result R :=
  let* p := self_params self in
  let* Jc0 := getnum p "Jc0" in
  let* Q := _Q_c self t in
  Ok (Jc0 * Q).

Definition _calc_J_e (self : ConstrainedMixtureModel) (t : R) : result R :=
  let* p := self_params self in
  let* Je0 := getnum p "Je0" in
  let* Q := _Q_e self t in
  Ok (Je0 * Q).

(** For [t <> 0] the base of the power is a numpy scalar (save when both
    rates vanish), so the power is the total one. *)
Definition _G_c (self : ConstrainedMixtureModel) (t : R) : result R :=
  let* p := self_params self in
  if bool_decide (t = 0) then
    let* Jc0 := getnum p "Jc0" in
    let* gamma := getnum p "gamma" in
    let* e := pydiv 1 (1 + 2 * gamma) in
    pypow Jc0 e
  else
    let* J := _calc_J_c self t in
    let* gamma := getnum p "gamma" in
    let* e := pydiv 1 (1 + 2 * gamma) in
    Ok (rpow J e).

Definition _G_e (self : ConstrainedMixtureModel) (t : R) : result R :=
  let* p := self_params self in
  if bool_decide (t = 0) then
    let* Je0 := getnum p "Je0" in
    let* gamma := getnum p "gamma" in
    let* e := pydiv 1 (1 + 2 * gamma) in
    pypow Je0 e
  else
    let* J := _calc_J_e self t in
    let* gamma := getnum p "gamma" in
    let* e := pydiv 1 (1 + 2 * gamma) in
    Ok (rpow J e).

Definition _calc_sigma_g (self : ConstrainedMixtureModel) (t lambda_t : R) : result R :=
  let* p := self_params self in
  let* Jg0 := getnum p "Jg0" in
  let* J0 := getnum p "J0" in
  let* r := pydiv Jg0 J0 in
  let* c_g := getnum p "c_g" in
  Ok (r * 4 * c_g * lambda_t ^ 2 * (lambda_t ^ 2 - 1)).

(** *** Simulation results *)

(** The result dict: its keys are fixed by the dict literals of the three
    protocols; [J_total] and [sigma_total] are absent until assigned. *)
Record results : Type := {
  r_time : list R;
  r_lambda : list R;
  r_sigma_c : list R;
  r_sigma_e : list R;
  r_sigma_g : list R;
  r_J_c : list R;
  r_J_e : list R;
  r_J_total : option (list R);
  r_sigma_total : option (list R)
}.

(** What one pass of a protocol loop writes at index [i]. *)
Record row : Type := {
  w_lambda : R;
  w_J_c : R;
  w_J_e : R;
  w_J_total : R;
  w_sigma_c : R;
  w_sigma_e : R;
  w_sigma_g : R
}.

(** Elementwise sums of numpy arrays. *)
Definition arr_add (a b : list R) : list R := zip_with Rplus a b.
Definition arr_add_scalar (a : list R) (s : R) : list R := map (fun x => x + s) a.

(** Printed lines. *)
Inductive event : Type :=
| ConvergenceWarning (step : nat).

(** *** The three protocols *)

Section Protocols.

(** [scipy.integrate.quad(f, a, b)]: the integrand is a Python closure, so an
    exception it raises leaves through [quad]. *)
Variable quad : (R -> result R) -> R -> R -> result R.

Definition _constant_protocol (self : ConstrainedMixtureModel) : result results :=
  let* p := self_params self in
  let* t := getarr p "time" in
  let* lambda_t := getnum p "lambda_roof" in
  let* rows :=
    mapM (fun '(i, ti) =>
      let* Q_c := _Q_c self ti in
      let* Q_e := _Q_e self ti in
      let* Jc0 := getnum p "Jc0" in
      let J_c := Jc0 * Q_c in
      let* Je0 := getnum p "Je0" in
      let J_e := Je0 * Q_e in
      let* s := _sigma_c_roof self lambda_t in
      let sigma_c := s * J_c in
      let* c_e := getnum p "c_e" in
      let sigma_e := 4 * c_e * lambda_t ^ 2 * (lambda_t ^ 2 - 1) * J_e in
      let* sigma_g := _calc_sigma_g self ti lambda_t in
      Ok {| w_lambda := lambda_t; w_J_c := J_c; w_J_e := J_e; w_J_total := 0;
            w_sigma_c := sigma_c; w_sigma_e := sigma_e; w_sigma_g := sigma_g |})
      (enumerate t) in
  Ok {| r_time := t;
        r_lambda := map (fun _ => lambda_t) t;
        r_sigma_c := map w_sigma_c rows;
        r_sigma_e := map w_sigma_e rows;
        r_sigma_g := map w_sigma_g rows;
        r_J_c := map w_J_c rows;
        r_J_e := map w_J_e rows;
        r_J_total := None;
        r_sigma_total := None |}.

(** The two closures [integrand_c], [integrand_e] of [_linear_protocol],
    with the variables they capture: both evaluate the stress response at
    the stretch [lambda_t] of the current time [ti], whatever [tau]. *)
Definition linear_integrand_c (self : ConstrainedMixtureModel) (ti lambda_t : R)
    (tau : R) : result R :=
  let* q := _q_c self tau ti in
  let* s := _sigma_c_roof self lambda_t in
  Ok (q * s).

Definition linear_integrand_e (self : ConstrainedMixtureModel) (p : pydict)
    (ti lambda_t : R) (tau : R) : result R :=
  let* q := _q_e self tau ti in
  let* c_e := getnum p "c_e" in
  Ok (q * 4 * c_e * lambda_t ^ 2 * (lambda_t ^ 2 - 1)).

Definition _linear_protocol (self : ConstrainedMixtureModel) : result results :=
  let* p := self_params self in
  let* t := getarr p "time" in
  let* lambda_roof := getnum p "lambda_roof" in
  let* a := getnum p "a" in
  let lambda_arr := map (fun ti => lambda_roof * (1 + a * ti)) t in
  let* rows :=
    mapM (fun '(i, ti) =>
      let* lambda_t := arr_get lambda_arr i in
      let integrand_c := linear_integrand_c self ti lambda_t in
      let integrand_e := linear_integrand_e self p ti lambda_t in
      let* integral_c := quad integrand_c 0 ti in
      let* integral_e := quad integrand_e 0 ti in
      let* Q_c := _Q_c self ti in
      let* Q_e := _Q_e self ti in
      let* Jc0 := getnum p "Jc0" in
      let J_c := Jc0 * Q_c in
      let* Je0 := getnum p "Je0" in
      let J_e := Je0 * Q_e in
      let* J0 := getnum p "J0" in
      let* rc := pydiv Jc0 J0 in
      let* s := _sigma_c_roof self lambda_t in
      let* qc0 := _q_c self 0 ti in
      let* j_cplus := getnum p "j_cplus" in
      let sigma_c := rc * s * qc0 + (j_cplus / J_c) * integral_c in
      let* re := pydiv Je0 J0 in
      let* c_e := getnum p "c_e" in
      let* qe0 := _q_e self 0 ti in
      let* j_eplus := getnum p "j_eplus" in
      let sigma_e :=
        re * 4 * c_e * lambda_t ^ 2 * (lambda_t ^ 2 - 1) * qe0
        + (j_eplus / J_e) * integral_e in
      let* sigma_g := _calc_sigma_g self ti lambda_t in
      Ok {| w_lambda := lambda_t; w_J_c := J_c; w_J_e := J_e; w_J_total := 0;
            w_sigma_c := sigma_c; w_sigma_e := sigma_e; w_sigma_g := sigma_g |})
      (enumerate t) in
  Ok {| r_time := t;
        r_lambda := lambda_arr;
        r_sigma_c := map w_sigma_c rows;
        r_sigma_e := map w_sigma_e rows;
        r_sigma_g := map w_sigma_g rows;
        r_J_c := map w_J_c rows;
        r_J_e := map w_J_e rows;
        r_J_total := None;
        r_sigma_total := None |}.

(** The two closures of [_cyclic_protocol], with the variables they
    capture.  The quotients of growth factors and of stretches are taken
    with the total division: they involve a numpy scalar except at [t = 0]
    or when both rates vanish. *)
Definition cyclic_integrand_c (self : ConstrainedMixtureModel) (p : pydict)
    (lambda_roof a omega ti lambda_t : R) (tau : R) : result R :=
  let lambda_tau := lambda_roof * (1 + a * sin (omega * tau) ^ 2) in
  let* G_tau := _G_c self tau in
  let* G_ti := _G_c self ti in
  let* gamma := getnum p "gamma" in
  let* e := pydiv 1 (1 + 2 * gamma) in
  let G_ratio := rpow (G_tau / G_ti) e in
  let* lambda0_c := getnum p "lambda0_c" in
  let lambda_cx := lambda0_c * (lambda_t / lambda_tau) * G_ratio in
  let* q := _q_c self tau ti in
  let* s := _sigma_c_roof self lambda_cx in
  Ok (q * s).

Definition cyclic_integrand_e (self : ConstrainedMixtureModel) (p : pydict)
    (lambda_roof a omega ti lambda_t : R) (tau : R) : result R :=
  let lambda_tau := lambda_roof * (1 + a * sin (omega * tau) ^ 2) in
  let* G_tau := _G_e self tau in
  let* G_ti := _G_e self ti in
  let* gamma := getnum p "gamma" in
  let* e := pydiv 1 (1 + 2 * gamma) in
  let G_ratio := rpow (G_tau / G_ti) e in
  let* lambda0_e := getnum p "lambda0_e" in
  let lambda_ex := lambda0_e * (lambda_t / lambda_tau) * G_ratio in
  let* q := _q_e self tau ti in
  let* c_e := getnum p "c_e" in
  Ok (q * 4 * c_e * lambda_ex ^ 2 * (lambda_ex ^ 2 - 1)).

(** The [except] clause of the loop prints and re-raises, so an exception
    leaves unchanged. *)
Definition _cyclic_protocol (self : ConstrainedMixtureModel) : result results :=
  let* p := self_params self in
  let* t := getarr p "time" in
  let* a := getnum p "a" in
  let* lambda_roof := getnum p "lambda_roof" in
  let omega := PI in
  let* rows :=
    mapM (fun '(i, ti) =>
      let lambda_t := lambda_roof * (1 + a * sin (omega * ti) ^ 2) in
      let* Q_c := _Q_c self ti in
      let* Q_e := _Q_e self ti in
      let* Jc0 := getnum p "Jc0" in
      let J_c := Jc0 * Q_c in
      let* Je0 := getnum p "Je0" in
      let J_e := Je0 * Q_e in
      let* Jg0 := getnum p "Jg0" in
      let J_total := J_c + J_e + Jg0 in
      let integrand_c := cyclic_integrand_c self p lambda_roof a omega ti lambda_t in
      let integrand_e := cyclic_integrand_e self p lambda_roof a omega ti lambda_t in
      let* integral_c := quad integrand_c 0 ti in
      let* integral_e := quad integrand_e 0 ti in
      let* lambda0_c := getnum p "lambda0_c" in
      let* lambda_roof' := getnum p "lambda_roof" in
      let* G_0 := _G_c self 0 in
      let* G_ti := _G_c self ti in
      let* gamma := getnum p "gamma" in
      let* e := pydiv 1 (1 + 2 * gamma) in
      let lambda_c0 := lambda0_c * (lambda_t / lambda_roof') * rpow (G_0 / G_ti) e in
      let* J0 := getnum p "J0" in
      let* rc := pydiv Jc0 J0 in
      let* s := _sigma_c_roof self lambda_c0 in
      let* qc0 := _q_c self 0 ti in
      let sigma_c_initial := rc * s * qc0 in
      let* j_cplus := getnum p "j_cplus" in
      let sigma_c_integral := (j_cplus / J_total) * integral_c in
      let sigma_c := sigma_c_initial + sigma_c_integral in
      let* lambda0_e := getnum p "lambda0_e" in
      let* Ge_0 := _G_e self 0 in
      let* Ge_ti := _G_e self ti in
      let lambda_e0 := lambda0_e * (lambda_t / lambda_roof') * rpow (Ge_0 / Ge_ti) e in
      let* re := pydiv Je0 J0 in
      let* c_e := getnum p "c_e" in
      let* qe0 := _q_e self 0 ti in
      let sigma_e_initial := re * 4 * c_e * lambda_e0 ^ 2 * (lambda_e0 ^ 2 - 1) * qe0 in
      let* j_eplus := getnum p "j_eplus" in
      let sigma_e_integral := (j_eplus / J_total) * integral_e in
      let sigma_e := sigma_e_initial + sigma_e_integral in
      let* sigma_g := _calc_sigma_g self ti lambda_t in
      Ok {| w_lambda := lambda_t; w_J_c := J_c; w_J_e := J_e; w_J_total := J_total;
            w_sigma_c := sigma_c; w_sigma_e := sigma_e; w_sigma_g := sigma_g |})
      (enumerate t) in
  let sigma_c := map w_sigma_c rows in
  let sigma_e := map w_sigma_e rows in
  let sigma_g := map w_sigma_g rows in
  Ok {| r_time := t;
        r_lambda := map w_lambda rows;
        r_sigma_c := sigma_c;
        r_sigma_e := sigma_e;
        r_sigma_g := sigma_g;
        r_J_c := map w_J_c rows;
        r_J_e := map w_J_e rows;
        r_J_total := Some (map w_J_total rows);
        r_sigma_total := Some (arr_add (arr_add sigma_c sigma_e) sigma_g) |}.

(** *** The mechanical feedback solver *)

(** [v == s] for a string literal [s]. *)
Definition pyeq_str (v : pyval) (s : string) : bool :=
  match v with
  | VStr s' => String.eqb s' s
  | _ => false
  end.

(** The stretch at [tj], by the [if/elif/else] on [self.params['protocol']]. *)
Definition lambda_tau_at (p : pydict) (tj : R) : result R :=
  let* proto := getitem p "protocol" in
  if pyeq_str proto "constant" then getnum p "lambda_roof"
  else
    let* proto := getitem p "protocol" in
    if pyeq_str proto "linear" then
      let* lambda_roof := getnum p "lambda_roof" in
      let* a := getnum p "a" in
      Ok (lambda_roof * (1 + a * tj))
    else
      let* lambda_roof := getnum p "lambda_roof" in
      let* a := getnum p "a" in
      Ok (lambda_roof * (1 + a * sin (PI * tj) ^ 2)).

(** The state of the [j] loop: the two running sums and the last
    [lambda_tau] assigned (unbound before the first pass). *)
Record sums : Type := {
  integral_sigma : R;
  integral_J : R;
  last_lambda_tau : option R
}.

(** One pass of [for j in range(1, i+1)]. *)
Definition sum_body (self : ConstrainedMixtureModel) (p : pydict) (t sigma_c_fb J_c_fb : list R)
    (i : nat) (ti sigma_prev J_prev k_cplus feedback_factor : R)
    (acc : sums) (j : nat) : result sums :=
  let* tj := arr_get t j in
  let* dtj :=
    if bool_decide (0 < j)%nat then
      let* tj' := arr_get t j in
      let* tj_1 := arr_get t (j - 1) in
      Ok (tj' - tj_1)
    else Ok 0 in
  let* J_tj := if bool_decide (j < i)%nat then arr_get J_c_fb j else Ok J_prev in
  let* sigma_tj := if bool_decide (j < i)%nat then arr_get sigma_c_fb j else Ok sigma_prev in
  let* J_tj_1 := arr_get J_c_fb (j - 1) in
  let* sigma_tj_1 := arr_get sigma_c_fb (j - 1) in
  let* lambda_tau := lambda_tau_at p tj in
  let* s := _sigma_c_roof self lambda_tau in
  let* q := _q_c self tj ti in
  let term_sigma := J_tj * k_cplus * feedback_factor * s * q in
  let* q' := _q_c self tj ti in
  let term_J := J_tj * k_cplus * feedback_factor * q' in
  Ok {| integral_sigma := integral_sigma acc + 0.5 * dtj * term_sigma;
        integral_J := integral_J acc + 0.5 * dtj * term_J;
        last_lambda_tau := Some lambda_tau |}.

(** One attempt of [for _ in range(max_iter)], up to the convergence test:
    from the current guess to the new estimate. *)
Definition attempt (self : ConstrainedMixtureModel) (p : pydict) (res : results)
    (t sigma_c_fb J_c_fb : list R) (i : nat) (ti : R)
    (K_cplus k_cplus : pyval) (sigma0_c : R)
    (sigma_prev J_prev : R) : result (R * R) :=
  let sigma_ratio := sigma_prev / sigma0_c in
  let* K := num K_cplus in
  let feedback_factor := 1 + K * (sigma_ratio - 1) in
  let* k := num k_cplus in
  let* acc :=
    foldM (sum_body self p t sigma_c_fb J_c_fb i ti sigma_prev J_prev k feedback_factor)
      {| integral_sigma := 0; integral_J := 0; last_lambda_tau := None |}
      (seq 1 i) in
  let* J_e_i := arr_get (r_J_e res) i in
  let* Jg0 := getnum p "Jg0" in
  let J_total := J_prev + J_e_i + Jg0 in
  let* Jc0 := getnum p "Jc0" in
  let* J0 := getnum p "J0" in
  let* rc := pydiv Jc0 J0 in
  let* lambda_tau :=
    match last_lambda_tau acc with
    | Some l => Ok l
    | None => Raise (NameError "lambda_tau")
    end in
  let* s := _sigma_c_roof self lambda_tau in
  let* q0 := _q_c self 0 ti in
  let sigma_new := rc * s * q0 + (1 / J_total) * integral_sigma acc in
  let* q0' := _q_c self 0 ti in
  let J_new := Jc0 * q0' + integral_J acc in
  Ok (sigma_new, J_new).

(** What the attempt loop leaves behind: the last estimate (unbound if no
    attempt ran), the flag, and the number of attempts made. *)
Record outcome : Type := {
  estimate : option (R * R);
  converged : bool;
  attempts : nat
}.

(** [for _ in range(k)] with its convergence test and [break]. *)
Fixpoint iterate (body : R -> R -> result (R * R)) (epsilon : pyval) (k : nat)
    (sigma_prev J_prev : R) (last : option (R * R)) (count : nat) : result outcome :=
  match k with
  | O => Ok {| estimate := last; converged := false; attempts := count |}
  | S k' =>
      let* (sigma_new, J_new) := body sigma_prev J_prev in
      let* eps := num epsilon in
      if bool_decide (Rabs (sigma_new - sigma_prev) < eps)
         && bool_decide (Rabs (J_new - J_prev) < eps)
      then Ok {| estimate := Some (sigma_new, J_new); converged := true;
                 attempts := S count |}
      else iterate body epsilon k' sigma_new J_new (Some (sigma_new, J_new)) (S count)
  end.

Definition max_iter : nat := 20.

(** The state of the [i] loop: the two arrays under construction and what
    has been printed so far. *)
Record fb_state : Type := {
  sigma_c_fb : list R;
  J_c_fb : list R;
  printed : list event
}.

(** The attempt loop of time index [i], on the arrays committed so far. *)
Definition solve_step (self : ConstrainedMixtureModel) (p : pydict) (res : results)
    (t : list R) (K_cplus k_cplus epsilon : pyval) (sigma0_c : R)
    (st : fb_state) (i : nat) : result outcome :=
  let* ti := arr_get t i in
  let* sigma_prev := arr_get (r_sigma_c res) i in
  let* J_prev := arr_get (r_J_c res) i in
  iterate (attempt self p res t (sigma_c_fb st) (J_c_fb st) i ti K_cplus k_cplus sigma0_c)
    epsilon max_iter sigma_prev J_prev None 0.

(** One pass of [for i in range(1, n)]: solve, warn once if the loop ran
    out, commit.  ([i] is always within the arrays.) *)
Definition fb_step (self : ConstrainedMixtureModel) (p : pydict) (res : results)
    (t : list R) (K_cplus k_cplus epsilon : pyval) (sigma0_c : R)
    (st : fb_state) (i : nat) : result fb_state :=
  let* o := solve_step self p res t K_cplus k_cplus epsilon sigma0_c st i in
  let out :=
    if converged o then printed st
    else printed st ++ [ConvergenceWarning i] in
  let* (sigma_new, J_new) :=
    match estimate o with
    | Some e => Ok e
    | None => Raise (NameError "sigma_new")
    end in
  Ok {| sigma_c_fb := <[i := sigma_new]> (sigma_c_fb st);
        J_c_fb := <[i := J_new]> (J_c_fb st);
        printed := out |}.

(** The homeostatic reference of the solver is read from the base series,
    not from the record.  ([dt] of the source is never read.) *)
Definition _apply_mechanical_feedback (self : ConstrainedMixtureModel) (res : results)
    : result (results * list event) :=
  let* p := self_params self in
  let* t := getarr p "time" in
  let n := length t in
  let* s0 := arr_get (r_sigma_c res) 0 in
  let sigma_c_fb0 := <[0%nat := s0]> (replicate n 0) in
  let* Jc0 := getnum p "Jc0" in
  let J_c_fb0 := <[0%nat := Jc0]> (replicate n 0) in
  let* K_cplus := getitem p "K_cplus" in
  let* sigma0_c := arr_get sigma_c_fb0 0 in
  let* k_cplus := getitem p "k_cplus" in
  let* epsilon := getitem p "epsilon" in
  let* st :=
    foldM (fb_step self p res t K_cplus k_cplus epsilon sigma0_c)
      {| sigma_c_fb := sigma_c_fb0; J_c_fb := J_c_fb0; printed := [] |}
      (seq 1 (n - 1)) in
  Ok ({| r_time := r_time res;
         r_lambda := r_lambda res;
         r_sigma_c := sigma_c_fb st;
         r_sigma_e := r_sigma_e res;
         r_sigma_g := r_sigma_g res;
         r_J_c := J_c_fb st;
         r_J_e := r_J_e res;
         r_J_total := r_J_total res;
         r_sigma_total :=
           Some (arr_add (arr_add (sigma_c_fb st) (r_sigma_e res)) (r_sigma_g res)) |},
      printed st).

(** *** Dispatch and aggregation *)

Definition protocol_funcs (self : ConstrainedMixtureModel) (protocol : string)
    : option (result results) :=
  if String.eqb protocol "constant" then Some (_constant_protocol self)
  else if String.eqb protocol "linear" then Some (_linear_protocol self)
  else if String.eqb protocol "cyclic" then Some (_cyclic_protocol self)
  else None.

Definition simulate (self : ConstrainedMixtureModel) (protocol : string) (feedback : bool)
    : result (results * list event) :=
  match protocol_funcs self protocol with
  | None => Raise (ValueError ("Unknown protocol: " ++ protocol))
  | Some run =>
      let* res := run in
      let* (res, out) :=
        if feedback then _apply_mechanical_feedback self res else Ok (res, []) in
      let* p := self_params self in
      let* Jg0 := getnum p "Jg0" in
      let J_total := arr_add_scalar (arr_add (r_J_c res) (r_J_e res)) Jg0 in
      let sigma_total := arr_add (arr_add (r_sigma_c res) (r_sigma_e res)) (r_sigma_g res) in
      Ok ({| r_time := r_time res;
             r_lambda := r_lambda res;
             r_sigma_c := r_sigma_c res;
             r_sigma_e := r_sigma_e res;
             r_sigma_g := r_sigma_g res;
             r_J_c := r_J_c res;
             r_J_e := r_J_e res;
             r_J_total := Some J_total;
             r_sigma_total := Some sigma_total |},
          out)
  end.

End Protocols.

End Models.

(** ** The stand-alone resolver: [src/core/constans.py] *)

Module Constans.

Definition DEFAULT_PARAMS : pydict :=
  list_to_map
    [ ("c_c", VFloat 1.0); ("c_e", VFloat 50.0); ("c_g", VFloat 10.0);
      ("fi0_c", VFloat 0.75); ("fi0_e", VFloat 0.05); ("fi0_g", VFloat 0.20);
      ("k_cplus", VFloat 1.0); ("k_cminus", VFloat 1.0);
      ("k_eplus", VFloat 1.0); ("k_eminus", VFloat 1.0);
      ("lambda0_c", VFloat 1.05); ("lambda0_e", VFloat 1.10);
      ("lambda_roof", VFloat 1.1); ("a", VFloat 0.1);
      ("K_cplus", VFloat 0.04); ("sigma0_c", VNone);
      ("alpha_c", VFloat 0.01); ("gamma", VFloat 1.0);
      ("t_end", VFloat 10.0); ("n_points", VInt 1000);
      ("epsilon", VFloat 0.0001);
      ("omega", VFloat PI) ].

Definition get_parameters (overrides : option pydict) : result pydict :=
  let params : pydict := default ∅ overrides ∪ DEFAULT_PARAMS in
  let params := <["J0" := VFloat 1.0]> params in
  let* fi0_c := getitem params "fi0_c" in
  let params := <["Jc0" := fi0_c]> params in
  let* fi0_e := getitem params "fi0_e" in
  let params := <["Je0" := fi0_e]> params in
  let* fi0_g := getitem params "fi0_g" in
  let params := <["Jg0" := fi0_g]> params in
  let* k_cplus := getnum params "k_cplus" in
  let* Jc0 := getnum params "Jc0" in
  let params := <["j_cplus" := VFloat (k_cplus * Jc0)]> params in
  let* k_eplus := getnum params "k_eplus" in
  let* Je0 := getnum params "Je0" in
  let params := <["j_eplus" := VFloat (k_eplus * Je0)]> params in
  let* s0 := getitem params "sigma0_c" in
  let* params :=
    match s0 with
    | VNone =>
        let* Jc0 := getnum params "Jc0" in
        let* gamma := getnum params "gamma" in
        let* e := pydiv 1.0 (1.0 + 2.0 * gamma) in
        let* Gx_c0 := pypow Jc0 e in
        let* lambda0_c := getnum params "lambda0_c" in
        let* lambda_c0 := pydiv (lambda0_c * Gx_c0) Gx_c0 in
        let* c_c := getnum params "c_c" in
        let* alpha_c := getnum params "alpha_c" in
        let sigma_c_roof_0 :=
          4 * c_c * lambda_c0 ^ 2 * (lambda_c0 ^ 2 - 1)
          * exp (alpha_c * (lambda_c0 ^ 2 - 1) ^ 2) in
        let* Jc0 := getnum params "Jc0" in
        let* J0 := getnum params "J0" in
        let* r := pydiv Jc0 J0 in
        Ok (<["sigma0_c" := VFloat (r * sigma_c_roof_0)]> params)
    | _ => Ok params
    end in
  let* k_cminus := getnum params "k_cminus" in
  let* k_cplus := getnum params "k_cplus" in
  if bool_decide (k_cminus = 0) && negb (bool_decide (k_cplus = 0)) then
    Raise (ValueError "k_cminus cannot be 0 when k_cplus != 0")
  else
    let* a := getnum params "a" in
    if bool_decide (a <= 0) then Raise (ValueError "Parameter 'a' must be > 0")
    else
      let params :=
        match params !! "omega" with
        | None => <["omega" := VFloat PI]> params
        | Some _ => params
        end in
      let* t_end := getnum params "t_end" in
      let* n_points := getint params "n_points" in
      let* time := linspace t_end n_points in
      Ok (<["time" := VArr time]> params).

End Constans.

Import Models.

(** ** Resolved records

    The numbers a well-typed, resolved parameter dict holds under the keys
    the engine reads, and the values its methods then return. *)

Record env : Type := {
  v_c_c : R; v_c_e : R; v_c_g : R;
  v_k_cplus : R; v_k_cminus : R; v_k_eplus : R; v_k_eminus : R;
  v_lambda0_c : R; v_lambda0_e : R; v_lambda_roof : R; v_a : R;
  v_alpha_c : R; v_gamma : R;
  v_J0 : R; v_Jc0 : R; v_Je0 : R; v_Jg0 : R;
  v_j_cplus : R; v_j_eplus : R;
  v_time : list R
}.

Definition reads (p : pydict) (e : env) : Prop :=
  getnum p "c_c" = Ok (v_c_c e) /\ getnum p "c_e" = Ok (v_c_e e)
  /\ getnum p "c_g" = Ok (v_c_g e)
  /\ getnum p "k_cplus" = Ok (v_k_cplus e) /\ getnum p "k_cminus" = Ok (v_k_cminus e)
  /\ getnum p "k_eplus" = Ok (v_k_eplus e) /\ getnum p "k_eminus" = Ok (v_k_eminus e)
  /\ getnum p "lambda0_c" = Ok (v_lambda0_c e) /\ getnum p "lambda0_e" = Ok (v_lambda0_e e)
  /\ getnum p "lambda_roof" = Ok (v_lambda_roof e) /\ getnum p "a" = Ok (v_a e)
  /\ getnum p "alpha_c" = Ok (v_alpha_c e) /\ getnum p "gamma" = Ok (v_gamma e)
  /\ getnum p "J0" = Ok (v_J0 e) /\ getnum p "Jc0" = Ok (v_Jc0 e)
  /\ getnum p "Je0" = Ok (v_Je0 e) /\ getnum p "Jg0" = Ok (v_Jg0 e)
  /\ getnum p "j_cplus" = Ok (v_j_cplus e) /\ getnum p "j_eplus" = Ok (v_j_eplus e)
  /\ getarr p "time" = Ok (v_time e).

(** The collagen stress response, the survival function and the two
    total-mass functions as real functions. *)
Definition sigma_hat (c alpha lam : R) : R :=
  4 * c * lam ^ 2 * (lam ^ 2 - 1) * exp (alpha * (lam ^ 2 - 1) ^ 2).

Definition q_val (k tau t : R) : R := exp (- k * (t - tau)).

Definition turnover (kp km t : R) : R :=
  exp (- km * t) + kp / km * (1.0 - exp (- km * t)).

Definition Q_c_val (e : env) (t : R) : R :=
  if bool_decide (v_k_cminus e = 0) && bool_decide (v_k_cplus e = 0) then 1.0
  else turnover (v_k_cplus e) (v_k_cminus e) t.

Definition Q_e_val (e : env) (t : R) : R :=
  if bool_decide (v_k_eminus e = 0) && negb (bool_decide (v_k_eplus e = 0)) then 1.0
  else turnover (v_k_eplus e) (v_k_eminus e) t.

Definition sigma_g_val (e : env) (lam : R) : R :=
  v_Jg0 e / v_J0 e * 4 * v_c_g e * lam ^ 2 * (lam ^ 2 - 1).

(** When the two total-mass functions return: Python divides by the
    degradation rate unless the guard has answered first. *)
Definition collagen_ok (e : env) : Prop := v_k_cminus e = 0 -> v_k_cplus e = 0.
Definition elastin_ok (e : env) : Prop := v_k_eminus e = 0 -> v_k_eplus e <> 0.

(** The series of the constant protocol on a resolved record. *)
Definition constant_series (e : env) : results :=
  let lam := v_lambda_roof e in
  {| r_time := v_time e;
     r_lambda := map (fun _ => lam) (v_time e);
     r_sigma_c :=
       map (fun ti => sigma_hat (v_c_c e) (v_alpha_c e) lam * (v_Jc0 e * Q_c_val e ti))
         (v_time e);
     r_sigma_e :=
       map (fun ti => 4 * v_c_e e * lam ^ 2 * (lam ^ 2 - 1) * (v_Je0 e * Q_e_val e ti))
         (v_time e);
     r_sigma_g := map (fun _ => sigma_g_val e lam) (v_time e);
     r_J_c := map (fun ti => v_Jc0 e * Q_c_val e ti) (v_time e);
     r_J_e := map (fun ti => v_Je0 e * Q_e_val e ti) (v_time e);
     r_J_total := None;
     r_sigma_total := None |}.

(** The grid [linspace] builds for a non-negative count. *)
Definition grid (stop : R) (n : Z) : list R :=
  map (fun i : nat => INR i * (stop / (INR (Z.to_nat n) - 1))) (seq 0 (Z.to_nat n)).

(** The numbers a dict holds, read off the dict itself. *)
Definition num_or0 (m : result R) : R :=
  match m with
  | Ok x => x
  | Raise _ => 0
  end.

Definition env_of (p : pydict) : env :=
  {| v_c_c := num_or0 (getnum p "c_c"); v_c_e := num_or0 (getnum p "c_e");
     v_c_g := num_or0 (getnum p "c_g");
     v_k_cplus := num_or0 (getnum p "k_cplus"); v_k_cminus := num_or0 (getnum p "k_cminus");
     v_k_eplus := num_or0 (getnum p "k_eplus"); v_k_eminus := num_or0 (getnum p "k_eminus");
     v_lambda0_c := num_or0 (getnum p "lambda0_c");
     v_lambda0_e := num_or0 (getnum p "lambda0_e");
     v_lambda_roof := num_or0 (getnum p "lambda_roof"); v_a := num_or0 (getnum p "a");
     v_alpha_c := num_or0 (getnum p "alpha_c"); v_gamma := num_or0 (getnum p "gamma");
     v_J0 := num_or0 (getnum p "J0"); v_Jc0 := num_or0 (getnum p "Jc0");
     v_Je0 := num_or0 (getnum p "Je0"); v_Jg0 := num_or0 (getnum p "Jg0");
     v_j_cplus := num_or0 (getnum p "j_cplus"); v_j_eplus := num_or0 (getnum p "j_eplus");
     v_time := match getarr p "time" with Ok t => t | Raise _ => [] end |}.

(** A one-point rule, as a sample instance of the quadrature routine. *)
Definition midpoint_quad (f : R -> result R) (a b : R) : result R :=
  let* y := f ((a + b) / 2) in
  Ok ((b - a) * y).

(** A quadrature routine returns on an integrand that returns. *)
Definition quad_total (quad : (R -> result R) -> R -> R -> result R) : Prop :=
  forall f a b, (forall x, is_ok (f x)) -> is_ok (quad f a b).

(** ** Construction: what [__init__] leaves in [self.params] *)

(** The dict after the resolver and the two flux assignments, for a record
    that supplies a homeostatic stress and no flux of its own. *)
Definition resolved_dict (c : pydict) (t : list R) (fc fe fg : pyval)
    (kc Jc ke Je : R) : pydict :=
  <["j_eplus" := VFloat (ke * Je)]>
    (<["j_cplus" := VFloat (kc * Jc)]>
       (<["Jg0" := fg]>
          (<["Je0" := fe]>
             (<["Jc0" := fc]>
                (<["J0" := VFloat 1.0]>
                   (<["time" := VArr t]> c)))))).

(** The keys the constructor writes. *)
Definition derived_keys : list string :=
  ["time"; "J0"; "Jc0"; "Je0"; "Jg0"; "sigma0_c"; "j_cplus"; "j_eplus"].

(** A record leaves the homeostatic stress unset when it has no [sigma0_c]
    or holds [None] there. *)
Definition sigma0_c_unset (user : option pydict) : Prop :=
  match user with
  | None => True
  | Some d => d !! "sigma0_c" = None \/ d !! "sigma0_c" = Some VNone
  end.

(** Sample records: a supplied homeostatic stress, with a zero collagen
    degradation rate, a zero growth coefficient, and zero elastin rates. *)
Definition zero_degradation : pydict :=
  list_to_map [("sigma0_c", VFloat 1.0); ("k_cminus", VFloat 0.0)].

Definition zero_growth : pydict :=
  list_to_map [("sigma0_c", VFloat 1.0); ("a", VFloat 0.0)].

Definition no_elastin_turnover : pydict :=
  list_to_map [("sigma0_c", VFloat 1.0); ("k_eplus", VFloat 0.0); ("k_eminus", VFloat 0.0);
               ("t_end", VFloat 1.0); ("n_points", VInt 2)].

(** ** Stretch protocols and the spec's stress formula *)

(** The cyclic stretch the engine computes: the frequency is the constant
    [PI] of the source. *)
Definition cyclic_stretch (lambda_roof a tau : R) : R :=
  lambda_roof * (1 + a * sin (PI * tau) ^ 2).

(** Modelled from the spec: the cyclic stretch with the record's cyclic
    frequency [omega]. *)
Definition spec_cyclic_stretch (lambda_roof a omega tau : R) : R :=
  lambda_roof * (1 + a * sin (omega * tau) ^ 2).

(** Modelled from the spec: the history-integral stress of a turnover
    constituent, with the response evaluated at the stretch [lam tau] of the
    deposition time and the deposition term divided by [J_total]. *)
Definition spec_stress (quad : (R -> result R) -> R -> R -> result R)
    (J0c Jref jplus J_total : R) (sig : R -> R) (q : R -> R -> R) (lam : R -> R)
    (t : R) : result R :=
  let* integral := quad (fun tau => Ok (q tau t * sig (lam tau))) 0 t in
  Ok (J0c / Jref * sig (lam 0) * q 0 t + jplus / J_total * integral).

(** ** The sums of the feedback solver *)

(** The stretch the solver assigns to a grid time, by the value under
    ['protocol']. *)
Definition stretch_of (proto : pyval) (e : env) (tj : R) : R :=
  if pyeq_str proto "constant" then v_lambda_roof e
  else if pyeq_str proto "linear" then v_lambda_roof e * (1 + v_a e * tj)
  else v_lambda_roof e * (1 + v_a e * sin (PI * tj) ^ 2).

Definition sum_list (l : list R) : R := foldr Rplus 0 l.

(** The volume fraction the [j] loop reads at [j]: committed before [i],
    the current guess at [i]. *)
Definition J_at (J_c_fb : list R) (i : nat) (J_prev : R) (j : nat) : R :=
  if bool_decide (j < i)%nat then nth j J_c_fb 0 else J_prev.

(** The two integrands at grid index [j]. *)
Definition term_J_at (e : env) (t J_c_fb : list R) (i : nat) (ti J_prev k ff : R)
    (j : nat) : R :=
  J_at J_c_fb i J_prev j * k * ff * q_val (v_k_cminus e) (nth j t 0) ti.

Definition term_sigma_at (proto : pyval) (e : env) (t J_c_fb : list R) (i : nat)
    (ti J_prev k ff : R) (j : nat) : R :=
  J_at J_c_fb i J_prev j * k * ff
  * sigma_hat (v_c_c e) (v_alpha_c e) (stretch_of proto e (nth j t 0))
  * q_val (v_k_cminus e) (nth j t 0) ti.

(** What the [j] loop adds up: half the step times the integrand at the
    right end of each interval. *)
Definition right_sum (f : nat -> R) (t : list R) (i : nat) : R :=
  sum_list (map (fun j : nat => 0.5 * (nth j t 0 - nth (j - 1) t 0) * f j) (seq 1 i)).

(** Modelled from the spec: the trapezoidal rule over the grid, each
    interval contributing half the step times the sum of the integrand at
    its two ends. *)
Definition trapezoid (f : nat -> R) (t : list R) (i : nat) : R :=
  sum_list
    (map (fun j : nat => 0.5 * (nth j t 0 - nth (j - 1) t 0) * (f (j - 1)%nat + f j))
       (seq 1 i)).

(** The feedback factor of an attempt and the estimate the attempt ends
    with. *)
Definition factor (K sigma_prev sigma0_c : R) : R := 1 + K * (sigma_prev / sigma0_c - 1).

Definition estimate_of (proto : pyval) (e : env) (res : results) (t J_c_fb : list R)
    (i : nat) (ti K k sigma0_c sigma_prev J_prev : R) : R * R :=
  let ff := factor K sigma_prev sigma0_c in
  let J_total := J_prev + nth i (r_J_e res) 0 + v_Jg0 e in
  (v_Jc0 e / v_J0 e * sigma_hat (v_c_c e) (v_alpha_c e) (stretch_of proto e (nth i t 0))
   * q_val (v_k_cminus e) 0 ti
   + 1 / J_total * right_sum (term_sigma_at proto e t J_c_fb i ti J_prev k ff) t i,
   v_Jc0 e * q_val (v_k_cminus e) 0 ti
   + right_sum (term_J_at e t J_c_fb i ti J_prev k ff) t i).


(** The instance [__init__] builds from a sample record with the default
    fractions and synthesis rates [kc], [ke], on the grid of [n] points up
    to [T]. *)
Definition sample_dict (user : pydict) (T : R) (n : Z) (kc ke : R) : pydict :=
  resolved_dict (user ∪ default_params) (grid T n)
    (VFloat 0.75) (VFloat 0.05) (VFloat 0.20) kc 0.75 ke 0.05.

Definition m_no_elastin_turnover : ConstrainedMixtureModel :=
  {| params := Some (sample_dict no_elastin_turnover 1.0 2 1.0 0.0) |}.

(** Sample records: a linear run without collagen synthesis and with a
    linear collagen law; a cyclic run whose record holds frequency zero. *)
Definition linear_record : pydict :=
  list_to_map [("sigma0_c", VFloat 1.0); ("k_cplus", VFloat 0.0); ("alpha_c", VFloat 0.0);
               ("t_end", VFloat 1.0); ("n_points", VInt 2)].

Definition linear_dict : pydict := sample_dict linear_record 1.0 2 0.0 1.0.

Definition m_linear : ConstrainedMixtureModel := {| params := Some linear_dict |}.

Definition omega_record : pydict :=
  list_to_map [("sigma0_c", VFloat 1.0); ("omega", VFloat 0.0);
               ("t_end", VFloat 0.5); ("n_points", VInt 2)].

Definition omega_dict : pydict := sample_dict omega_record 0.5 2 1.0 1.0.

Definition m_omega : ConstrainedMixtureModel := {| params := Some omega_dict |}.

(** A sample record for feedback runs: constant protocol named in the
    record, tolerance [1e-4], two grid points up to time 1. *)
Definition feedback_record : pydict :=
  list_to_map [("sigma0_c", VFloat 1.0); ("protocol", VStr "constant");
               ("epsilon", VFloat 0.0001); ("t_end", VFloat 1.0); ("n_points", VInt 2)].

Definition feedback_dict : pydict := sample_dict feedback_record 1.0 2 1.0 1.0.

Definition m_feedback : ConstrainedMixtureModel := {| params := Some feedback_dict |}.

(** Sample records that name neither a protocol nor a tolerance: the
    default rates, and a zero collagen degradation rate. *)
Definition bare_record : pydict :=
  list_to_map [("sigma0_c", VFloat 1.0); ("t_end", VFloat 1.0); ("n_points", VInt 2)].

Definition bare_dict : pydict := sample_dict bare_record 1.0 2 1.0 1.0.

Definition m_bare : ConstrainedMixtureModel := {| params := Some bare_dict |}.

(** A sample record that names a tolerance and no protocol. *)
Definition tolerance_only_record : pydict :=
  list_to_map [("sigma0_c", VFloat 1.0); ("epsilon", VFloat 0.0001);
               ("t_end", VFloat 1.0); ("n_points", VInt 2)].

Definition tolerance_only_dict : pydict := sample_dict tolerance_only_record 1.0 2 1.0 1.0.

Definition m_tolerance_only : ConstrainedMixtureModel :=
  {| params := Some tolerance_only_dict |}.

Definition bare_zero_degradation : pydict :=
  list_to_map [("sigma0_c", VFloat 1.0); ("k_cminus", VFloat 0.0);
               ("t_end", VFloat 1.0); ("n_points", VInt 2)].

Definition bare_zero_degradation_dict : pydict :=
  sample_dict bare_zero_degradation 1.0 2 1.0 1.0.

Definition m_bare_zero_degradation : ConstrainedMixtureModel :=
  {| params := Some bare_zero_degradation_dict |}.

(** The state of the time loop before its first pass. *)
Definition fb_init (n : nat) (s0 Jc0 : R) : fb_state :=
  {| sigma_c_fb := <[0%nat := s0]> (replicate n 0);
     J_c_fb := <[0%nat := Jc0]> (replicate n 0);
     printed := [] |}.

(** ** Instance attributes and the run over all protocols

    [simulate] ends with [self.results = results], and
    [simulate_all_protocols] fills [self.all_protocol_results].  An
    exception leaves both attributes as the last assignment left them. *)

Record attrs : Type := {
  a_results : option results;
  a_all_protocol_results : gmap string results
}.

(** What [__init__] assigns: two empty dicts. *)
Definition attrs_init : attrs :=
  {| a_results := None; a_all_protocol_results := ∅ |}.

Section AllProtocols.

Variable quad : (R -> result R) -> R -> R -> result R.

(** [self.simulate(protocol, feedback)], on the attributes. *)
Definition simulate_attrs (self : ConstrainedMixtureModel) (protocol : string)
    (feedback : bool) (st : attrs) : result (results * list event) * attrs :=
  match simulate quad self protocol feedback with
  | Ok (res, out) =>
      (Ok (res, out),
       {| a_results := Some res; a_all_protocol_results := a_all_protocol_results st |})
  | Raise e => (Raise e, st)
  end.

(** The loop [for protocol in protocols], with what the runs print. *)
Fixpoint all_protocols_loop (self : ConstrainedMixtureModel) (feedback : bool)
    (protocols : list string) (out : list event) (st : attrs)
    : result (list event) * attrs :=
  match protocols with
  | [] => (Ok out, st)
  | protocol :: rest =>
      match simulate_attrs self protocol feedback st with
      | (Ok (res, out'), st') =>
          all_protocols_loop self feedback rest (out ++ out')
            {| a_results := a_results st';
               a_all_protocol_results := <[protocol := res]> (a_all_protocol_results st') |}
      | (Raise e, st') => (Raise e, st')
      end
  end.

(** The table returned is the attribute itself. *)
Definition simulate_all_protocols (self : ConstrainedMixtureModel) (feedback : bool)
    (st : attrs) : result (gmap string results * list event) * attrs :=
  let protocols := ["constant"; "linear"; "cyclic"] in
  let st := {| a_results := a_results st; a_all_protocol_results := ∅ |} in
  match all_protocols_loop self feedback protocols [] st with
  | (Ok out, st') => (Ok (a_all_protocol_results st', out), st')
  | (Raise e, st') => (Raise e, st')
  end.

End AllProtocols.

(** ** Conversions and indexing of the user interfaces *)

(** [int(x)] on a float: truncation toward zero. *)
Definition pyint (x : R) : Z :=
  if bool_decide (0 <= x) then (up x - 1)%Z else (1 - up (- x))%Z.

(** [l[k]] on a list: a negative index counts from the end. *)
Definition pylist_get {A} (l : list A) (k : Z) : result A :=
  let n := Z.of_nat (length l) in
  let i := if (k <? 0)%Z then (k + n)%Z else k in
  if (i <? 0)%Z || (n <=? i)%Z then Raise IndexError
  else
    match l !! Z.to_nat i with
    | Some x => Ok x
    | None => Raise IndexError
    end.

(** [a[-1]] on an array. *)
Definition arr_last (a : list R) : result R :=
  match last a with
  | Some x => Ok x
  | None => Raise IndexError
  end.

(** A bool stored in a dict is the integer it equals. *)
Definition pybool (b : bool) : pyval := VInt (if b then 1 else 0).

(** ** The command line: [src/ui/cli.py] *)

Module Cli.

(** The namespace [parse_arguments] returns: one attribute per argument,
    typed by the argument's [type]. *)
Record Namespace : Type := {
  protocol : string;
  feedback : bool;
  c_c : R; c_e : R; c_g : R;
  fi0_c : R; fi0_e : R; fi0_g : R;
  lambda0_c : R; lambda0_e : R;
  k_cplus : R; k_cminus : R; k_eplus : R; k_eminus : R;
  alpha_c : R; gamma : R; K_cplus : R;
  a : R; lambda_roof : R;
  t_end : R; n_points : Z; epsilon : R;
  save : option string;
  quiet : bool
}.

(** [vars(params)] *)
Definition vars (params : Namespace) : pydict :=
  list_to_map
    [ ("protocol", VStr (protocol params)); ("feedback", pybool (feedback params));
      ("c_c", VFloat (c_c params)); ("c_e", VFloat (c_e params));
      ("c_g", VFloat (c_g params));
      ("fi0_c", VFloat (fi0_c params)); ("fi0_e", VFloat (fi0_e params));
      ("fi0_g", VFloat (fi0_g params));
      ("lambda0_c", VFloat (lambda0_c params)); ("lambda0_e", VFloat (lambda0_e params));
      ("k_cplus", VFloat (k_cplus params)); ("k_cminus", VFloat (k_cminus params));
      ("k_eplus", VFloat (k_eplus params)); ("k_eminus", VFloat (k_eminus params));
      ("alpha_c", VFloat (alpha_c params)); ("gamma", VFloat (gamma params));
      ("K_cplus", VFloat (K_cplus params));
      ("a", VFloat (a params)); ("lambda_roof", VFloat (lambda_roof params));
      ("t_end", VFloat (t_end params)); ("n_points", VInt (n_points params));
      ("epsilon", VFloat (epsilon params));
      ("save", match save params with Some s => VStr s | None => VNone end);
      ("quiet", pybool (quiet params)) ].

(** The lines [run_simulation] prints, and the engine's between them. *)
Inductive line : Type :=
| Running (protocol : string)
| FeedbackGain (K : R)
| Engine (e : event)
| Completed
| FinalStress (protocol : string) (sigma : R)
| LastCollagenStress (sigma : R).

(** What [run_simulation] returns: one result, or the table of the three. *)
Inductive outcome : Type :=
| One (r : results)
| All (table : gmap string results).

Section RunSimulation.

Variable quad : (R -> result R) -> R -> R -> result R.

(** The loop over [results.items()]: the table holds the protocols in the
    order the engine inserted them. *)
Fixpoint final_lines (table : gmap string results) (protocols : list string)
    (out : list line) : list line * result unit :=
  match protocols with
  | [] => (out, Ok tt)
  | protocol :: rest =>
      match table !! protocol with
      | None => final_lines table rest out
      | Some data =>
          match r_sigma_total data with
          | None => (out, Raise (KeyError "sigma_total"))
          | Some sigma_total =>
              match arr_last sigma_total with
              | Ok x => final_lines table rest (out ++ [FinalStress protocol x])
              | Raise e => (out, Raise e)
              end
          end
      end
  end.

(** The lines the function has printed come first, then the value returned
    or the exception that leaves.  The engine's lines are kept for a run
    that returns. *)
Definition run_simulation (params : Namespace) : list line * result outcome :=
  let out :=
    if quiet params then []
    else
      Running (protocol params)
      :: (if feedback params then [FeedbackGain (K_cplus params)] else []) in
  match __init__ (Some (vars params)) with
  | Raise e => (out, Raise e)
  | Ok model =>
      if String.eqb (protocol params) "all" then
        match fst (simulate_all_protocols quad model (feedback params) attrs_init) with
        | Raise e => (out, Raise e)
        | Ok (table, printed) =>
            let out := out ++ map Engine printed in
            if quiet params then (out, Ok (All table))
            else
              match final_lines table ["constant"; "linear"; "cyclic"] (out ++ [Completed]) with
              | (out, Ok _) => (out, Ok (All table))
              | (out, Raise e) => (out, Raise e)
              end
        end
      else
        match simulate quad model (protocol params) (feedback params) with
        | Raise e => (out, Raise e)
        | Ok (res, printed) =>
            let out := out ++ map Engine printed in
            if quiet params then (out, Ok (One res))
            else
              match arr_last (r_sigma_c res) with
              | Ok x => (out ++ [Completed; LastCollagenStress x], Ok (One res))
              | Raise e => (out ++ [Completed], Raise e)
              end
        end
  end.

End RunSimulation.

End Cli.

(** ** The window: [src/ui/gui.py] *)

Module Gui.

(** The values of the spin boxes [create_parameter_group] makes, one per
    parameter name; every box is a [QDoubleSpinBox]. *)
Record CMMGUI : Type := {
  protocol_type_spin : R; a_spin : R; lambda_roof_spin : R;
  c_c_spin : R; c_e_spin : R; c_g_spin : R;
  fi0_c_spin : R; fi0_e_spin : R; fi0_g_spin : R;
  lambda0_c_spin : R; lambda0_e_spin : R;
  k_cplus_spin : R; k_cminus_spin : R; k_eplus_spin : R; k_eminus_spin : R;
  alpha_c_spin : R; gamma_spin : R;
  K_cplus_spin : R; sigma0_c_spin : R;
  t_end_spin : R; n_points_spin : R; epsilon_spin : R
}.

Definition get_current_parameters (self : CMMGUI) : result pydict :=
  let* protocol :=
    pylist_get ["constant"; "linear"; "cyclic"] (pyint (protocol_type_spin self)) in
  Ok (list_to_map
        [ ("protocol", VStr protocol);
          ("a", VFloat (a_spin self)); ("lambda_roof", VFloat (lambda_roof_spin self));
          ("c_c", VFloat (c_c_spin self)); ("c_e", VFloat (c_e_spin self));
          ("c_g", VFloat (c_g_spin self));
          ("fi0_c", VFloat (fi0_c_spin self)); ("fi0_e", VFloat (fi0_e_spin self));
          ("fi0_g", VFloat (fi0_g_spin self));
          ("lambda0_c", VFloat (lambda0_c_spin self));
          ("lambda0_e", VFloat (lambda0_e_spin self));
          ("k_cplus", VFloat (k_cplus_spin self)); ("k_cminus", VFloat (k_cminus_spin self));
          ("k_eplus", VFloat (k_eplus_spin self)); ("k_eminus", VFloat (k_eminus_spin self));
          ("alpha_c", VFloat (alpha_c_spin self)); ("gamma", VFloat (gamma_spin self));
          ("K_cplus", VFloat (K_cplus_spin self)); ("sigma0_c", VFloat (sigma0_c_spin self));
          ("t_end", VFloat (t_end_spin self));
          ("n_points", VInt (pyint (n_points_spin self)));
          ("epsilon", VFloat (epsilon_spin self)) ]).

Section RunSimulation.

Variable quad : (R -> result R) -> R -> R -> result R.

(** The computing part of [run_simulation]: the [try] body up to the
    assignment of [self.results].  The drawing and the dialogs that follow
    belong to the toolkit. *)
Definition run_simulation (self : CMMGUI)
    : result (ConstrainedMixtureModel * results * list event) :=
  let* params := get_current_parameters self in
  let* model := __init__ (Some params) in
  let use_feedback := bool_decide (0 < K_cplus_spin self) in
  let* v := getitem params "protocol" in
  match v with
  | VStr protocol =>
      let* (res, out) := simulate quad model protocol use_feedback in
      Ok (model, res, out)
  | _ => Raise TypeError
  end.

End RunSimulation.

End Gui.

(** ** Keys and series *)

(** The keys the three protocol runs and the aggregation read. *)
Definition engine_keys : list string :=
  ["time"; "lambda_roof"; "a"; "c_c"; "c_e"; "c_g"; "alpha_c"; "gamma";
   "k_cplus"; "k_cminus"; "k_eplus"; "k_eminus"; "lambda0_c"; "lambda0_e";
   "J0"; "Jc0"; "Je0"; "Jg0"; "j_cplus"; "j_eplus"].

(** The result of a run on an empty grid, before aggregation. *)
Definition empty_series : results :=
  {| r_time := []; r_lambda := []; r_sigma_c := []; r_sigma_e := []; r_sigma_g := [];
     r_J_c := []; r_J_e := []; r_J_total := None; r_sigma_total := None |}.

(** ** Further sample records *)

(** A sample record with a base stretch of 1. *)
Definition unstretched_record : pydict :=
  list_to_map [("sigma0_c", VFloat 1.0); ("lambda_roof", VFloat 1.0);
               ("t_end", VFloat 1.0); ("n_points", VInt 2)].

Definition unstretched_dict : pydict := sample_dict unstretched_record 1.0 2 1.0 1.0.

Definition m_unstretched : ConstrainedMixtureModel := {| params := Some unstretched_dict |}.

(** A sample record with an empty grid. *)
Definition empty_grid_record : pydict :=
  list_to_map [("sigma0_c", VFloat 1.0); ("n_points", VInt 0)].

Definition empty_grid_dict : pydict := sample_dict empty_grid_record 10.0 0 1.0 1.0.

Definition m_empty_grid : ConstrainedMixtureModel := {| params := Some empty_grid_dict |}.

(** A sample record with a one-point grid and a tolerance, but no protocol. *)
Definition one_point_record : pydict :=
  list_to_map [("sigma0_c", VFloat 1.0); ("epsilon", VFloat 0.0001); ("n_points", VInt 1)].

Definition one_point_dict : pydict := sample_dict one_point_record 10.0 1 1.0 1.0.

Definition m_one_point : ConstrainedMixtureModel := {| params := Some one_point_dict |}.

(** A sample record with the anisotropy parameter at -1/2. *)
Definition half_gamma_record : pydict :=
  list_to_map [("sigma0_c", VFloat 1.0); ("gamma", VFloat (-0.5));
               ("t_end", VFloat 1.0); ("n_points", VInt 2)].

Definition half_gamma_dict : pydict := sample_dict half_gamma_record 1.0 2 1.0 1.0.

Definition m_half_gamma : ConstrainedMixtureModel := {| params := Some half_gamma_dict |}.

(** The numbers the engine reads in the instance built from the spin boxes
    of the window. *)
Definition gui_env (w : Gui.CMMGUI) : env :=
  {| v_c_c := Gui.c_c_spin w; v_c_e := Gui.c_e_spin w; v_c_g := Gui.c_g_spin w;
     v_k_cplus := Gui.k_cplus_spin w; v_k_cminus := Gui.k_cminus_spin w;
     v_k_eplus := Gui.k_eplus_spin w; v_k_eminus := Gui.k_eminus_spin w;
     v_lambda0_c := Gui.lambda0_c_spin w; v_lambda0_e := Gui.lambda0_e_spin w;
     v_lambda_roof := Gui.lambda_roof_spin w; v_a := Gui.a_spin w;
     v_alpha_c := Gui.alpha_c_spin w; v_gamma := Gui.gamma_spin w;
     v_J0 := 1.0; v_Jc0 := Gui.fi0_c_spin w; v_Je0 := Gui.fi0_e_spin w;
     v_Jg0 := Gui.fi0_g_spin w;
     v_j_cplus := Gui.k_cplus_spin w * Gui.fi0_c_spin w;
     v_j_eplus := Gui.k_eplus_spin w * Gui.fi0_e_spin w;
     v_time := grid (Gui.t_end_spin w) (pyint (Gui.n_points_spin w)) |}.

(** The spin boxes as the window opens, with every stiffness, fraction and
    rate at its default. *)
Definition default_window : Gui.CMMGUI :=
  {| Gui.protocol_type_spin := 0; Gui.a_spin := 0.1; Gui.lambda_roof_spin := 1.1;
     Gui.c_c_spin := 1.0; Gui.c_e_spin := 50.0; Gui.c_g_spin := 10.0;
     Gui.fi0_c_spin := 0.75; Gui.fi0_e_spin := 0.05; Gui.fi0_g_spin := 0.20;
     Gui.lambda0_c_spin := 1.05; Gui.lambda0_e_spin := 1.10;
     Gui.k_cplus_spin := 1.0; Gui.k_cminus_spin := 1.0;
     Gui.k_eplus_spin := 1.0; Gui.k_eminus_spin := 1.0;
     Gui.alpha_c_spin := 0.01; Gui.gamma_spin := 1.0;
     Gui.K_cplus_spin := 0.04; Gui.sigma0_c_spin := 1.0;
     Gui.t_end_spin := 10.0; Gui.n_points_spin := 1000; Gui.epsilon_spin := 0.0001 |}.

(** Sample records: both degradation rates zero with the default synthesis
    rates; a feedback run with a zero tolerance. *)
Definition no_degradation_record : pydict :=
  list_to_map [("sigma0_c", VFloat 1.0); ("k_cminus", VFloat 0.0);
               ("k_eminus", VFloat 0.0); ("t_end", VFloat 1.0); ("n_points", VInt 2)].

Definition no_degradation_dict : pydict := sample_dict no_degradation_record 1.0 2 1.0 1.0.

Definition m_no_degradation : ConstrainedMixtureModel :=
  {| params := Some no_degradation_dict |}.

Definition zero_tolerance_record : pydict :=
  list_to_map [("sigma0_c", VFloat 1.0); ("protocol", VStr "constant");
               ("epsilon", VFloat 0.0); ("t_end", VFloat 1.0); ("n_points", VInt 2)].

Definition zero_tolerance_dict : pydict := sample_dict zero_tolerance_record 1.0 2 1.0 1.0.

Definition m_zero_tolerance : ConstrainedMixtureModel :=
  {| params := Some zero_tolerance_dict |}.

(** * Properties *)

(** ** The error monad *)

Lemma bind_ok {A B} (m : result A) (k : A -> result B) (b : B) :
  bind m k = Ok b -> exists a, m = Ok a /\ k a = Ok b.
Proof. destruct m as [a|e]; simpl; [eauto | discriminate]. Qed.

Lemma is_ok_bind {A B} (m : result A) (k : A -> result B) :
  is_ok m -> (forall a, m = Ok a -> is_ok (k a)) -> is_ok (bind m k).
Proof. intros [a ->] H. simpl. auto. Qed.

Lemma is_ok_Ok {A} (a : A) : is_ok (Ok a).
Proof. exists a. reflexivity. Qed.

Lemma not_ok_Raise {A} (e : exn) : ~ is_ok (@Raise A e).
Proof. intros [a H]. discriminate. Qed.

Lemma mapM_length {A B} (f : A -> result B) (l : list A) (l' : list B) :
  mapM f l = Ok l' -> length l' = length l.
Proof.
  revert l'. induction l as [|x l IH]; simpl; intros l' H.
  - injection H as <-. reflexivity.
  - apply bind_ok in H as [y [_ H]]. apply bind_ok in H as [ys [Hys H]].
    injection H as <-. simpl. f_equal. eauto.
Qed.

Lemma mapM_lookup {A B} (f : A -> result B) (l : list A) (l' : list B) (i : nat) (x : A) :
  mapM f l = Ok l' -> l !! i = Some x -> exists y, f x = Ok y /\ l' !! i = Some y.
Proof.
  revert l' i. induction l as [|x0 l IH]; simpl; intros l' i H Hi; [discriminate|].
  apply bind_ok in H as [y [Hy H]]. apply bind_ok in H as [ys [Hys H]].
  injection H as <-. destruct i as [|i]; simpl in *.
  - injection Hi as <-. eauto.
  - eauto.
Qed.

Lemma mapM_total {A B} (f : A -> result B) (l : list A) :
  (forall i x, l !! i = Some x -> is_ok (f x)) -> is_ok (mapM f l).
Proof.
  induction l as [|x l IH]; simpl; intros H.
  - apply is_ok_Ok.
  - apply is_ok_bind; [apply (H 0%nat); reflexivity|]. intros y _.
    apply is_ok_bind; [apply IH; intros i z Hz; apply (H (S i)); exact Hz|].
    intros ys _. apply is_ok_Ok.
Qed.

Lemma mapM_raise_head {A B} (f : A -> result B) (x : A) (l : list A) (e : exn) :
  f x = Raise e -> mapM f (x :: l) = Raise e.
Proof. intros H. simpl. rewrite H. reflexivity. Qed.

Lemma mapM_ext {A B} (f g : A -> result B) (l : list A) :
  (forall x, f x = g x) -> mapM f l = mapM g l.
Proof. intros H. induction l as [|x l IH]; simpl; [reflexivity|]. rewrite H, IH. reflexivity. Qed.

Lemma mapM_map_ok {A B} (f : A -> result B) (g : A -> B) (l : list A) :
  (forall i x, l !! i = Some x -> f x = Ok (g x)) -> mapM f l = Ok (map g l).
Proof.
  induction l as [|x l IH]; simpl; intros H; [reflexivity|].
  rewrite (H 0%nat x eq_refl). cbn [bind].
  rewrite IH; [reflexivity|]. intros i y Hy. apply (H (S i)). exact Hy.
Qed.

Lemma foldM_ext {A S} (f g : S -> A -> result S) (s : S) (l : list A) :
  (forall s x, f s x = g s x) -> foldM f s l = foldM g s l.
Proof.
  intros H. revert s. induction l as [|x l IH]; simpl; intros s; [reflexivity|].
  rewrite H. destruct (g s x); simpl; auto.
Qed.

Lemma foldM_app {A S} (f : S -> A -> result S) (s : S) (l1 l2 : list A) :
  foldM f s (l1 ++ l2) = bind (foldM f s l1) (fun s' => foldM f s' l2).
Proof.
  revert s. induction l1 as [|x l1 IH]; simpl; intros s; [reflexivity|].
  destruct (f s x); simpl; auto.
Qed.

Lemma enumerate_lookup {A} (l : list A) (i : nat) (x : A) :
  l !! i = Some x -> enumerate l !! i = Some (i, x).
Proof. intros H. unfold enumerate. rewrite list_lookup_imap, H. reflexivity. Qed.

Lemma enumerate_lookup_inv {A} (l : list A) (i j : nat) (x : A) :
  enumerate l !! i = Some (j, x) -> j = i /\ l !! i = Some x.
Proof.
  unfold enumerate. rewrite list_lookup_imap. destruct (l !! i); simpl; [|discriminate].
  intros H. injection H as <- <-. auto.
Qed.

Lemma map_snd_enumerate {A B} (g : A -> B) (l : list A) :
  map (fun ix : nat * A => g (snd ix)) (enumerate l) = map g l.
Proof.
  apply list_eq. intros i. unfold enumerate.
  rewrite !list_lookup_fmap, list_lookup_imap. destruct (l !! i); reflexivity.
Qed.

Lemma mapM_enumerate_map {A B} (f : nat * A -> result B) (g : A -> B) (l : list A) :
  (forall i x, l !! i = Some x -> f (i, x) = Ok (g x)) ->
  mapM f (enumerate l) = Ok (map g l).
Proof.
  intros H. rewrite <- (map_snd_enumerate g l). apply mapM_map_ok.
  intros i [j x] Hx. apply enumerate_lookup_inv in Hx as [-> Hx]. simpl. eauto.
Qed.

Lemma enumerate_length {A} (l : list A) : length (enumerate l) = length l.
Proof. unfold enumerate. apply length_imap. Qed.

(** ** Python arithmetic *)

Lemma pydiv_ok (x y : R) : y <> 0 -> pydiv x y = Ok (x / y).
Proof. intros H. unfold pydiv. rewrite bool_decide_eq_false_2; auto. Qed.

Lemma pydiv_zero (x : R) : pydiv x 0 = Raise ZeroDivisionError.
Proof. unfold pydiv. rewrite bool_decide_eq_true_2; auto. Qed.

Lemma pypow_ok (x y : R) : x <> 0 -> pypow x y = Ok (rpow x y).
Proof. intros H. unfold pypow. rewrite (bool_decide_eq_false_2 (x = 0)); auto. Qed.

Lemma rpow_nonzero (x y : R) : x <> 0 -> rpow x y <> 0.
Proof.
  intros H. unfold rpow. rewrite bool_decide_eq_false_2 by exact H.
  unfold Rpower. apply Rgt_not_eq, exp_pos.
Qed.

Lemma linspace_ok (stop : R) (n : Z) :
  (0 <= n)%Z -> linspace stop n = Ok (grid stop n).
Proof.
  intros H. unfold linspace, grid. destruct (Z.ltb_spec n 0); [lia | reflexivity].
Qed.

Lemma linspace_length (stop : R) (n : Z) (t : list R) :
  linspace stop n = Ok t -> length t = Z.to_nat n.
Proof.
  unfold linspace. destruct (n <? 0)%Z; [discriminate|].
  intros H. injection H as <-. rewrite length_map, length_seq. reflexivity.
Qed.

(** ** Reads of a dict *)

Lemma getitem_insert_ne (p : pydict) (k k' : string) (v : pyval) :
  k <> k' -> getitem (<[k := v]> p) k' = getitem p k'.
Proof. intros H. unfold getitem. rewrite lookup_insert_ne; auto. Qed.

Lemma getitem_insert_eq (p : pydict) (k : string) (v : pyval) :
  getitem (<[k := v]> p) k = Ok v.
Proof. unfold getitem. rewrite lookup_insert_eq. reflexivity. Qed.

Lemma getnum_insert_ne (p : pydict) (k k' : string) (v : pyval) :
  k <> k' -> getnum (<[k := v]> p) k' = getnum p k'.
Proof. intros H. unfold getnum. rewrite getitem_insert_ne; auto. Qed.

Lemma getnum_insert_eq (p : pydict) (k : string) (x : R) :
  getnum (<[k := VFloat x]> p) k = Ok x.
Proof. unfold getnum. rewrite getitem_insert_eq. reflexivity. Qed.

Lemma getint_insert_ne (p : pydict) (k k' : string) (v : pyval) :
  k <> k' -> getint (<[k := v]> p) k' = getint p k'.
Proof. intros H. unfold getint. rewrite getitem_insert_ne; auto. Qed.

Lemma getarr_insert_ne (p : pydict) (k k' : string) (v : pyval) :
  k <> k' -> getarr (<[k := v]> p) k' = getarr p k'.
Proof. intros H. unfold getarr. rewrite getitem_insert_ne; auto. Qed.

Lemma getarr_insert_eq (p : pydict) (k : string) (a : list R) :
  getarr (<[k := VArr a]> p) k = Ok a.
Proof. unfold getarr. rewrite getitem_insert_eq. reflexivity. Qed.

Lemma getnum_getitem (p : pydict) (k : string) (x : R) :
  getnum p k = Ok x -> exists v, p !! k = Some v /\ num v = Ok x.
Proof.
  unfold getnum, getitem. destruct (p !! k) as [v|]; simpl; [eauto | discriminate].
Qed.

Lemma getitem_absent (p : pydict) (k : string) :
  p !! k = None -> getitem p k = Raise (KeyError k).
Proof. intros H. unfold getitem. rewrite H. reflexivity. Qed.

Ltac case_bind :=
  match goal with
  | |- context [bind ?m _] =>
      let E := fresh "E" in destruct m eqn:E; cbn [bind]
  end.

Ltac inv_bind H :=
  let x := fresh "x" in
  let E := fresh "E" in
  apply bind_ok in H as [x [E H]].

(** A closed side condition: a read in a closed dict, or arithmetic. *)
Ltac closed_side :=
  first [ discriminate | reflexivity | lia | lra | (vm_compute; reflexivity) ].

Tactic Notation "inv_bind_as" hyp(H) ident(x) ident(E) :=
  apply bind_ok in H as [x [E H]].

(** ** Methods on a resolved record *)

Ltac split_reads H :=
  destruct H as (Hc_c & Hc_e & Hc_g & Hk_cplus & Hk_cminus & Hk_eplus & Hk_eminus
                 & Hlambda0_c & Hlambda0_e & Hlambda_roof & Ha & Halpha_c & Hgamma
                 & HJ0 & HJc0 & HJe0 & HJg0 & Hj_cplus & Hj_eplus & Htime).

Ltac use_reads :=
  repeat match goal with
    | H : getnum ?p ?k = Ok _ |- context [getnum ?p ?k] => rewrite H; cbn [bind]
    | H : getarr ?p ?k = Ok _ |- context [getarr ?p ?k] => rewrite H; cbn [bind]
    end.

Section Resolved.

Context (self : ConstrainedMixtureModel) (p : pydict) (e : env).
Hypothesis Hself : params self = Some p.
Hypothesis Hreads : reads p e.

Lemma self_params_eq : self_params self = Ok p.
Proof. unfold self_params. rewrite Hself. reflexivity. Qed.

Lemma sigma_c_roof_eq (lam : R) :
  _sigma_c_roof self lam = Ok (sigma_hat (v_c_c e) (v_alpha_c e) lam).
Proof.
  split_reads Hreads. unfold _sigma_c_roof. rewrite self_params_eq. cbn [bind].
  use_reads. reflexivity.
Qed.

Lemma q_c_eq (tau t : R) : _q_c self tau t = Ok (q_val (v_k_cminus e) tau t).
Proof.
  split_reads Hreads. unfold _q_c. rewrite self_params_eq. cbn [bind].
  use_reads. reflexivity.
Qed.

Lemma q_e_eq (tau t : R) : _q_e self tau t = Ok (q_val (v_k_eminus e) tau t).
Proof.
  split_reads Hreads. unfold _q_e. rewrite self_params_eq. cbn [bind].
  use_reads. reflexivity.
Qed.

Lemma Q_c_eq (t : R) : collagen_ok e -> _Q_c self t = Ok (Q_c_val e t).
Proof.
  intros Hok. split_reads Hreads. unfold _Q_c, Q_c_val. rewrite self_params_eq. cbn [bind].
  use_reads.
  destruct (bool_decide (v_k_cminus e = 0) && bool_decide (v_k_cplus e = 0)) eqn:Hb;
    [reflexivity|].
  rewrite pydiv_ok; [reflexivity|].
  intros Hz. rewrite andb_false_iff, !bool_decide_eq_false in Hb.
  destruct Hb as [Hb|Hb]; [exact (Hb Hz) | exact (Hb (Hok Hz))].
Qed.

Lemma Q_c_raises (t : R) :
  v_k_cminus e = 0 -> v_k_cplus e <> 0 -> _Q_c self t = Raise ZeroDivisionError.
Proof.
  intros Hm Hp. split_reads Hreads. unfold _Q_c. rewrite self_params_eq. cbn [bind].
  use_reads. rewrite (bool_decide_eq_false_2 (v_k_cplus e = 0)) by exact Hp.
  rewrite andb_false_r, Hm, pydiv_zero. reflexivity.
Qed.

Lemma Q_e_eq (t : R) : elastin_ok e -> _Q_e self t = Ok (Q_e_val e t).
Proof.
  intros Hok. split_reads Hreads. unfold _Q_e, Q_e_val. rewrite self_params_eq. cbn [bind].
  use_reads.
  destruct (bool_decide (v_k_eminus e = 0) && negb (bool_decide (v_k_eplus e = 0))) eqn:Hb;
    [reflexivity|].
  rewrite pydiv_ok; [reflexivity|].
  intros Hz. rewrite andb_false_iff, negb_false_iff, bool_decide_eq_false,
    bool_decide_eq_true in Hb.
  destruct Hb as [Hb|Hb]; [exact (Hb Hz) | exact (Hok Hz Hb)].
Qed.

Lemma Q_e_raises (t : R) :
  v_k_eminus e = 0 -> v_k_eplus e = 0 -> _Q_e self t = Raise ZeroDivisionError.
Proof.
  intros Hm Hp. split_reads Hreads. unfold _Q_e. rewrite self_params_eq. cbn [bind].
  use_reads. rewrite (bool_decide_eq_true_2 (v_k_eplus e = 0)) by exact Hp.
  cbn [negb]. rewrite andb_false_r, Hm, pydiv_zero. reflexivity.
Qed.

Lemma calc_sigma_g_eq (t lam : R) :
  v_J0 e <> 0 -> _calc_sigma_g self t lam = Ok (sigma_g_val e lam).
Proof.
  intros HJ. split_reads Hreads. unfold _calc_sigma_g, sigma_g_val.
  rewrite self_params_eq. cbn [bind]. use_reads.
  rewrite pydiv_ok by exact HJ. cbn [bind]. use_reads. reflexivity.
Qed.

End Resolved.

(** ** Construction *)

Lemma sigma0_c_unset_merged (user : option pydict) :
  sigma0_c_unset user ->
  (default ∅ user ∪ default_params) !! "sigma0_c" = Some VNone.
Proof.
  destruct user as [d|]; cbn [sigma0_c_unset default].
  - intros [H|H].
    + rewrite lookup_union_r by exact H. reflexivity.
    + erewrite lookup_union_Some_l; eauto.
  - intros _. rewrite lookup_union_r by apply lookup_empty. reflexivity.
Qed.

Lemma merged_has_default (d : pydict) (k : string) :
  is_Some (default_params !! k) -> is_Some ((d ∪ default_params) !! k).
Proof. intros H. apply lookup_union_is_Some. auto. Qed.

(** With the homeostatic stress unset, the resolver reaches the call of
    [_sigma_c_roof] on an instance that has no [params] yet: no record of
    that kind is ever resolved. *)
Lemma validate_unset_raises (user : option pydict) :
  sigma0_c_unset user ->
  exists e, _validate_and_complete_params {| params := None |} user = Raise e.
Proof.
  intros H%sigma0_c_unset_merged.
  unfold _validate_and_complete_params.
  do 6 (case_bind; [|eauto]).
  unfold getitem. rewrite ?lookup_insert_ne by done. rewrite H. cbn [bind].
  do 5 (case_bind; [|eauto]).
  unfold _sigma_c_roof. cbn. eauto.
Qed.

Lemma init_unset_never_resolves (user : option pydict) :
  sigma0_c_unset user -> exists e, __init__ user = Raise e.
Proof.
  intros [e H]%validate_unset_raises.
  unfold __init__. rewrite H. cbn. eauto.
Qed.

(** The same, with the exception named: when the reads and the dead power
    [Gx_c0] before the call go through, it is [AttributeError]. *)
Lemma validate_unset_attribute_error (user : option pydict) (T : R) (n : Z) (Jc g l0 : R) :
  let c := default ∅ user ∪ default_params in
  c !! "sigma0_c" = Some VNone ->
  getnum c "t_end" = Ok T -> getint c "n_points" = Ok n -> (0 <= n)%Z ->
  getnum c "fi0_c" = Ok Jc -> getnum c "gamma" = Ok g -> 1 + 2 * g <> 0 -> Jc <> 0 ->
  getnum c "lambda0_c" = Ok l0 ->
  _validate_and_complete_params {| params := None |} user = Raise (AttributeError "params").
Proof.
  intros c Hs HT Hn Hpos HJc Hg Hg0 HJ0 Hl. unfold c in *. clear c.
  destruct (getnum_getitem _ _ _ HJc) as (fc & Hfc & Hfcn).
  destruct (merged_has_default (default ∅ user) "fi0_e") as [fe Hfe]; [eexists; reflexivity|].
  destruct (merged_has_default (default ∅ user) "fi0_g") as [fg Hfg]; [eexists; reflexivity|].
  unfold _validate_and_complete_params.
  rewrite HT, Hn. cbn [bind]. rewrite linspace_ok by exact Hpos. cbn [bind].
  unfold getitem at 1. rewrite ?lookup_insert_ne by done. rewrite Hfc. cbn [bind].
  unfold getitem at 1. rewrite ?lookup_insert_ne by done. rewrite Hfe. cbn [bind].
  unfold getitem at 1. rewrite ?lookup_insert_ne by done. rewrite Hfg. cbn [bind].
  unfold getitem at 1. rewrite ?lookup_insert_ne by done. rewrite Hs. cbn [bind].
  unfold getnum at 1. rewrite ?getitem_insert_ne by done.
  rewrite getitem_insert_eq. cbn [bind]. rewrite Hfcn. cbn [bind].
  rewrite getnum_insert_ne by done.
  rewrite ?getnum_insert_ne by done.
  rewrite Hg. cbn [bind]. rewrite pydiv_ok by exact Hg0. cbn [bind].
  rewrite pypow_ok by exact HJ0. cbn [bind]. rewrite Hl. cbn [bind].
  reflexivity.
Qed.

(** C1. Source: [__init__] and [_validate_and_complete_params].  Built with
    no record at all (so with no homeostatic stress supplied), the
    constructor does not return an instance: deriving the stress calls
    [_sigma_c_roof], which reads [self.params] before [__init__] has
    assigned it, and the call ends in [AttributeError]. *)
Theorem C1_default_construct_raises :
  __init__ None = Raise (AttributeError "params").
Proof.
  unfold __init__.
  rewrite (validate_unset_attribute_error None 10.0 1000 0.75 1.0 1.05);
    [reflexivity | try (vm_compute; reflexivity) ..]; try lia; lra.
Qed.

(** With a homeostatic stress supplied, the resolver validates nothing: it
    merges, builds the grid and copies the fractions. *)
Lemma validate_supplied (self : ConstrainedMixtureModel) (user : option pydict)
    (s0 fc fe fg : pyval) (T : R) (n : Z) :
  let c := default ∅ user ∪ default_params in
  c !! "sigma0_c" = Some s0 -> s0 <> VNone ->
  getnum c "t_end" = Ok T -> getint c "n_points" = Ok n -> (0 <= n)%Z ->
  c !! "fi0_c" = Some fc -> c !! "fi0_e" = Some fe -> c !! "fi0_g" = Some fg ->
  _validate_and_complete_params self user
  = Ok (<["Jg0" := fg]> (<["Je0" := fe]> (<["Jc0" := fc]>
          (<["J0" := VFloat 1.0]> (<["time" := VArr (grid T n)]> c))))).
Proof.
  intros c Hs Hs0 HT Hn Hpos Hfc Hfe Hfg. unfold c in *. clear c.
  unfold _validate_and_complete_params.
  rewrite HT, Hn. cbn [bind]. rewrite linspace_ok by exact Hpos. cbn [bind].
  unfold getitem at 1. rewrite ?lookup_insert_ne by done. rewrite Hfc. cbn [bind].
  unfold getitem at 1. rewrite ?lookup_insert_ne by done. rewrite Hfe. cbn [bind].
  unfold getitem at 1. rewrite ?lookup_insert_ne by done. rewrite Hfg. cbn [bind].
  unfold getitem at 1. rewrite ?lookup_insert_ne by done. rewrite Hs. cbn [bind].
  destruct s0; try reflexivity. congruence.
Qed.

Lemma init_supplied (user : option pydict) (s0 fc fe fg : pyval) (T : R) (n : Z)
    (kc Jc ke Je : R) :
  let c := default ∅ user ∪ default_params in
  c !! "sigma0_c" = Some s0 -> s0 <> VNone ->
  getnum c "t_end" = Ok T -> getint c "n_points" = Ok n -> (0 <= n)%Z ->
  c !! "fi0_c" = Some fc -> c !! "fi0_e" = Some fe -> c !! "fi0_g" = Some fg ->
  c !! "j_cplus" = None -> c !! "j_eplus" = None ->
  getnum c "k_cplus" = Ok kc -> num fc = Ok Jc ->
  getnum c "k_eplus" = Ok ke -> num fe = Ok Je ->
  __init__ user
  = Ok {| params := Some (resolved_dict c (grid T n) fc fe fg kc Jc ke Je) |}.
Proof.
  intros c Hs Hs0 HT Hn Hpos Hfc Hfe Hfg Hjc Hje Hkc HJc Hke HJe.
  pose proof (validate_supplied {| params := None |} user s0 fc fe fg T n
                Hs Hs0 HT Hn Hpos Hfc Hfe Hfg) as Hv.
  fold c in Hv.
  unfold __init__. rewrite Hv. cbn [bind].
  rewrite ?lookup_insert_ne by done. rewrite Hjc.
  rewrite ?getnum_insert_ne by done. rewrite Hkc. cbn [bind].
  unfold getnum at 1. rewrite ?getitem_insert_ne by done.
  rewrite getitem_insert_eq. cbn [bind]. rewrite HJc. cbn [bind].
  rewrite ?lookup_insert_ne by done. rewrite Hje.
  rewrite ?getnum_insert_ne by done. rewrite Hke. cbn [bind].
  unfold getnum at 1. rewrite ?getitem_insert_ne by done.
  rewrite getitem_insert_eq. cbn [bind]. rewrite HJe. cbn [bind].
  reflexivity.
Qed.

(** Whatever the record, a key the constructor does not write is read
    after construction as in the merge of the record over the defaults. *)
Lemma validate_frame (self : ConstrainedMixtureModel) (user : option pydict)
    (p : pydict) (k : string) :
  _validate_and_complete_params self user = Ok p ->
  k ∉ derived_keys ->
  p !! k = (default ∅ user ∪ default_params) !! k.
Proof.
  intros H Hk. unfold derived_keys in Hk.
  rewrite !not_elem_of_cons in Hk.
  destruct Hk as (? & ? & ? & ? & ? & ? & ? & ? & _).
  unfold _validate_and_complete_params in H.
  do 7 inv_bind H.
  destruct x5; try (injection H as <-; rewrite !lookup_insert_ne by congruence; reflexivity).
  do 9 inv_bind H.
  injection H as <-. rewrite !lookup_insert_ne by congruence. reflexivity.
Qed.

Lemma init_frame (user : option pydict) (self : ConstrainedMixtureModel) (k : string) :
  __init__ user = Ok self ->
  k ∉ derived_keys ->
  exists p, params self = Some p /\ p !! k = (default ∅ user ∪ default_params) !! k.
Proof.
  intros H Hk. unfold __init__ in H.
  inv_bind_as H x E.
  pose proof (validate_frame _ _ _ _ E Hk) as Hf.
  assert (Hk' : k <> "j_cplus" /\ k <> "j_eplus").
  { unfold derived_keys in Hk. rewrite !not_elem_of_cons in Hk. tauto. }
  destruct Hk' as [Hk1 Hk2].
  inv_bind_as H x0 E0. inv_bind_as H x1 E1. injection H as <-.
  exists x1. split; [reflexivity|].
  assert (H0 : x0 !! k = x !! k).
  { destruct (x !! "j_cplus").
    - injection E0 as <-. reflexivity.
    - do 2 inv_bind E0. injection E0 as <-. rewrite lookup_insert_ne by congruence.
      reflexivity. }
  assert (H1 : x1 !! k = x0 !! k).
  { destruct (x0 !! "j_eplus").
    - injection E1 as <-. reflexivity.
    - do 2 inv_bind E1. injection E1 as <-. rewrite lookup_insert_ne by congruence.
      reflexivity. }
  congruence.
Qed.

(** The stand-alone resolver does validate: a record it resolves has a
    usable collagen degradation rate and a positive growth coefficient. *)
Lemma get_parameters_validates (overrides : option pydict) (p : pydict) :
  Constans.get_parameters overrides = Ok p ->
  exists km kp a,
    getnum p "k_cminus" = Ok km /\ getnum p "k_cplus" = Ok kp /\ getnum p "a" = Ok a
    /\ ~ (km = 0 /\ kp <> 0) /\ 0 < a.
Proof.
  intros H. unfold Constans.get_parameters in H.
  do 8 inv_bind H. inv_bind_as H q Eq.
  inv_bind_as H km Ekm. inv_bind_as H kp Ekp.
  destruct (bool_decide (km = 0) && negb (bool_decide (kp = 0))) eqn:Hb; [discriminate|].
  inv_bind_as H a Ea.
  destruct (bool_decide (a <= 0)) eqn:Ha; [discriminate|].
  do 2 inv_bind H. inv_bind_as H t Et. injection H as <-.
  exists km, kp, a.
  assert (Hfr : forall k, k <> "time" -> k <> "omega" ->
                 getnum (<["time" := VArr t]>
                           match q !! "omega" with
                           | Some _ => q
                           | None => <["omega" := VFloat PI]> q
                           end) k = getnum q k).
  { intros k H1 H2. rewrite getnum_insert_ne by congruence.
    destruct (q !! "omega"); [reflexivity|].
    rewrite getnum_insert_ne by congruence. reflexivity. }
  rewrite !Hfr by done. repeat split; try assumption.
  - intros [Hm Hp]. rewrite andb_false_iff, negb_false_iff, bool_decide_eq_false,
      bool_decide_eq_true in Hb. tauto.
  - rewrite bool_decide_eq_false in Ha. lra.
Qed.

(** On a record that supplies its homeostatic stress, the two checks of
    [get_parameters] are reached and answer with their own messages. *)
Lemma get_parameters_supplied (overrides : option pydict) (s0 fc fe fg : pyval)
    (Jc Je kp ke km a : R) :
  let c := default ∅ overrides ∪ Constans.DEFAULT_PARAMS in
  c !! "sigma0_c" = Some s0 -> s0 <> VNone ->
  c !! "fi0_c" = Some fc -> c !! "fi0_e" = Some fe -> c !! "fi0_g" = Some fg ->
  num fc = Ok Jc -> num fe = Ok Je ->
  getnum c "k_cplus" = Ok kp -> getnum c "k_eplus" = Ok ke ->
  getnum c "k_cminus" = Ok km -> getnum c "a" = Ok a ->
  (km = 0 -> kp <> 0 ->
   Constans.get_parameters overrides
   = Raise (ValueError "k_cminus cannot be 0 when k_cplus != 0"))
  /\ (~ (km = 0 /\ kp <> 0) -> a <= 0 ->
      Constans.get_parameters overrides
      = Raise (ValueError "Parameter 'a' must be > 0")).
Proof.
  intros c Hs Hs0 Hfc Hfe Hfg HJc HJe Hkp Hke Hkm Ha. unfold c in *. clear c.
  assert (Heq : exists rest,
    Constans.get_parameters overrides
    = if bool_decide (km = 0) && negb (bool_decide (kp = 0)) then
        Raise (ValueError "k_cminus cannot be 0 when k_cplus != 0")
      else if bool_decide (a <= 0) then Raise (ValueError "Parameter 'a' must be > 0")
      else rest).
  { eexists. unfold Constans.get_parameters.
    unfold getitem at 1. rewrite ?lookup_insert_ne by done. rewrite Hfc. cbn [bind].
    unfold getitem at 1. rewrite ?lookup_insert_ne by done. rewrite Hfe. cbn [bind].
    unfold getitem at 1. rewrite ?lookup_insert_ne by done. rewrite Hfg. cbn [bind].
    rewrite ?getnum_insert_ne by done. rewrite Hkp. cbn [bind].
    unfold getnum at 1. rewrite ?getitem_insert_ne by done.
    rewrite getitem_insert_eq. cbn [bind]. rewrite HJc. cbn [bind].
    rewrite ?getnum_insert_ne by done. rewrite Hke. cbn [bind].
    unfold getnum at 1. rewrite ?getitem_insert_ne by done.
    rewrite getitem_insert_eq. cbn [bind]. rewrite HJe. cbn [bind].
    unfold getitem at 1. rewrite ?lookup_insert_ne by done. rewrite Hs. cbn [bind].
    assert (Hm : forall (A : Type) (x y : A),
               match s0 with VNone => x | _ => y end = y)
      by (intros; destruct s0; congruence).
    rewrite Hm. cbn [bind].
    rewrite ?getnum_insert_ne by done. rewrite Hkm, Hkp. cbn [bind].
    rewrite Ha. cbn [bind]. reflexivity. }
  destruct Heq as [rest Heq]. rewrite Heq. split.
  - intros Hm Hp. rewrite (bool_decide_eq_true_2 _ Hm), (bool_decide_eq_false_2 _ Hp).
    reflexivity.
  - intros Hn Hle.
    destruct (bool_decide (km = 0) && negb (bool_decide (kp = 0))) eqn:Hb.
    + rewrite andb_true_iff, negb_true_iff, bool_decide_eq_true, bool_decide_eq_false in Hb.
      tauto.
    + rewrite (bool_decide_eq_true_2 _ Hle). reflexivity.
Qed.

(** C2. Source: [__init__] with [_validate_and_complete_params], against
    [get_parameters].  The constructor accepts a record whose collagen
    degradation rate is zero while the synthesis rate is one, and a record
    whose growth coefficient is zero: it returns an instance, with no
    validation failure.  The stand-alone resolver rejects the same two
    records, each with its labelled [ValueError]. *)
Theorem C2_construct_accepts_invalid_records :
  is_ok (__init__ (Some zero_degradation))
  /\ is_ok (__init__ (Some zero_growth))
  /\ Constans.get_parameters (Some zero_degradation)
     = Raise (ValueError "k_cminus cannot be 0 when k_cplus != 0")
  /\ Constans.get_parameters (Some zero_growth)
     = Raise (ValueError "Parameter 'a' must be > 0").
Proof.
  split; [|split; [|split]].
  - rewrite (init_supplied (Some zero_degradation) (VFloat 1.0) (VFloat 0.75)
               (VFloat 0.05) (VFloat 0.20) 10.0 1000 1.0 0.75 1.0 0.05);
      [apply is_ok_Ok | closed_side ..].
  - rewrite (init_supplied (Some zero_growth) (VFloat 1.0) (VFloat 0.75)
               (VFloat 0.05) (VFloat 0.20) 10.0 1000 1.0 0.75 1.0 0.05);
      [apply is_ok_Ok | closed_side ..].
  - apply (get_parameters_supplied (Some zero_degradation) (VFloat 1.0) (VFloat 0.75)
             (VFloat 0.05) (VFloat 0.20) 0.75 0.05 1.0 1.0 0.0 0.1); closed_side.
  - apply (get_parameters_supplied (Some zero_growth) (VFloat 1.0) (VFloat 0.75)
             (VFloat 0.05) (VFloat 0.20) 0.75 0.05 1.0 1.0 1.0 0.0); closed_side.
Qed.

(** ** The constant protocol *)

Section ConstantProtocol.

Context (self : ConstrainedMixtureModel) (p : pydict) (e : env).
Hypothesis Hself : params self = Some p.
Hypothesis Hreads : reads p e.

(** On a resolved record whose total-mass functions return, the constant
    protocol returns, with the closed-form series. *)
Lemma constant_protocol_eq :
  collagen_ok e -> elastin_ok e -> v_J0 e <> 0 ->
  _constant_protocol self = Ok (constant_series e).
Proof.
  intros Hc He HJ. pose proof Hreads as Hr. split_reads Hr.
  unfold _constant_protocol. rewrite (self_params_eq self p Hself). cbn [bind].
  use_reads.
  rewrite (mapM_enumerate_map _
    (fun ti =>
       {| w_lambda := v_lambda_roof e;
          w_J_c := v_Jc0 e * Q_c_val e ti;
          w_J_e := v_Je0 e * Q_e_val e ti;
          w_J_total := 0;
          w_sigma_c := sigma_hat (v_c_c e) (v_alpha_c e) (v_lambda_roof e)
                       * (v_Jc0 e * Q_c_val e ti);
          w_sigma_e := 4 * v_c_e e * v_lambda_roof e ^ 2 * (v_lambda_roof e ^ 2 - 1)
                       * (v_Je0 e * Q_e_val e ti);
          w_sigma_g := sigma_g_val e (v_lambda_roof e) |})).
  - cbn [bind]. unfold constant_series. rewrite !map_map. reflexivity.
  - intros i ti _.
    rewrite (Q_c_eq self p e Hself Hreads ti Hc). cbn [bind].
    rewrite (Q_e_eq self p e Hself Hreads ti He). cbn [bind].
    use_reads.
    rewrite (sigma_c_roof_eq self p e Hself Hreads). cbn [bind].
    use_reads.
    rewrite (calc_sigma_g_eq self p e Hself Hreads ti _ HJ). cbn [bind].
    reflexivity.
Qed.

(** An exception of a total-mass function at the first grid time leaves
    through the protocol. *)
Lemma constant_protocol_raises (t0 : R) (tl : list R) (x : exn) :
  v_time e = t0 :: tl ->
  _Q_c self t0 = Raise x \/ (is_ok (_Q_c self t0) /\ _Q_e self t0 = Raise x) ->
  _constant_protocol self = Raise x.
Proof.
  intros Ht HQ. pose proof Hreads as Hr. split_reads Hr.
  unfold _constant_protocol. rewrite (self_params_eq self p Hself). cbn [bind].
  use_reads. rewrite Ht. unfold enumerate. cbn [imap mapM].
  destruct HQ as [HQ | [[y HQc] HQ]].
  - rewrite HQ. reflexivity.
  - rewrite HQc. cbn [bind]. rewrite HQ. reflexivity.
Qed.

End ConstantProtocol.

(** ** Dispatch *)

Lemma simulate_unknown_protocol (quad : (R -> result R) -> R -> R -> result R)
    (self : ConstrainedMixtureModel) (protocol : string) (feedback : bool) :
  protocol <> "constant" -> protocol <> "linear" -> protocol <> "cyclic" ->
  simulate quad self protocol feedback
  = Raise (ValueError ("Unknown protocol: " ++ protocol)).
Proof.
  intros H1 H2 H3. unfold simulate, protocol_funcs.
  rewrite <- String.eqb_neq in H1, H2, H3. rewrite H1, H2, H3. reflexivity.
Qed.

Lemma simulate_base_raises (quad : (R -> result R) -> R -> R -> result R)
    (self : ConstrainedMixtureModel) (protocol : string) (feedback : bool) (x : exn) :
  protocol_funcs quad self protocol = Some (Raise x) ->
  simulate quad self protocol feedback = Raise x.
Proof. intros H. unfold simulate. rewrite H. reflexivity. Qed.

(** ** Zero turnover rates *)

(** With both collagen rates zero, the collagen guard answers 1. *)
Lemma Q_c_zero_rates (self : ConstrainedMixtureModel) (p : pydict) (t : R) :
  params self = Some p ->
  getnum p "k_cminus" = Ok 0 -> getnum p "k_cplus" = Ok 0 ->
  _Q_c self t = Ok 1.0.
Proof.
  intros Hs Hm Hp. unfold _Q_c, self_params. rewrite Hs. cbn [bind].
  rewrite Hm, Hp. cbn [bind]. rewrite !bool_decide_eq_true_2 by reflexivity. reflexivity.
Qed.

(** With both elastin rates zero, the elastin guard does not answer, and
    the closed form divides by the zero degradation rate. *)
Lemma Q_e_zero_rates (self : ConstrainedMixtureModel) (p : pydict) (t : R) :
  params self = Some p ->
  getnum p "k_eminus" = Ok 0 -> getnum p "k_eplus" = Ok 0 ->
  _Q_e self t = Raise ZeroDivisionError.
Proof.
  intros Hs Hm Hp. unfold _Q_e, self_params. rewrite Hs. cbn [bind].
  rewrite Hm, Hp. cbn [bind]. rewrite !bool_decide_eq_true_2 by reflexivity.
  cbn [negb andb]. rewrite pydiv_zero. reflexivity.
Qed.

Lemma init_no_elastin_turnover :
  __init__ (Some no_elastin_turnover) = Ok m_no_elastin_turnover.
Proof.
  rewrite (init_supplied (Some no_elastin_turnover) (VFloat 1.0) (VFloat 0.75)
             (VFloat 0.05) (VFloat 0.20) 1.0 2 1.0 0.75 0.0 0.05);
    [reflexivity | closed_side ..].
Qed.

Ltac closed_reads := repeat split; vm_compute; reflexivity.

Lemma reads_no_elastin_turnover :
  reads (sample_dict no_elastin_turnover 1.0 2 1.0 0.0)
        (env_of (sample_dict no_elastin_turnover 1.0 2 1.0 0.0)).
Proof. closed_reads. Qed.

(** C8. Source: [_Q_e], against [_Q_c].  For the record with both elastin
    rates zero (homeostatic stress supplied, two grid points), construction
    succeeds, but the elastin total-mass function raises
    [ZeroDivisionError] at every time instead of returning 1: its guard
    tests [k_eplus != 0] where the collagen guard tests [k_cplus == 0].  The
    constant-protocol run then ends in that exception and yields no volume
    fraction at all. *)
Theorem C8_elastin_zero_rates_divide :
  __init__ (Some no_elastin_turnover) = Ok m_no_elastin_turnover
  /\ getnum (sample_dict no_elastin_turnover 1.0 2 1.0 0.0) "k_eplus" = Ok 0.0
  /\ getnum (sample_dict no_elastin_turnover 1.0 2 1.0 0.0) "k_eminus" = Ok 0.0
  /\ (forall t, _Q_e m_no_elastin_turnover t = Raise ZeroDivisionError)
  /\ (forall t, _calc_J_e m_no_elastin_turnover t = Raise ZeroDivisionError)
  /\ (forall quad feedback,
        simulate quad m_no_elastin_turnover "constant" feedback = Raise ZeroDivisionError).
Proof.
  assert (HQ : forall t, _Q_e m_no_elastin_turnover t = Raise ZeroDivisionError).
  { intros t.
    apply (Q_e_zero_rates m_no_elastin_turnover
             (sample_dict no_elastin_turnover 1.0 2 1.0 0.0) t eq_refl).
    - replace 0 with 0.0 by lra. vm_compute; reflexivity.
    - replace 0 with 0.0 by lra. vm_compute; reflexivity. }
  split; [exact init_no_elastin_turnover|].
  split; [vm_compute; reflexivity|]. split; [vm_compute; reflexivity|].
  split; [exact HQ|]. split.
  - intros t. unfold _calc_J_e. cbn [self_params m_no_elastin_turnover params bind].
    assert (HJ : getnum (sample_dict no_elastin_turnover 1.0 2 1.0 0.0) "Je0" = Ok 0.05)
      by (vm_compute; reflexivity).
    rewrite HJ. cbn [bind]. rewrite HQ. reflexivity.
  - intros quad feedback. apply simulate_base_raises.
    unfold protocol_funcs. cbn [String.eqb Ascii.eqb Bool.eqb]. f_equal.
    apply (constant_protocol_raises m_no_elastin_turnover _ _ eq_refl
             reads_no_elastin_turnover
             (INR 0 * (1.0 / (INR (Z.to_nat 2) - 1)))
             [INR 1 * (1.0 / (INR (Z.to_nat 2) - 1))]).
    + vm_compute; reflexivity.
    + right. split; [|apply HQ].
      rewrite (Q_c_eq m_no_elastin_turnover _ _ eq_refl reads_no_elastin_turnover).
      * apply is_ok_Ok.
      * unfold collagen_ok.
        assert (Hk : v_k_cminus (env_of (sample_dict no_elastin_turnover 1.0 2 1.0 0.0)) = 1.0)
          by (vm_compute; reflexivity).
        rewrite Hk. lra.
Qed.

(** ** The feedback solver *)

Lemma arr_get_nth (l : list R) (j : nat) :
  (j < length l)%nat -> arr_get l j = Ok (nth j l 0).
Proof.
  intros H. unfold arr_get. rewrite nth_lookup.
  destruct (lookup_lt_is_Some_2 l j H) as [x ->]. reflexivity.
Qed.

Lemma arr_get_out (l : list R) (j : nat) :
  (length l <= j)%nat -> arr_get l j = Raise IndexError.
Proof. intros H. unfold arr_get. rewrite lookup_ge_None_2 by exact H. reflexivity. Qed.

Lemma sum_list_cons (x : R) (l : list R) : sum_list (x :: l) = x + sum_list l.
Proof. reflexivity. Qed.

Section Solver.

Context (self : ConstrainedMixtureModel) (p : pydict) (e : env).
Hypothesis Hself : params self = Some p.
Hypothesis Hreads : reads p e.
Context (proto : pyval).
Hypothesis Hproto : p !! "protocol" = Some proto.

Lemma lambda_tau_at_eq (tj : R) : lambda_tau_at p tj = Ok (stretch_of proto e tj).
Proof.
  pose proof Hreads as Hr. split_reads Hr.
  unfold lambda_tau_at, stretch_of, getitem. rewrite Hproto. cbn [bind].
  destruct (pyeq_str proto "constant"); [exact Hlambda_roof|].
  destruct (pyeq_str proto "linear"); use_reads; reflexivity.
Qed.

Context (t sfb jfb : list R) (i : nat) (ti sigma_prev J_prev k ff : R).
Hypothesis Hi : (i < length t)%nat.
Hypothesis Hsfb : length sfb = length t.
Hypothesis Hjfb : length jfb = length t.

Lemma sum_body_eq (acc : sums) (j : nat) :
  (1 <= j <= i)%nat ->
  sum_body self p t sfb jfb i ti sigma_prev J_prev k ff acc j
  = Ok {| integral_sigma :=
            integral_sigma acc
            + 0.5 * (nth j t 0 - nth (j - 1) t 0)
              * term_sigma_at proto e t jfb i ti J_prev k ff j;
          integral_J :=
            integral_J acc
            + 0.5 * (nth j t 0 - nth (j - 1) t 0) * term_J_at e t jfb i ti J_prev k ff j;
          last_lambda_tau := Some (stretch_of proto e (nth j t 0)) |}.
Proof.
  intros Hj. unfold sum_body.
  rewrite (arr_get_nth t j) by lia. cbn [bind].
  rewrite (bool_decide_eq_true_2 (0 < j)%nat) by lia.
  rewrite (arr_get_nth t (j - 1)) by lia. cbn [bind].
  assert (HJ : (if bool_decide (j < i)%nat then arr_get jfb j else Ok J_prev)
               = Ok (J_at jfb i J_prev j)).
  { unfold J_at. destruct (bool_decide (j < i)%nat) eqn:Hb; [|reflexivity].
    apply bool_decide_eq_true in Hb. apply arr_get_nth. lia. }
  rewrite HJ. cbn [bind].
  assert (HS : exists s, (if bool_decide (j < i)%nat then arr_get sfb j else Ok sigma_prev)
                         = Ok s).
  { destruct (bool_decide (j < i)%nat) eqn:Hb; [|eauto].
    apply bool_decide_eq_true in Hb. rewrite arr_get_nth by lia. eauto. }
  destruct HS as [s ->]. cbn [bind].
  rewrite (arr_get_nth jfb (j - 1)) by lia. cbn [bind].
  rewrite (arr_get_nth sfb (j - 1)) by lia. cbn [bind].
  rewrite lambda_tau_at_eq. cbn [bind].
  rewrite (sigma_c_roof_eq self p e Hself Hreads). cbn [bind].
  rewrite (q_c_eq self p e Hself Hreads). cbn [bind].
  reflexivity.
Qed.

(** The [j] loop from [a] on, [len] passes. *)
Lemma sum_loop_eq (len a : nat) (acc : sums) :
  (1 <= a)%nat -> (a + len <= S i)%nat ->
  foldM (sum_body self p t sfb jfb i ti sigma_prev J_prev k ff) acc (seq a len)
  = Ok {| integral_sigma :=
            integral_sigma acc
            + sum_list (map (fun j : nat =>
                               0.5 * (nth j t 0 - nth (j - 1) t 0)
                               * term_sigma_at proto e t jfb i ti J_prev k ff j)
                          (seq a len));
          integral_J :=
            integral_J acc
            + sum_list (map (fun j : nat =>
                               0.5 * (nth j t 0 - nth (j - 1) t 0)
                               * term_J_at e t jfb i ti J_prev k ff j)
                          (seq a len));
          last_lambda_tau :=
            match len with
            | O => last_lambda_tau acc
            | S _ => Some (stretch_of proto e (nth (a + len - 1) t 0))
            end |}.
Proof.
  revert a acc. induction len as [|len IH]; intros a acc Ha Hlen.
  - cbn [seq foldM map sum_list foldr]. destruct acc.
    cbn [integral_sigma integral_J last_lambda_tau]. f_equal. f_equal; clear; lra.
  - cbn [seq foldM]. rewrite sum_body_eq by lia. cbn [bind].
    rewrite IH by lia. cbn [integral_sigma integral_J last_lambda_tau].
    rewrite !map_cons, !sum_list_cons.
    f_equal. f_equal.
    + lra.
    + lra.
    + destruct len; [replace (a + 1 - 1)%nat with a by lia; reflexivity|].
      replace (S a + S len - 1)%nat with (a + S (S len) - 1)%nat by lia. reflexivity.
Qed.

End Solver.

(** The attempt loop, for any body that returns. *)
Lemma iterate_spec (body : R -> R -> result (R * R)) (epsilon : pyval) (eps : R) :
  (forall sp jp, is_ok (body sp jp)) -> num epsilon = Ok eps ->
  forall (k : nat) (sp jp : R) (last : option (R * R)) (count : nat),
  exists o,
    iterate body epsilon k sp jp last count = Ok o
    /\ (count <= attempts o <= count + k)%nat
    /\ ((0 < k)%nat -> (count < attempts o)%nat)
    /\ (converged o = false -> attempts o = (count + k)%nat)
    /\ (attempts o = count -> estimate o = last)
    /\ ((count < attempts o)%nat ->
        exists sp' jp' est, estimate o = Some est /\ body sp' jp' = Ok est).
Proof.
  intros Hbody Heps. induction k as [|k IH]; intros sp jp last count.
  - eexists. split; [reflexivity|]. cbn [attempts converged estimate].
    repeat split; intros; try lia; auto.
  - cbn [iterate]. destruct (Hbody sp jp) as [[sn jn] Hb]. rewrite Hb. cbn [bind].
    rewrite Heps. cbn [bind].
    destruct (bool_decide (Rabs (sn - sp) < eps) && bool_decide (Rabs (jn - jp) < eps)).
    + eexists. split; [reflexivity|]. cbn [attempts converged estimate].
      repeat split; try lia; try discriminate. intros _. eauto.
    + destruct (IH sn jn (Some (sn, jn)) (S count))
        as (o & Ho & Hle & _ & Hnc & Heq & Hlt).
      exists o. split; [exact Ho|]. repeat split; try lia.
      * intros Hc. rewrite (Hnc Hc). lia.
      * intros _. destruct (Nat.eq_dec (attempts o) (S count)) as [Hs|Hs].
        -- rewrite (Heq Hs). eauto.
        -- apply Hlt. lia.
Qed.

Section Attempt.

Context (self : ConstrainedMixtureModel) (p : pydict) (e : env).
Hypothesis Hself : params self = Some p.
Hypothesis Hreads : reads p e.
Context (proto : pyval).
Hypothesis Hproto : p !! "protocol" = Some proto.
Hypothesis HJ0nz : v_J0 e <> 0.
Context (res : results) (t : list R).
Hypothesis HLe : length (r_J_e res) = length t.
Hypothesis HLs : length (r_sigma_c res) = length t.
Hypothesis HLc : length (r_J_c res) = length t.
Context (Kv kv epsv : pyval) (K k eps sigma0_c : R).
Hypothesis HK : num Kv = Ok K.
Hypothesis Hk : num kv = Ok k.
Hypothesis Heps : num epsv = Ok eps.

Lemma attempt_eq (sfb jfb : list R) (i : nat) (ti sigma_prev J_prev : R) :
  (1 <= i < length t)%nat -> length sfb = length t -> length jfb = length t ->
  attempt self p res t sfb jfb i ti Kv kv sigma0_c sigma_prev J_prev
  = Ok (estimate_of proto e res t jfb i ti K k sigma0_c sigma_prev J_prev).
Proof.
  intros Hi Hsfb Hjfb. pose proof Hreads as Hr. split_reads Hr.
  unfold attempt. rewrite HK, Hk. cbn [bind].
  rewrite (sum_loop_eq self p e Hself Hreads proto Hproto t sfb jfb i ti) by lia.
  cbn [bind integral_sigma integral_J last_lambda_tau].
  rewrite (arr_get_nth (r_J_e res) i) by lia. cbn [bind].
  use_reads. rewrite pydiv_ok by exact HJ0nz. cbn [bind].
  destruct i as [|i']; [lia|]. cbn [bind].
  rewrite (sigma_c_roof_eq self p e Hself Hreads). cbn [bind].
  rewrite (q_c_eq self p e Hself Hreads). cbn [bind].
  unfold estimate_of, right_sum, factor.
  replace (1 + S i' - 1)%nat with (S i') by lia.
  f_equal. f_equal; lra.
Qed.

(** One pass of the time loop on well-sized arrays: it returns, within the
    bound, commits the last estimate and prints at most its own warning. *)
Lemma fb_step_spec (st : fb_state) (i : nat) :
  (1 <= i < length t)%nat ->
  length (sigma_c_fb st) = length t -> length (J_c_fb st) = length t ->
  exists o st' sn jn,
    solve_step self p res t Kv kv epsv sigma0_c st i = Ok o
    /\ fb_step self p res t Kv kv epsv sigma0_c st i = Ok st'
    /\ (1 <= attempts o <= max_iter)%nat
    /\ estimate o = Some (sn, jn)
    /\ (exists sp jp,
          (sn, jn) = estimate_of proto e res t (J_c_fb st) i (nth i t 0) K k sigma0_c sp jp)
    /\ sigma_c_fb st' = <[i := sn]> (sigma_c_fb st)
    /\ J_c_fb st' = <[i := jn]> (J_c_fb st)
    /\ (converged o = true -> printed st' = printed st)
    /\ (converged o = false ->
        attempts o = max_iter /\ printed st' = printed st ++ [ConvergenceWarning i]).
Proof.
  intros Hi Hsfb Hjfb.
  assert (Hbody : forall sp jp,
            is_ok (attempt self p res t (sigma_c_fb st) (J_c_fb st) i (nth i t 0)
                     Kv kv sigma0_c sp jp)).
  { intros sp jp. rewrite attempt_eq by assumption. apply is_ok_Ok. }
  destruct (iterate_spec _ epsv eps Hbody Heps max_iter
              (nth i (r_sigma_c res) 0) (nth i (r_J_c res) 0) None 0)
    as (o & Ho & Hle & Hpos & Hnc & _ & Hlt).
  specialize (Hpos ltac:(unfold max_iter; lia)).
  assert (Hsolve : solve_step self p res t Kv kv epsv sigma0_c st i = Ok o).
  { unfold solve_step. rewrite (arr_get_nth t i) by lia. cbn [bind].
    rewrite (arr_get_nth (r_sigma_c res) i) by lia. cbn [bind].
    rewrite (arr_get_nth (r_J_c res) i) by lia. cbn [bind]. exact Ho. }
  destruct (Hlt Hpos) as (sp & jp & [sn jn] & Hest & Hb).
  rewrite attempt_eq in Hb by assumption.
  exists o, {| sigma_c_fb := <[i := sn]> (sigma_c_fb st);
               J_c_fb := <[i := jn]> (J_c_fb st);
               printed := if converged o then printed st
                          else printed st ++ [ConvergenceWarning i] |}, sn, jn.
  split; [exact Hsolve|]. split.
  { unfold fb_step. rewrite Hsolve. cbn [bind]. rewrite Hest. reflexivity. }
  split; [lia|]. split; [exact Hest|]. split; [exists sp, jp; congruence|].
  cbn [sigma_c_fb J_c_fb printed]. repeat split.
  - intros ->. reflexivity.
  - rewrite (Hnc H). reflexivity.
  - rewrite H. reflexivity.
Qed.

End Attempt.

(** The arrays under construction keep their size, whatever the passes do. *)
Lemma fb_step_lengths (self : ConstrainedMixtureModel) (p : pydict) (res : results)
    (t : list R) (Kv kv epsv : pyval) (sigma0_c : R) (st st' : fb_state) (i : nat) :
  fb_step self p res t Kv kv epsv sigma0_c st i = Ok st' ->
  length (sigma_c_fb st') = length (sigma_c_fb st)
  /\ length (J_c_fb st') = length (J_c_fb st).
Proof.
  intros H. unfold fb_step in H. inv_bind_as H o Eo.
  destruct (estimate o) as [[sn jn]|]; cbn [bind] in H; [|discriminate].
  injection H as <-. cbn [sigma_c_fb J_c_fb]. rewrite !length_insert. auto.
Qed.

Lemma fb_loop_lengths (self : ConstrainedMixtureModel) (p : pydict) (res : results)
    (t : list R) (Kv kv epsv : pyval) (sigma0_c : R) (l : list nat) (st st' : fb_state) :
  foldM (fb_step self p res t Kv kv epsv sigma0_c) st l = Ok st' ->
  length (sigma_c_fb st') = length (sigma_c_fb st)
  /\ length (J_c_fb st') = length (J_c_fb st).
Proof.
  revert st. induction l as [|i l IH]; cbn [foldM]; intros st H.
  - injection H as <-. auto.
  - inv_bind_as H st1 E1. apply fb_step_lengths in E1 as [E1 E2].
    apply IH in H as [H1 H2]. split; congruence.
Qed.

Section Run.

Context (self : ConstrainedMixtureModel) (p : pydict) (e : env).
Hypothesis Hself : params self = Some p.
Hypothesis Hreads : reads p e.
Context (proto : pyval).
Hypothesis Hproto : p !! "protocol" = Some proto.
Hypothesis HJ0nz : v_J0 e <> 0.
Context (res : results).
Hypothesis HLe : length (r_J_e res) = length (v_time e).
Hypothesis HLs : length (r_sigma_c res) = length (v_time e).
Hypothesis HLc : length (r_J_c res) = length (v_time e).
Context (Kv kv epsv : pyval) (K k eps sigma0_c : R).
Hypothesis HK : num Kv = Ok K.
Hypothesis Hk : num kv = Ok k.
Hypothesis Heps : num epsv = Ok eps.

(** The time loop from [a] on: it returns, and what it prints is one
    warning for each index of a sublist of the indices it visits. *)
Lemma fb_loop_spec (len a : nat) (st : fb_state) :
  (1 <= a)%nat -> (a + len <= length (v_time e))%nat ->
  length (sigma_c_fb st) = length (v_time e) ->
  length (J_c_fb st) = length (v_time e) ->
  exists st' ws,
    foldM (fb_step self p res (v_time e) Kv kv epsv sigma0_c) st (seq a len) = Ok st'
    /\ printed st' = printed st ++ map ConvergenceWarning ws
    /\ sublist ws (seq a len).
Proof.
  revert a st. induction len as [|len IH]; intros a st Ha Hlen Hs Hj.
  - exists st, []. cbn [seq foldM map]. rewrite app_nil_r. repeat split. constructor.
  - cbn [seq foldM].
    destruct (fb_step_spec self p e Hself Hreads proto Hproto HJ0nz res (v_time e)
                HLe HLs HLc Kv kv epsv K k eps sigma0_c HK Hk Heps st a)
      as (o & st1 & sn & jn & _ & Hst1 & _ & _ & _ & Hs1 & Hj1 & Hc & Hn); try lia.
    rewrite Hst1. cbn [bind].
    destruct (IH (S a) st1) as (st' & ws & Hrun & Hpr & Hsub); try lia.
    { rewrite Hs1, length_insert. exact Hs. }
    { rewrite Hj1, length_insert. exact Hj. }
    destruct (converged o) eqn:Hconv.
    + exists st', ws. split; [exact Hrun|]. split.
      * rewrite Hpr, (Hc eq_refl). reflexivity.
      * apply sublist_cons. exact Hsub.
    + exists st', (a :: ws). split; [exact Hrun|]. split.
      * destruct (Hn eq_refl) as [_ Hp1]. rewrite Hpr, Hp1, <- app_assoc. reflexivity.
      * apply sublist_skip. exact Hsub.
Qed.

End Run.

(** The solver on a resolved record and well-sized base series: it
    returns; the homeostatic reference of every attempt is the first entry
    of the base collagen stress; the warnings are those of a sublist of the
    indices, in order. *)
Lemma feedback_total (self : ConstrainedMixtureModel) (p : pydict) (e : env)
    (proto Kv epsv : pyval) (res : results) (K eps : R) :
  params self = Some p -> reads p e -> p !! "protocol" = Some proto -> v_J0 e <> 0 ->
  length (r_J_e res) = length (v_time e) ->
  length (r_sigma_c res) = length (v_time e) ->
  length (r_J_c res) = length (v_time e) ->
  p !! "K_cplus" = Some Kv -> num Kv = Ok K ->
  p !! "epsilon" = Some epsv -> num epsv = Ok eps ->
  (1 <= length (v_time e))%nat ->
  exists st ws kv,
    p !! "k_cplus" = Some kv
    /\ foldM (fb_step self p res (v_time e) Kv kv epsv (nth 0 (r_sigma_c res) 0))
         (fb_init (length (v_time e)) (nth 0 (r_sigma_c res) 0) (v_Jc0 e))
         (seq 1 (length (v_time e) - 1)) = Ok st
    /\ _apply_mechanical_feedback self res
       = Ok ({| r_time := r_time res; r_lambda := r_lambda res;
                r_sigma_c := sigma_c_fb st;
                r_sigma_e := r_sigma_e res; r_sigma_g := r_sigma_g res;
                r_J_c := J_c_fb st; r_J_e := r_J_e res;
                r_J_total := r_J_total res;
                r_sigma_total :=
                  Some (arr_add (arr_add (sigma_c_fb st) (r_sigma_e res)) (r_sigma_g res)) |},
             map ConvergenceWarning ws)
    /\ sublist ws (seq 1 (length (v_time e) - 1)).
Proof.
  intros Hself Hreads Hproto HJ0nz HLe HLs HLc HKv HK Hev Heps Hn.
  pose proof Hreads as Hr. split_reads Hr.
  destruct (getnum_getitem _ _ _ Hk_cplus) as (kv & Hkv & Hknum).
  destruct (fb_loop_spec self p e Hself Hreads proto Hproto HJ0nz res HLe HLs HLc
              Kv kv epsv K (v_k_cplus e) eps (nth 0 (r_sigma_c res) 0) HK Hknum Heps
              (length (v_time e) - 1) 1
              (fb_init (length (v_time e)) (nth 0 (r_sigma_c res) 0) (v_Jc0 e)))
    as (st & ws & Hrun & Hpr & Hsub); try lia.
  { cbn [fb_init sigma_c_fb]. rewrite length_insert, length_replicate. reflexivity. }
  { cbn [fb_init J_c_fb]. rewrite length_insert, length_replicate. reflexivity. }
  exists st, ws, kv. split; [exact Hkv|]. split; [exact Hrun|]. split; [|exact Hsub].
  unfold _apply_mechanical_feedback. rewrite (self_params_eq self p Hself). cbn [bind].
  use_reads. rewrite (arr_get_nth (r_sigma_c res) 0) by lia. cbn [bind].
  use_reads. unfold getitem. rewrite HKv, Hkv, Hev. cbn [bind].
  unfold arr_get at 1. rewrite list_lookup_insert_eq by (rewrite length_replicate; lia).
  cbn [bind]. fold (fb_init (length (v_time e)) (nth 0 (r_sigma_c res) 0) (v_Jc0 e)).
  rewrite Hrun. cbn [bind]. rewrite Hpr. reflexivity.
Qed.




Lemma constant_series_lengths (e : env) :
  length (r_J_e (constant_series e)) = length (v_time e)
  /\ length (r_sigma_c (constant_series e)) = length (v_time e)
  /\ length (r_J_c (constant_series e)) = length (v_time e).
Proof. unfold constant_series. cbn. rewrite !length_map. auto. Qed.

Lemma init_feedback : __init__ (Some feedback_record) = Ok m_feedback.
Proof.
  rewrite (init_supplied (Some feedback_record) (VFloat 1.0) (VFloat 0.75)
             (VFloat 0.05) (VFloat 0.20) 1.0 2 1.0 0.75 1.0 0.05);
    [reflexivity | closed_side ..].
Qed.

Lemma reads_feedback : reads feedback_dict (env_of feedback_dict).
Proof. closed_reads. Qed.

Lemma J0_feedback : v_J0 (env_of feedback_dict) <> 0.
Proof.
  assert (H : v_J0 (env_of feedback_dict) = 1.0) by (vm_compute; reflexivity).
  rewrite H. lra.
Qed.

Lemma rates_feedback :
  collagen_ok (env_of feedback_dict) /\ elastin_ok (env_of feedback_dict).
Proof.
  assert (H1 : v_k_cminus (env_of feedback_dict) = 1.0) by (vm_compute; reflexivity).
  assert (H2 : v_k_eminus (env_of feedback_dict) = 1.0) by (vm_compute; reflexivity).
  unfold collagen_ok, elastin_ok. rewrite H1, H2. split; intros; lra.
Qed.

Lemma time_feedback : length (v_time (env_of feedback_dict)) = 2%nat.
Proof. vm_compute. reflexivity. Qed.


(** ** The solver never reads the record's homeostatic stress *)

Section IgnoresSigma0.

Context (p : pydict) (v : pyval).

Let self : ConstrainedMixtureModel := {| params := Some p |}.
Let self' : ConstrainedMixtureModel := {| params := Some (<["sigma0_c" := v]> p) |}.
Let p' : pydict := <["sigma0_c" := v]> p.

Lemma sigma_c_roof_frame (lam : R) : _sigma_c_roof self' lam = _sigma_c_roof self lam.
Proof.
  unfold _sigma_c_roof, self', self. cbn [self_params params bind].
  rewrite !getnum_insert_ne by done. reflexivity.
Qed.

Lemma q_c_frame (tau t : R) : _q_c self' tau t = _q_c self tau t.
Proof.
  unfold _q_c, self', self. cbn [self_params params bind].
  rewrite !getnum_insert_ne by done. reflexivity.
Qed.

Lemma lambda_tau_at_frame (tj : R) : lambda_tau_at p' tj = lambda_tau_at p tj.
Proof.
  unfold lambda_tau_at, p'.
  rewrite !getitem_insert_ne, !getnum_insert_ne by done. reflexivity.
Qed.

Ltac frame_step :=
  first
    [ reflexivity
    | rewrite lambda_tau_at_frame
    | rewrite sigma_c_roof_frame
    | rewrite q_c_frame
    | rewrite getnum_insert_ne by done
    | rewrite getitem_insert_ne by done
    | rewrite getarr_insert_ne by done
    | case_bind ].

Lemma sum_body_frame (t sfb jfb : list R) (i : nat) (ti sp jp k ff : R)
    (acc : sums) (j : nat) :
  sum_body self' p' t sfb jfb i ti sp jp k ff acc j
  = sum_body self p t sfb jfb i ti sp jp k ff acc j.
Proof. unfold sum_body. repeat frame_step. Qed.

Lemma attempt_frame (res : results) (t sfb jfb : list R) (i : nat) (ti : R)
    (Kv kv : pyval) (s0 sp jp : R) :
  attempt self' p' res t sfb jfb i ti Kv kv s0 sp jp
  = attempt self p res t sfb jfb i ti Kv kv s0 sp jp.
Proof.
  unfold attempt. do 2 (case_bind; [|reflexivity]).
  erewrite (foldM_ext (sum_body self' p' _ _ _ _ _ _ _ _ _))
    by (intros; apply sum_body_frame).
  unfold p'. repeat frame_step.
Qed.

Lemma iterate_ext (body body' : R -> R -> result (R * R)) (epsilon : pyval) (k : nat) :
  (forall sp jp, body sp jp = body' sp jp) ->
  forall sp jp last count,
    iterate body epsilon k sp jp last count = iterate body' epsilon k sp jp last count.
Proof.
  intros H. induction k as [|k IH]; intros sp jp last count; cbn [iterate]; [reflexivity|].
  rewrite H. destruct (body' sp jp) as [[sn jn]|]; cbn [bind]; [|reflexivity].
  destruct (num epsilon); cbn [bind]; [|reflexivity].
  destruct (_ && _); [reflexivity|]. apply IH.
Qed.

Lemma fb_step_frame (res : results) (t : list R) (Kv kv epsv : pyval) (s0 : R)
    (st : fb_state) (i : nat) :
  fb_step self' p' res t Kv kv epsv s0 st i = fb_step self p res t Kv kv epsv s0 st i.
Proof.
  assert (H : solve_step self' p' res t Kv kv epsv s0 st i
              = solve_step self p res t Kv kv epsv s0 st i).
  { unfold solve_step. do 3 (case_bind; [|reflexivity]).
    erewrite (iterate_ext (attempt self' p' _ _ _ _ _ _ _ _ _))
      by (intros; apply attempt_frame).
    reflexivity. }
  unfold fb_step. rewrite H. reflexivity.
Qed.

Lemma feedback_frame (res : results) :
  _apply_mechanical_feedback self' res = _apply_mechanical_feedback self res.
Proof.
  unfold _apply_mechanical_feedback, self', self. cbn [self_params params bind].
  fold p'. unfold p' at 1 2 3 4 5.
  rewrite getarr_insert_ne by done. case_bind; [|reflexivity].
  case_bind; [|reflexivity].
  rewrite getnum_insert_ne by done. case_bind; [|reflexivity].
  rewrite !getitem_insert_ne by done.
  do 4 (case_bind; [|reflexivity]).
  fold self' self.
  erewrite (foldM_ext (fb_step self' p' _ _ _ _ _ _)) by (intros; apply fb_step_frame).
  reflexivity.
Qed.

End IgnoresSigma0.

(** C4. Source: [_apply_mechanical_feedback], where the local [sigma0_c] is
    assigned [sigma_c_fb[0]].  The solver never reads the record's
    [sigma0_c]: whatever is stored under that key, supplied or derived, the
    solver returns the same series and prints the same warnings on the same
    base result.  The stress its feedback factor divides by is the base
    collagen stress at index 0, not the record's homeostatic stress. *)
Theorem C4_solver_ignores_record_sigma0_c (p : pydict) (v : pyval) (res : results) :
  _apply_mechanical_feedback {| params := Some (<["sigma0_c" := v]> p) |} res
  = _apply_mechanical_feedback {| params := Some p |} res.
Proof. apply feedback_frame. Qed.

(** ** The sums of an attempt *)

(** C5. Source: [_apply_mechanical_feedback], the loop
    [for j in range(1, i+1)].  On a resolved record and well-sized arrays,
    the loop returns with both integrals equal to the sum, over the
    intervals up to [t_i], of half the step times the integrand at the right
    end only: the values read at [j-1] ([J_tj_1], [sigma_tj_1]) enter no
    term.  This is not the trapezoidal rule. *)
Theorem C5_integrals_use_right_endpoints
    (self : ConstrainedMixtureModel) (p : pydict) (e : env) (proto : pyval)
    (t sfb jfb : list R) (i : nat) (ti sigma_prev J_prev k ff : R) :
  params self = Some p -> reads p e -> p !! "protocol" = Some proto ->
  (1 <= i < length t)%nat -> length sfb = length t -> length jfb = length t ->
  exists acc,
    foldM (sum_body self p t sfb jfb i ti sigma_prev J_prev k ff)
      {| integral_sigma := 0; integral_J := 0; last_lambda_tau := None |} (seq 1 i)
    = Ok acc
    /\ integral_sigma acc = right_sum (term_sigma_at proto e t jfb i ti J_prev k ff) t i
    /\ integral_J acc = right_sum (term_J_at e t jfb i ti J_prev k ff) t i.
Proof.
  intros Hself Hreads Hproto Hi Hs Hj.
  eexists. split.
  - apply (sum_loop_eq self p e Hself Hreads proto Hproto t sfb jfb i ti
             sigma_prev J_prev k ff); lia.
  - cbn [integral_sigma integral_J]. unfold right_sum. split; lra.
Qed.

Lemma time_feedback_values : v_time (env_of feedback_dict) = grid 1.0 2.
Proof. vm_compute. reflexivity. Qed.

Lemma grid_two (T : R) : grid T 2 = [0 * (T / (1 + 1 - 1)); 1 * (T / (1 + 1 - 1))].
Proof. reflexivity. Qed.

Lemma C5_witness :
  let e := env_of feedback_dict in
  let t := v_time e in
  let jfb := [0.75; 0] in
  let fJ := term_J_at e t jfb 1 (nth 1 t 0) 0.75 1.0 1 in
  (params m_feedback = Some feedback_dict
   /\ (1 <= 1 < length t)%nat
   /\ right_sum fJ t 1 <> trapezoid fJ t 1)
  /\ exists acc,
       foldM (sum_body m_feedback feedback_dict t [1; 0] jfb 1 (nth 1 t 0) 1 0.75 1.0 1)
         {| integral_sigma := 0; integral_J := 0; last_lambda_tau := None |} (seq 1 1)
       = Ok acc
       /\ integral_sigma acc
          = right_sum (term_sigma_at (VStr "constant") e t jfb 1 (nth 1 t 0) 0.75 1.0 1) t 1
       /\ integral_J acc = right_sum fJ t 1.
Proof.
  intros e t jfb fJ.
  assert (Ht : t = [0 * (1.0 / (1 + 1 - 1)); 1 * (1.0 / (1 + 1 - 1))]).
  { unfold t, e. rewrite time_feedback_values. apply grid_two. }
  split.
  - split; [reflexivity|]. split; [rewrite Ht; cbn [length]; lia|].
    unfold right_sum, trapezoid, fJ, term_J_at, J_at.
    cbn [seq map sum_list foldr Nat.sub].
    rewrite (bool_decide_eq_true_2 (0 < 1)%nat) by lia.
    rewrite (bool_decide_eq_false_2 (1 < 1)%nat) by lia.
    rewrite Ht. cbn [nth jfb].
    set (q0 := q_val _ (0 * _) _). set (q1 := q_val _ (1 * _) _).
    assert (Hq0 : 0 < q0) by apply exp_pos.
    intros Heq. nra.
  - apply (C5_integrals_use_right_endpoints m_feedback feedback_dict e (VStr "constant")
             t [1; 0] jfb 1 (nth 1 t 0) 1 0.75 1.0 1 eq_refl reads_feedback).
    + reflexivity.
    + rewrite Ht. cbn [length]. lia.
    + rewrite Ht. reflexivity.
    + rewrite Ht. reflexivity.
Defined.

(** ** Sizes of the series *)

Lemma protocol_lengths (quad : (R -> result R) -> R -> R -> result R)
    (self : ConstrainedMixtureModel) (p : pydict) (protocol : string)
    (base : results) (t : list R) :
  params self = Some p -> getarr p "time" = Ok t ->
  protocol_funcs quad self protocol = Some (Ok base) ->
  length (r_lambda base) = length t
  /\ length (r_sigma_c base) = length t /\ length (r_sigma_e base) = length t
  /\ length (r_sigma_g base) = length t
  /\ length (r_J_c base) = length t /\ length (r_J_e base) = length t.
Proof.
  intros Hself Htime H. unfold protocol_funcs in H.
  destruct (String.eqb protocol "constant");
    [|destruct (String.eqb protocol "linear");
      [|destruct (String.eqb protocol "cyclic"); [|discriminate]]];
    injection H as H.
  - unfold _constant_protocol in H. rewrite (self_params_eq self p Hself) in H.
    cbn [bind] in H. rewrite Htime in H. cbn [bind] in H.
    inv_bind_as H lam El. inv_bind_as H rows Er. injection H as <-.
    apply mapM_length in Er. rewrite enumerate_length in Er.
    cbn. rewrite !length_map. auto 10.
  - unfold _linear_protocol in H. rewrite (self_params_eq self p Hself) in H.
    cbn [bind] in H. rewrite Htime in H. cbn [bind] in H.
    inv_bind_as H lam El. inv_bind_as H a Ea. inv_bind_as H rows Er. injection H as <-.
    apply mapM_length in Er. rewrite enumerate_length in Er.
    cbn. rewrite !length_map. auto 10.
  - unfold _cyclic_protocol in H. rewrite (self_params_eq self p Hself) in H.
    cbn [bind] in H. rewrite Htime in H. cbn [bind] in H.
    inv_bind_as H a Ea. inv_bind_as H lam El. inv_bind_as H rows Er. injection H as <-.
    apply mapM_length in Er. rewrite enumerate_length in Er.
    cbn. rewrite !length_map. auto 10.
Qed.

Lemma feedback_inv (self : ConstrainedMixtureModel) (p : pydict) (t : list R)
    (base fbres : results) (out : list event) :
  params self = Some p -> getarr p "time" = Ok t ->
  _apply_mechanical_feedback self base = Ok (fbres, out) ->
  length (r_sigma_c fbres) = length t /\ length (r_J_c fbres) = length t
  /\ r_sigma_e fbres = r_sigma_e base /\ r_sigma_g fbres = r_sigma_g base
  /\ r_J_e fbres = r_J_e base /\ r_lambda fbres = r_lambda base
  /\ r_time fbres = r_time base.
Proof.
  intros Hself Htime H. unfold _apply_mechanical_feedback in H.
  rewrite (self_params_eq self p Hself) in H. cbn [bind] in H.
  rewrite Htime in H. cbn [bind] in H.
  do 6 inv_bind H. inv_bind_as H st Est. injection H as <- <-.
  apply fb_loop_lengths in Est as [L1 L2]. cbn [sigma_c_fb J_c_fb] in L1, L2.
  rewrite length_insert, length_replicate in L1, L2.
  cbn. auto 10.
Qed.

(** ** Aggregation *)

Lemma arr_add_lookup (a b : list R) (i : nat) (x y : R) :
  a !! i = Some x -> b !! i = Some y -> arr_add a b !! i = Some (x + y).
Proof. intros Ha Hb. unfold arr_add. rewrite lookup_zip_with, Ha, Hb. reflexivity. Qed.

Lemma arr_add_scalar_lookup (a : list R) (s : R) (i : nat) (x : R) :
  a !! i = Some x -> arr_add_scalar a s !! i = Some (x + s).
Proof. intros Ha. unfold arr_add_scalar. rewrite list_lookup_fmap, Ha. reflexivity. Qed.

(** C9. Source: [simulate], with [_apply_mechanical_feedback].  Whenever
    [simulate] returns a result, for any protocol and with feedback on or
    off: the elastin and matrix stress series are those of the base run;
    under feedback the collagen stress series is the solver's; and at every
    index of the time grid every series has an entry, with
    [J_total = J_c + J_e + Jg0] and
    [sigma_total = sigma_c + sigma_e + sigma_g] there. *)
Theorem C9_aggregates_are_sums
    (quad : (R -> result R) -> R -> R -> result R)
    (self : ConstrainedMixtureModel) (p : pydict) (t : list R) (Jg0 : R)
    (protocol : string) (feedback : bool) (res : results) (out : list event) :
  params self = Some p -> getarr p "time" = Ok t -> getnum p "Jg0" = Ok Jg0 ->
  simulate quad self protocol feedback = Ok (res, out) ->
  exists base Jt St,
    protocol_funcs quad self protocol = Some (Ok base)
    /\ r_sigma_e res = r_sigma_e base /\ r_sigma_g res = r_sigma_g base
    /\ (if feedback
        then exists fbres,
               _apply_mechanical_feedback self base = Ok (fbres, out)
               /\ r_sigma_c res = r_sigma_c fbres /\ r_J_c res = r_J_c fbres
        else r_sigma_c res = r_sigma_c base /\ r_J_c res = r_J_c base)
    /\ r_J_total res = Some Jt /\ r_sigma_total res = Some St
    /\ forall i, (i < length t)%nat ->
         exists Jc Je sc se sg,
           r_J_c res !! i = Some Jc /\ r_J_e res !! i = Some Je
           /\ r_sigma_c res !! i = Some sc /\ r_sigma_e res !! i = Some se
           /\ r_sigma_g res !! i = Some sg
           /\ Jt !! i = Some (Jc + Je + Jg0)
           /\ St !! i = Some (sc + se + sg).
Proof.
  intros Hself Htime HJg H. unfold simulate in H.
  destruct (protocol_funcs quad self protocol) as [run|] eqn:Hrun; [|discriminate].
  inv_bind_as H base Ebase. subst run.
  pose proof (protocol_lengths quad self p protocol base t Hself Htime Hrun)
    as (_ & HLsc & HLse & HLsg & HLJc & HLJe).
  inv_bind_as H fbp Efb. destruct fbp as [res1 out1].
  rewrite (self_params_eq self p Hself) in H. cbn [bind] in H.
  rewrite HJg in H. cbn [bind] in H. injection H as <- <-.
  assert (Hfacts : length (r_sigma_c res1) = length t /\ length (r_J_c res1) = length t
                   /\ r_sigma_e res1 = r_sigma_e base /\ r_sigma_g res1 = r_sigma_g base
                   /\ r_J_e res1 = r_J_e base).
  { destruct feedback.
    - pose proof (feedback_inv self p t base res1 out1 Hself Htime Efb)
        as (? & ? & ? & ? & ? & _). auto.
    - injection Efb as <- <-. auto. }
  destruct Hfacts as (L1 & L2 & E1 & E2 & E3).
  eexists base, _, _. cbn [r_sigma_e r_sigma_g r_sigma_c r_J_c r_J_e r_J_total r_sigma_total].
  split; [reflexivity|]. split; [exact E1|]. split; [exact E2|]. split.
  { destruct feedback.
    - exists res1. auto.
    - injection Efb as <- <-. auto. }
  split; [reflexivity|]. split; [reflexivity|].
  intros i Hi.
  destruct (lookup_lt_is_Some_2 (r_J_c res1) i) as [Jc HJc]; [lia|].
  destruct (lookup_lt_is_Some_2 (r_J_e res1) i) as [Je HJe]; [rewrite E3; lia|].
  destruct (lookup_lt_is_Some_2 (r_sigma_c res1) i) as [sc Hsc]; [lia|].
  destruct (lookup_lt_is_Some_2 (r_sigma_e res1) i) as [se Hse]; [rewrite E1; lia|].
  destruct (lookup_lt_is_Some_2 (r_sigma_g res1) i) as [sg Hsg]; [rewrite E2; lia|].
  exists Jc, Je, sc, se, sg. repeat split; try assumption.
  - apply arr_add_scalar_lookup, arr_add_lookup; assumption.
  - apply arr_add_lookup; [apply arr_add_lookup|]; assumption.
Qed.

Lemma simulate_feedback_sample :
  exists res out, simulate midpoint_quad m_feedback "constant" true = Ok (res, out).
Proof.
  pose proof (constant_series_lengths (env_of feedback_dict)) as (HLe & HLs & HLc).
  destruct (feedback_total m_feedback feedback_dict (env_of feedback_dict)
              (VStr "constant") (VFloat 0.04) (VFloat 0.0001)
              (constant_series (env_of feedback_dict)) 0.04 0.0001
              eq_refl reads_feedback)
    as (st & ws & kv & _ & _ & Hfb & _);
    try assumption; try reflexivity; try exact J0_feedback.
  { rewrite time_feedback. lia. }
  unfold simulate, protocol_funcs. cbn [String.eqb Ascii.eqb Bool.eqb].
  rewrite (constant_protocol_eq m_feedback feedback_dict _ eq_refl reads_feedback);
    [|apply rates_feedback | apply rates_feedback | exact J0_feedback].
  cbn [bind]. rewrite Hfb. cbn [bind self_params m_feedback params].
  assert (HJ : getnum feedback_dict "Jg0" = Ok 0.20) by (vm_compute; reflexivity).
  rewrite HJ. cbn [bind]. eauto.
Qed.

Lemma C9_witness :
  exists res out,
    (params m_feedback = Some feedback_dict
     /\ getarr feedback_dict "time" = Ok (grid 1.0 2)
     /\ getnum feedback_dict "Jg0" = Ok 0.20
     /\ simulate midpoint_quad m_feedback "constant" true = Ok (res, out))
    /\ exists base Jt St,
         protocol_funcs midpoint_quad m_feedback "constant" = Some (Ok base)
         /\ r_sigma_e res = r_sigma_e base /\ r_sigma_g res = r_sigma_g base
         /\ (exists fbres,
               _apply_mechanical_feedback m_feedback base = Ok (fbres, out)
               /\ r_sigma_c res = r_sigma_c fbres /\ r_J_c res = r_J_c fbres)
         /\ r_J_total res = Some Jt /\ r_sigma_total res = Some St
         /\ forall i, (i < length (grid 1.0 2))%nat ->
              exists Jc Je sc se sg,
                r_J_c res !! i = Some Jc /\ r_J_e res !! i = Some Je
                /\ r_sigma_c res !! i = Some sc /\ r_sigma_e res !! i = Some se
                /\ r_sigma_g res !! i = Some sg
                /\ Jt !! i = Some (Jc + Je + 0.20)
                /\ St !! i = Some (sc + se + sg).
Proof.
  destruct simulate_feedback_sample as (res & out & Hsim).
  assert (Htime : getarr feedback_dict "time" = Ok (grid 1.0 2))
    by (vm_compute; reflexivity).
  assert (HJ : getnum feedback_dict "Jg0" = Ok 0.20) by (vm_compute; reflexivity).
  exists res, out. split; [auto|].
  exact (C9_aggregates_are_sums midpoint_quad m_feedback feedback_dict (grid 1.0 2) 0.20
           "constant" true res out eq_refl Htime HJ Hsim).
Defined.

(** ** Feedback without ['protocol'] or ['epsilon'] *)

Lemma init_key_of_record (user : option pydict) (self : ConstrainedMixtureModel)
    (p : pydict) (k : string) :
  __init__ user = Ok self -> params self = Some p ->
  k ∉ derived_keys -> default_params !! k = None ->
  p !! k = default ∅ user !! k.
Proof.
  intros Hinit Hself Hk Hd.
  destruct (init_frame user self k Hinit Hk) as (p0 & Hp0 & Hfr).
  rewrite Hself in Hp0. injection Hp0 as <-.
  rewrite Hfr. apply lookup_union_l. exact Hd.
Qed.

Section MissingKeys.

Context (self : ConstrainedMixtureModel) (p : pydict) (t : list R) (base : results).
Hypothesis Hself : params self = Some p.
Hypothesis Htime : getarr p "time" = Ok t.
Hypothesis Hn : (2 <= length t)%nat.
Hypothesis HLs : length (r_sigma_c base) = length t.
Hypothesis HLc : length (r_J_c base) = length t.
Hypothesis HK : is_ok (getnum p "K_cplus").
Hypothesis Hk : is_ok (getnum p "k_cplus").
Hypothesis HJ : is_ok (getnum p "Jc0").

Lemma feedback_without_epsilon :
  p !! "epsilon" = None ->
  _apply_mechanical_feedback self base = Raise (KeyError "epsilon").
Proof.
  intros He. destruct HK as [K HK']. destruct Hk as [k Hk']. destruct HJ as [Jc HJ'].
  destruct (getnum_getitem _ _ _ HK') as (Kv & HKv & _).
  destruct (getnum_getitem _ _ _ Hk') as (kv & Hkv & _).
  unfold _apply_mechanical_feedback. rewrite (self_params_eq self p Hself). cbn [bind].
  rewrite Htime. cbn [bind]. rewrite (arr_get_nth (r_sigma_c base) 0) by lia. cbn [bind].
  rewrite HJ'. cbn [bind]. unfold getitem. rewrite HKv. cbn [bind].
  unfold arr_get at 1. rewrite list_lookup_insert_eq by (rewrite length_replicate; lia).
  cbn [bind]. rewrite Hkv. cbn [bind]. rewrite He. reflexivity.
Qed.

Lemma feedback_without_protocol (epsv : pyval) :
  p !! "epsilon" = Some epsv -> p !! "protocol" = None ->
  _apply_mechanical_feedback self base = Raise (KeyError "protocol").
Proof.
  intros He Hp. destruct HK as [K HK']. destruct Hk as [k Hk']. destruct HJ as [Jc HJ'].
  destruct (getnum_getitem _ _ _ HK') as (Kv & HKv & HKn).
  destruct (getnum_getitem _ _ _ Hk') as (kv & Hkv & Hkn).
  unfold _apply_mechanical_feedback. rewrite (self_params_eq self p Hself). cbn [bind].
  rewrite Htime. cbn [bind]. rewrite (arr_get_nth (r_sigma_c base) 0) by lia. cbn [bind].
  rewrite HJ'. cbn [bind]. unfold getitem at 1 2 3. rewrite HKv. cbn [bind].
  unfold arr_get at 1. rewrite list_lookup_insert_eq by (rewrite length_replicate; lia).
  cbn [bind]. rewrite Hkv, He. cbn [bind].
  destruct (length t) as [|[|n]] eqn:Hlen; [lia | lia |].
  replace (S (S n) - 1)%nat with (S n) by lia. cbn [seq foldM].
  unfold fb_step at 1. unfold solve_step.
  rewrite (arr_get_nth t 1) by lia. cbn [bind].
  rewrite (arr_get_nth (r_sigma_c base) 1) by lia. cbn [bind].
  rewrite (arr_get_nth (r_J_c base) 1) by lia. cbn [bind].
  unfold max_iter. cbn [iterate]. unfold attempt at 1.
  rewrite HKn, Hkn. cbn [bind seq foldM]. unfold sum_body at 1.
  rewrite (arr_get_nth t 1) by lia. cbn [bind].
  rewrite (bool_decide_eq_true_2 (0 < 1)%nat) by lia.
  rewrite (arr_get_nth t (1 - 1)) by lia. cbn [bind].
  rewrite (bool_decide_eq_false_2 (1 < 1)%nat) by lia. cbn [bind].
  cbn [sigma_c_fb J_c_fb].
  rewrite (arr_get_nth (<[0%nat := Jc]> (replicate (S (S n)) 0)) (1 - 1))
    by (rewrite length_insert, length_replicate; lia).
  cbn [bind].
  rewrite (arr_get_nth (<[0%nat := nth 0 (r_sigma_c base) 0]> (replicate (S (S n)) 0)) (1 - 1))
    by (rewrite length_insert, length_replicate; lia).
  cbn [bind].
  unfold lambda_tau_at. rewrite (getitem_absent p "protocol" Hp). reflexivity.
Qed.

End MissingKeys.

(** C10, as amended.  Source: [_apply_mechanical_feedback] with [simulate].
    For an instance constructed from a record that lacks ['protocol'] or
    ['epsilon'], with a numeric gain, synthesis rate and collagen fraction
    and at least two grid points: every feedback-enabled [simulate] call
    whose protocol is known and whose base run returns ends in [KeyError];
    the key named is ['epsilon'] whenever the record lacks it (also when it
    lacks both), and ['protocol'] when the record holds ['epsilon']. *)
Theorem C10_feedback_needs_protocol_and_epsilon
    (quad : (R -> result R) -> R -> R -> result R)
    (user : option pydict) (self : ConstrainedMixtureModel) (p : pydict)
    (protocol : string) (base : results) (t : list R) :
  __init__ user = Ok self -> params self = Some p ->
  default ∅ user !! "protocol" = None \/ default ∅ user !! "epsilon" = None ->
  is_ok (getnum p "K_cplus") -> is_ok (getnum p "k_cplus") -> is_ok (getnum p "Jc0") ->
  protocol_funcs quad self protocol = Some (Ok base) ->
  getarr p "time" = Ok t -> (2 <= length t)%nat ->
  (default ∅ user !! "epsilon" = None ->
   simulate quad self protocol true = Raise (KeyError "epsilon"))
  /\ (default ∅ user !! "epsilon" <> None ->
      default ∅ user !! "protocol" = None
      /\ simulate quad self protocol true = Raise (KeyError "protocol")).
Proof.
  intros Hinit Hself Hlack HK Hk HJ Hrun Htime Hn.
  pose proof (protocol_lengths quad self p protocol base t Hself Htime Hrun)
    as (_ & HLs & _ & _ & HLc & _).
  assert (Hpe : p !! "epsilon" = default ∅ user !! "epsilon").
  { apply (init_key_of_record user self p "epsilon" Hinit Hself); [|reflexivity].
    unfold derived_keys. rewrite !not_elem_of_cons. repeat split; try discriminate.
    apply not_elem_of_nil. }
  assert (Hpp : p !! "protocol" = default ∅ user !! "protocol").
  { apply (init_key_of_record user self p "protocol" Hinit Hself); [|reflexivity].
    unfold derived_keys. rewrite !not_elem_of_cons. repeat split; try discriminate.
    apply not_elem_of_nil. }
  unfold simulate. rewrite Hrun. cbn [bind].
  destruct (default ∅ user !! "epsilon") as [epsv|] eqn:He.
  - split; [discriminate|]. intros _.
    destruct Hlack as [Hlack|Hlack]; [|discriminate].
    split; [exact Hlack|].
    rewrite (feedback_without_protocol self p t base Hself Htime Hn HLs HLc HK Hk HJ epsv);
      [reflexivity | exact Hpe | congruence].
  - split; [intros _ | intros Hne; contradiction].
    rewrite (feedback_without_epsilon self p t base Hself Htime Hn HLs HLc HK Hk HJ);
      [reflexivity | exact Hpe].
Qed.

Lemma init_bare : __init__ (Some bare_record) = Ok m_bare.
Proof.
  rewrite (init_supplied (Some bare_record) (VFloat 1.0) (VFloat 0.75)
             (VFloat 0.05) (VFloat 0.20) 1.0 2 1.0 0.75 1.0 0.05);
    [reflexivity | closed_side ..].
Qed.

Lemma init_bare_zero_degradation :
  __init__ (Some bare_zero_degradation) = Ok m_bare_zero_degradation.
Proof.
  rewrite (init_supplied (Some bare_zero_degradation) (VFloat 1.0) (VFloat 0.75)
             (VFloat 0.05) (VFloat 0.20) 1.0 2 1.0 0.75 1.0 0.05);
    [reflexivity | closed_side ..].
Qed.

Lemma reads_bare : reads bare_dict (env_of bare_dict).
Proof. closed_reads. Qed.

Lemma reads_bare_zero_degradation :
  reads bare_zero_degradation_dict (env_of bare_zero_degradation_dict).
Proof. closed_reads. Qed.

Lemma constant_run_bare :
  protocol_funcs midpoint_quad m_bare "constant"
  = Some (Ok (constant_series (env_of bare_dict))).
Proof.
  unfold protocol_funcs. cbn [String.eqb Ascii.eqb Bool.eqb]. f_equal.
  assert (H0 : v_J0 (env_of bare_dict) = 1.0) by (vm_compute; reflexivity).
  assert (H1 : v_k_cminus (env_of bare_dict) = 1.0) by (vm_compute; reflexivity).
  assert (H2 : v_k_eminus (env_of bare_dict) = 1.0) by (vm_compute; reflexivity).
  apply (constant_protocol_eq m_bare bare_dict _ eq_refl reads_bare).
  - unfold collagen_ok. rewrite H1. lra.
  - unfold elastin_ok. rewrite H2. lra.
  - rewrite H0. lra.
Qed.

(** C10, as stated, fails: a feedback-enabled call on an instance whose
    record lacks both keys, with two grid points, ends in [ValueError] when
    the protocol is unknown, and in [ZeroDivisionError] when the base run
    divides by a zero collagen degradation rate; neither is a [KeyError]. *)
Lemma C10_counterexample :
  (__init__ (Some bare_record) = Ok m_bare
   /\ bare_record !! "protocol" = None /\ bare_record !! "epsilon" = None
   /\ getarr bare_dict "time" = Ok (grid 1.0 2) /\ length (grid 1.0 2) = 2%nat
   /\ simulate midpoint_quad m_bare "quadratic" true
      = Raise (ValueError "Unknown protocol: quadratic"))
  /\ (__init__ (Some bare_zero_degradation) = Ok m_bare_zero_degradation
      /\ bare_zero_degradation !! "protocol" = None
      /\ bare_zero_degradation !! "epsilon" = None
      /\ getarr bare_zero_degradation_dict "time" = Ok (grid 1.0 2)
      /\ simulate midpoint_quad m_bare_zero_degradation "constant" true
         = Raise ZeroDivisionError).
Proof.
  split.
  - split; [exact init_bare|]. split; [reflexivity|]. split; [reflexivity|].
    split; [vm_compute; reflexivity|]. split; [reflexivity|].
    apply simulate_unknown_protocol; discriminate.
  - split; [exact init_bare_zero_degradation|]. split; [reflexivity|].
    split; [reflexivity|]. split; [vm_compute; reflexivity|].
    apply simulate_base_raises. unfold protocol_funcs.
    cbn [String.eqb Ascii.eqb Bool.eqb]. f_equal.
    assert (H1 : v_k_cminus (env_of bare_zero_degradation_dict) = 0.0)
      by (vm_compute; reflexivity).
    assert (H2 : v_k_cplus (env_of bare_zero_degradation_dict) = 1.0)
      by (vm_compute; reflexivity).
    apply (constant_protocol_raises m_bare_zero_degradation _ _ eq_refl
             reads_bare_zero_degradation
             (INR 0 * (1.0 / (INR (Z.to_nat 2) - 1)))
             [INR 1 * (1.0 / (INR (Z.to_nat 2) - 1))]).
    + vm_compute; reflexivity.
    + left. apply (Q_c_raises m_bare_zero_degradation _ _ eq_refl
                     reads_bare_zero_degradation).
      * rewrite H1. lra.
      * rewrite H2. lra.
Qed.

Lemma init_tolerance_only : __init__ (Some tolerance_only_record) = Ok m_tolerance_only.
Proof.
  rewrite (init_supplied (Some tolerance_only_record) (VFloat 1.0) (VFloat 0.75)
             (VFloat 0.05) (VFloat 0.20) 1.0 2 1.0 0.75 1.0 0.05);
    [reflexivity | closed_side ..].
Qed.

Lemma reads_tolerance_only : reads tolerance_only_dict (env_of tolerance_only_dict).
Proof. closed_reads. Qed.

Lemma constant_run_tolerance_only :
  protocol_funcs midpoint_quad m_tolerance_only "constant"
  = Some (Ok (constant_series (env_of tolerance_only_dict))).
Proof.
  unfold protocol_funcs. cbn [String.eqb Ascii.eqb Bool.eqb]. f_equal.
  assert (H0 : v_J0 (env_of tolerance_only_dict) = 1.0) by (vm_compute; reflexivity).
  assert (H1 : v_k_cminus (env_of tolerance_only_dict) = 1.0) by (vm_compute; reflexivity).
  assert (H2 : v_k_eminus (env_of tolerance_only_dict) = 1.0) by (vm_compute; reflexivity).
  apply (constant_protocol_eq m_tolerance_only tolerance_only_dict _ eq_refl
           reads_tolerance_only).
  - unfold collagen_ok. rewrite H1. lra.
  - unfold elastin_ok. rewrite H2. lra.
  - rewrite H0. lra.
Qed.

Lemma C10_witness :
  ((__init__ (Some bare_record) = Ok m_bare
    /\ params m_bare = Some bare_dict
    /\ default ∅ (Some bare_record) !! "protocol" = None
    /\ default ∅ (Some bare_record) !! "epsilon" = None
    /\ is_ok (getnum bare_dict "K_cplus") /\ is_ok (getnum bare_dict "k_cplus")
    /\ is_ok (getnum bare_dict "Jc0")
    /\ protocol_funcs midpoint_quad m_bare "constant"
       = Some (Ok (constant_series (env_of bare_dict)))
    /\ getarr bare_dict "time" = Ok (grid 1.0 2)
    /\ (2 <= length (grid 1.0 2))%nat)
   /\ simulate midpoint_quad m_bare "constant" true = Raise (KeyError "epsilon"))
  /\ ((__init__ (Some tolerance_only_record) = Ok m_tolerance_only
       /\ params m_tolerance_only = Some tolerance_only_dict
       /\ default ∅ (Some tolerance_only_record) !! "protocol" = None
       /\ default ∅ (Some tolerance_only_record) !! "epsilon" = Some (VFloat 0.0001)
       /\ is_ok (getnum tolerance_only_dict "K_cplus")
       /\ is_ok (getnum tolerance_only_dict "k_cplus")
       /\ is_ok (getnum tolerance_only_dict "Jc0")
       /\ protocol_funcs midpoint_quad m_tolerance_only "constant"
          = Some (Ok (constant_series (env_of tolerance_only_dict)))
       /\ getarr tolerance_only_dict "time" = Ok (grid 1.0 2))
      /\ simulate midpoint_quad m_tolerance_only "constant" true
         = Raise (KeyError "protocol")).
Proof.
  assert (Hn : (2 <= length (grid 1.0 2))%nat) by (rewrite grid_two; cbn [length]; lia).
  split.
  - assert (HK : is_ok (getnum bare_dict "K_cplus"))
      by (exists 0.04; vm_compute; reflexivity).
    assert (Hk : is_ok (getnum bare_dict "k_cplus"))
      by (exists 1.0; vm_compute; reflexivity).
    assert (HJ : is_ok (getnum bare_dict "Jc0"))
      by (exists 0.75; vm_compute; reflexivity).
    assert (Ht : getarr bare_dict "time" = Ok (grid 1.0 2)) by (vm_compute; reflexivity).
    split.
    + split; [exact init_bare|]. split; [reflexivity|]. split; [reflexivity|].
      split; [reflexivity|]. split; [exact HK|]. split; [exact Hk|]. split; [exact HJ|].
      split; [exact constant_run_bare|]. split; [exact Ht | exact Hn].
    + exact (proj1 (C10_feedback_needs_protocol_and_epsilon midpoint_quad
                      (Some bare_record) m_bare bare_dict "constant"
                      (constant_series (env_of bare_dict)) (grid 1.0 2)
                      init_bare eq_refl (or_introl eq_refl) HK Hk HJ
                      constant_run_bare Ht Hn) eq_refl).
  - assert (HK : is_ok (getnum tolerance_only_dict "K_cplus"))
      by (exists 0.04; vm_compute; reflexivity).
    assert (Hk : is_ok (getnum tolerance_only_dict "k_cplus"))
      by (exists 1.0; vm_compute; reflexivity).
    assert (HJ : is_ok (getnum tolerance_only_dict "Jc0"))
      by (exists 0.75; vm_compute; reflexivity).
    assert (Ht : getarr tolerance_only_dict "time" = Ok (grid 1.0 2))
      by (vm_compute; reflexivity).
    assert (He : default ∅ (Some tolerance_only_record) !! "epsilon" <> None)
      by discriminate.
    split.
    + split; [exact init_tolerance_only|]. split; [reflexivity|]. split; [reflexivity|].
      split; [reflexivity|]. split; [exact HK|]. split; [exact Hk|]. split; [exact HJ|].
      split; [exact constant_run_tolerance_only | exact Ht].
    + exact (proj2 (proj2 (C10_feedback_needs_protocol_and_epsilon midpoint_quad
                             (Some tolerance_only_record) m_tolerance_only
                             tolerance_only_dict "constant"
                             (constant_series (env_of tolerance_only_dict)) (grid 1.0 2)
                             init_tolerance_only eq_refl (or_introl eq_refl) HK Hk HJ
                             constant_run_tolerance_only Ht Hn) He)).
Defined.

(** ** The linear protocol *)

Lemma pydiv_inv (x y r : R) : pydiv x y = Ok r -> r = x / y.
Proof.
  unfold pydiv. destruct (bool_decide (y = 0)); [discriminate|].
  intros H. injection H as <-. reflexivity.
Qed.

Lemma midpoint_quad_total : quad_total midpoint_quad.
Proof.
  intros f a b Hf. unfold midpoint_quad. apply is_ok_bind; [apply Hf|].
  intros y _. apply is_ok_Ok.
Qed.

Section Linear.

Context (quad : (R -> result R) -> R -> R -> result R).
Context (self : ConstrainedMixtureModel) (p : pydict) (e : env).
Hypothesis Hself : params self = Some p.
Hypothesis Hreads : reads p e.

Lemma Q_c_inv (t x : R) : _Q_c self t = Ok x -> x = Q_c_val e t.
Proof.
  pose proof Hreads as Hr. split_reads Hr.
  unfold _Q_c, Q_c_val. rewrite (self_params_eq self p Hself). cbn [bind]. use_reads.
  destruct (_ && _); [congruence|].
  intros H. inv_bind_as H r Er. apply pydiv_inv in Er. subst r.
  injection H as <-. reflexivity.
Qed.

Lemma Q_e_inv (t x : R) : _Q_e self t = Ok x -> x = Q_e_val e t.
Proof.
  pose proof Hreads as Hr. split_reads Hr.
  unfold _Q_e, Q_e_val. rewrite (self_params_eq self p Hself). cbn [bind]. use_reads.
  destruct (_ && _); [congruence|].
  intros H. inv_bind_as H r Er. apply pydiv_inv in Er. subst r.
  injection H as <-. reflexivity.
Qed.

Lemma linear_integrand_c_eq (ti lam tau : R) :
  linear_integrand_c self ti lam tau
  = Ok (q_val (v_k_cminus e) tau ti * sigma_hat (v_c_c e) (v_alpha_c e) lam).
Proof.
  unfold linear_integrand_c. rewrite (q_c_eq self p e Hself Hreads). cbn [bind].
  rewrite (sigma_c_roof_eq self p e Hself Hreads). reflexivity.
Qed.

Lemma linear_integrand_e_eq (ti lam tau : R) :
  linear_integrand_e self p ti lam tau
  = Ok (q_val (v_k_eminus e) tau ti * 4 * v_c_e e * lam ^ 2 * (lam ^ 2 - 1)).
Proof.
  pose proof Hreads as Hr. split_reads Hr.
  unfold linear_integrand_e. rewrite (q_e_eq self p e Hself Hreads). cbn [bind].
  use_reads. reflexivity.
Qed.

(** One pass of the loop of [_linear_protocol], from what it returned. *)
Lemma linear_row_inv (res : results) (i : nat) (ti : R) :
  _linear_protocol quad self = Ok res -> v_time e !! i = Some ti ->
  let lam := v_lambda_roof e * (1 + v_a e * ti) in
  exists Ic Ie,
    quad (linear_integrand_c self ti lam) 0 ti = Ok Ic
    /\ quad (linear_integrand_e self p ti lam) 0 ti = Ok Ie
    /\ r_lambda res !! i = Some lam
    /\ r_J_c res !! i = Some (v_Jc0 e * Q_c_val e ti)
    /\ r_J_e res !! i = Some (v_Je0 e * Q_e_val e ti)
    /\ r_sigma_c res !! i
       = Some (v_Jc0 e / v_J0 e * sigma_hat (v_c_c e) (v_alpha_c e) lam
               * q_val (v_k_cminus e) 0 ti
               + v_j_cplus e / (v_Jc0 e * Q_c_val e ti) * Ic)
    /\ r_sigma_e res !! i
       = Some (v_Je0 e / v_J0 e * 4 * v_c_e e * lam ^ 2 * (lam ^ 2 - 1)
               * q_val (v_k_eminus e) 0 ti
               + v_j_eplus e / (v_Je0 e * Q_e_val e ti) * Ie).
Proof.
  intros H Hti lam. pose proof Hreads as Hr. split_reads Hr.
  unfold _linear_protocol in H. rewrite (self_params_eq self p Hself) in H.
  cbn [bind] in H. rewrite Htime, Hlambda_roof in H. cbn [bind] in H.
  rewrite Ha in H. cbn [bind] in H.
  inv_bind_as H rows Er. injection H as <-.
  destruct (mapM_lookup _ _ _ i (i, ti) Er (enumerate_lookup _ _ _ Hti)) as (row & Hrow & Hri).
  cbn beta iota in Hrow.
  inv_bind_as Hrow lam_t El.
  assert (lam_t = lam) as ->.
  { unfold arr_get in El. rewrite list_lookup_fmap, Hti in El. cbn in El.
    injection El as <-. reflexivity. }
  cbn zeta in Hrow.
  inv_bind_as Hrow Ic EIc. inv_bind_as Hrow Ie EIe.
  inv_bind_as Hrow Qc EQc. apply Q_c_inv in EQc. subst Qc.
  inv_bind_as Hrow Qe EQe. apply Q_e_inv in EQe. subst Qe.
  rewrite HJc0 in Hrow. cbn [bind] in Hrow. rewrite HJe0 in Hrow. cbn [bind] in Hrow.
  rewrite HJ0 in Hrow. cbn [bind] in Hrow.
  inv_bind_as Hrow rc Erc. apply pydiv_inv in Erc. subst rc.
  rewrite (sigma_c_roof_eq self p e Hself Hreads) in Hrow. cbn [bind] in Hrow.
  rewrite (q_c_eq self p e Hself Hreads) in Hrow. cbn [bind] in Hrow.
  rewrite Hj_cplus in Hrow. cbn [bind] in Hrow.
  inv_bind_as Hrow re Ere. apply pydiv_inv in Ere. subst re.
  rewrite Hc_e in Hrow. cbn [bind] in Hrow.
  rewrite (q_e_eq self p e Hself Hreads) in Hrow. cbn [bind] in Hrow.
  rewrite Hj_eplus in Hrow. cbn [bind] in Hrow.
  inv_bind_as Hrow sg Esg. injection Hrow as <-.
  exists Ic, Ie. cbn [r_lambda r_J_c r_J_e r_sigma_c r_sigma_e].
  rewrite !list_lookup_fmap, Hri, Hti. cbn. auto 10.
Qed.

(** The linear protocol returns when the total-mass functions and the
    quadrature routine do. *)
Lemma linear_total :
  quad_total quad -> collagen_ok e -> elastin_ok e -> v_J0 e <> 0 ->
  is_ok (_linear_protocol quad self).
Proof.
  intros Hq Hc He HJ0nz. pose proof Hreads as Hr. split_reads Hr.
  unfold _linear_protocol. rewrite (self_params_eq self p Hself). cbn [bind].
  use_reads. apply is_ok_bind; [|intros; apply is_ok_Ok].
  apply mapM_total. intros i [j ti] Hj. apply enumerate_lookup_inv in Hj as [-> Hti].
  cbn beta iota.
  unfold arr_get. rewrite list_lookup_fmap, Hti. cbn [fmap option_fmap option_map bind].
  cbn zeta.
  apply is_ok_bind;
    [apply Hq; intros x; rewrite linear_integrand_c_eq; apply is_ok_Ok | intros Ic _].
  apply is_ok_bind;
    [apply Hq; intros x; rewrite linear_integrand_e_eq; apply is_ok_Ok | intros Ie _].
  rewrite (Q_c_eq self p e Hself Hreads ti Hc). cbn [bind].
  rewrite (Q_e_eq self p e Hself Hreads ti He). cbn [bind].
  use_reads. rewrite !pydiv_ok by exact HJ0nz. cbn [bind].
  rewrite (sigma_c_roof_eq self p e Hself Hreads). cbn [bind].
  rewrite (q_c_eq self p e Hself Hreads). cbn [bind]. use_reads.
  rewrite (q_e_eq self p e Hself Hreads). cbn [bind]. use_reads.
  rewrite (calc_sigma_g_eq self p e Hself Hreads ti _ HJ0nz). cbn [bind].
  apply is_ok_Ok.
Qed.

End Linear.

(** One pass of the loop of [_constant_protocol], from what it returned. *)
Lemma constant_row_inv (self : ConstrainedMixtureModel) (p : pydict) (e : env)
    (res : results) (i : nat) (ti : R) :
  params self = Some p -> reads p e ->
  _constant_protocol self = Ok res -> v_time e !! i = Some ti ->
  r_lambda res !! i = Some (v_lambda_roof e)
  /\ r_sigma_c res !! i
     = Some (sigma_hat (v_c_c e) (v_alpha_c e) (v_lambda_roof e) * (v_Jc0 e * Q_c_val e ti))
  /\ r_sigma_e res !! i
     = Some (4 * v_c_e e * v_lambda_roof e ^ 2 * (v_lambda_roof e ^ 2 - 1)
             * (v_Je0 e * Q_e_val e ti)).
Proof.
  intros Hself Hreads H Hti. pose proof Hreads as Hr. split_reads Hr.
  unfold _constant_protocol in H. rewrite (self_params_eq self p Hself) in H.
  cbn [bind] in H. rewrite Htime, Hlambda_roof in H. cbn [bind] in H.
  inv_bind_as H rows Er. injection H as <-.
  destruct (mapM_lookup _ _ _ i (i, ti) Er (enumerate_lookup _ _ _ Hti)) as (row & Hrow & Hri).
  cbn beta iota in Hrow.
  inv_bind_as Hrow Qc EQc. apply (Q_c_inv self p e Hself Hreads) in EQc. subst Qc.
  inv_bind_as Hrow Qe EQe. apply (Q_e_inv self p e Hself Hreads) in EQe. subst Qe.
  rewrite HJc0 in Hrow. cbn [bind] in Hrow. rewrite HJe0 in Hrow. cbn [bind] in Hrow.
  rewrite (sigma_c_roof_eq self p e Hself Hreads) in Hrow. cbn [bind] in Hrow.
  rewrite Hc_e in Hrow. cbn [bind] in Hrow.
  inv_bind_as Hrow sg Esg. injection Hrow as <-.
  cbn [r_lambda r_sigma_c r_sigma_e].
  rewrite !list_lookup_fmap, Hri, Hti. cbn. auto.
Qed.

(** C3, as amended.  Source: [_constant_protocol] and [_linear_protocol].
    On a resolved record, at every grid time [ti]: a constant-protocol
    result holds, for each turnover constituent, the stress response at
    [lambda_roof] times the constituent's current volume fraction
    [J0_constituent * Q(ti)], with no integral and no [J_total]; a
    linear-protocol result holds
    [(J0_constituent/J0) * response(lambda(ti)) * q(0,ti)
     + (j_plus / (J0_constituent * Q(ti))) * quad(integrand, 0, ti)],
    where the integrand at every deposition time [tau] is
    [q(tau,ti) * response(lambda(ti))]: the response is taken at the stretch
    of the current time, and the deposition term is divided by the
    constituent's own current volume fraction. *)
Theorem C3_constant_linear_stress
    (quad : (R -> result R) -> R -> R -> result R)
    (self : ConstrainedMixtureModel) (p : pydict) (e : env) (i : nat) (ti : R) :
  params self = Some p -> reads p e -> v_time e !! i = Some ti ->
  (forall res, _constant_protocol self = Ok res ->
     r_sigma_c res !! i
     = Some (sigma_hat (v_c_c e) (v_alpha_c e) (v_lambda_roof e) * (v_Jc0 e * Q_c_val e ti))
     /\ r_sigma_e res !! i
        = Some (4 * v_c_e e * v_lambda_roof e ^ 2 * (v_lambda_roof e ^ 2 - 1)
                * (v_Je0 e * Q_e_val e ti)))
  /\ (forall res, _linear_protocol quad self = Ok res ->
        let lam := v_lambda_roof e * (1 + v_a e * ti) in
        exists Ic Ie,
          quad (linear_integrand_c self ti lam) 0 ti = Ok Ic
          /\ quad (linear_integrand_e self p ti lam) 0 ti = Ok Ie
          /\ (forall tau,
                linear_integrand_c self ti lam tau
                = Ok (q_val (v_k_cminus e) tau ti * sigma_hat (v_c_c e) (v_alpha_c e) lam))
          /\ (forall tau,
                linear_integrand_e self p ti lam tau
                = Ok (q_val (v_k_eminus e) tau ti * 4 * v_c_e e * lam ^ 2 * (lam ^ 2 - 1)))
          /\ r_lambda res !! i = Some lam
          /\ r_sigma_c res !! i
             = Some (v_Jc0 e / v_J0 e * sigma_hat (v_c_c e) (v_alpha_c e) lam
                     * q_val (v_k_cminus e) 0 ti
                     + v_j_cplus e / (v_Jc0 e * Q_c_val e ti) * Ic)
          /\ r_sigma_e res !! i
             = Some (v_Je0 e / v_J0 e * 4 * v_c_e e * lam ^ 2 * (lam ^ 2 - 1)
                     * q_val (v_k_eminus e) 0 ti
                     + v_j_eplus e / (v_Je0 e * Q_e_val e ti) * Ie)).
Proof.
  intros Hself Hreads Hti. split.
  - intros res H.
    destruct (constant_row_inv self p e res i ti Hself Hreads H Hti) as (_ & H1 & H2).
    auto.
  - intros res H lam.
    destruct (linear_row_inv quad self p e Hself Hreads res i ti H Hti)
      as (Ic & Ie & H1 & H2 & H3 & _ & _ & H6 & H7).
    exists Ic, Ie. repeat split; try assumption.
    + intros tau. apply (linear_integrand_c_eq self p e Hself Hreads).
    + intros tau. apply (linear_integrand_e_eq self p e Hself Hreads).
Qed.

Lemma init_linear : __init__ (Some linear_record) = Ok m_linear.
Proof.
  rewrite (init_supplied (Some linear_record) (VFloat 1.0) (VFloat 0.75)
             (VFloat 0.05) (VFloat 0.20) 1.0 2 0.0 0.75 1.0 0.05);
    [reflexivity | closed_side ..].
Qed.

Lemma reads_linear : reads linear_dict (env_of linear_dict).
Proof. closed_reads. Qed.

Lemma values_linear :
  let e := env_of linear_dict in
  v_time e = grid 1.0 2 /\ v_Jc0 e = 0.75 /\ v_J0 e = 1.0 /\ v_j_cplus e = 0.0 * 0.75
  /\ v_c_c e = 1.0 /\ v_alpha_c e = 0.0 /\ v_lambda_roof e = 1.1 /\ v_a e = 0.1
  /\ v_k_cminus e = 1.0 /\ v_k_eminus e = 1.0.
Proof. repeat split; vm_compute; reflexivity. Qed.

Lemma linear_run_sample : is_ok (_linear_protocol midpoint_quad m_linear).
Proof.
  destruct values_linear as (_ & _ & H0 & _ & _ & _ & _ & _ & H1 & H2).
  apply (linear_total midpoint_quad m_linear linear_dict _ eq_refl reads_linear
           midpoint_quad_total).
  - unfold collagen_ok. rewrite H1. lra.
  - unfold elastin_ok. rewrite H2. lra.
  - rewrite H0. lra.
Qed.

(** C3, as stated, fails.  For the linear protocol on the record with no
    collagen synthesis (so zero deposition flux) and a linear collagen law,
    two grid points up to time 1: at [t = 1] the code's collagen stress is
    the response at the current stretch [lambda(1) = 1.21] times the
    surviving initial mass, while the claim's formula takes the response at
    [lambda(0) = 1.1]; both integral terms vanish with the flux, and the two
    values differ. *)
Lemma C3_counterexample :
  let e := env_of linear_dict in
  let t1 := 1 * (1.0 / (1 + 1 - 1)) in
  exists res s_code Jc Je s_spec,
    __init__ (Some linear_record) = Ok m_linear
    /\ _linear_protocol midpoint_quad m_linear = Ok res
    /\ v_time e !! 1%nat = Some t1
    /\ r_sigma_c res !! 1%nat = Some s_code
    /\ r_J_c res !! 1%nat = Some Jc /\ r_J_e res !! 1%nat = Some Je
    /\ spec_stress midpoint_quad (v_Jc0 e) (v_J0 e) (v_j_cplus e) (Jc + Je + v_Jg0 e)
         (sigma_hat (v_c_c e) (v_alpha_c e)) (q_val (v_k_cminus e))
         (fun tau => v_lambda_roof e * (1 + v_a e * tau)) t1
       = Ok s_spec
    /\ s_code <> s_spec.
Proof.
  intros e t1.
  destruct linear_run_sample as [res Hres].
  destruct values_linear as (Ht & HJc0 & HJ0 & Hj & Hc & Hal & Hlr & Ha & Hkm & _).
  fold e in Ht, HJc0, HJ0, Hj, Hc, Hal, Hlr, Ha, Hkm.
  assert (Hti : v_time e !! 1%nat = Some t1) by (rewrite Ht, grid_two; reflexivity).
  destruct (linear_row_inv midpoint_quad m_linear linear_dict e eq_refl reads_linear
              res 1 t1 Hres Hti) as (Ic & Ie & _ & _ & _ & HJc & HJe & Hsc & _).
  eexists res, _, _, _, _.
  split; [exact init_linear|]. split; [exact Hres|]. split; [exact Hti|].
  split; [exact Hsc|]. split; [exact HJc|]. split; [exact HJe|].
  split; [unfold spec_stress, midpoint_quad; cbn [bind]; reflexivity|].
  rewrite Hj, HJc0, HJ0, Hc, Hal, Hlr, Ha. unfold sigma_hat.
  set (q := q_val (v_k_cminus e) 0 t1).
  assert (Hq : 0 < q) by apply exp_pos.
  replace (0.0 * ((1.1 * (1 + 0.1 * t1)) ^ 2 - 1) ^ 2) with 0 by lra.
  replace (0.0 * ((1.1 * (1 + 0.1 * 0)) ^ 2 - 1) ^ 2) with 0 by lra.
  rewrite exp_0.
  assert (Ht1 : t1 = 1).
  { unfold t1. replace (1 + 1 - 1) with 1 by lra. unfold Rdiv. rewrite Rinv_1. lra. }
  rewrite Ht1. unfold Rdiv.
  set (X := / (0.75 * Q_c_val e 1)). set (Y := / (_ + _ + _)). set (Z := (1 - 0) * _).
  intros Heq. nra.
Qed.

Lemma C3_witness :
  let e := env_of linear_dict in
  let t1 := 1 * (1.0 / (1 + 1 - 1)) in
  (params m_linear = Some linear_dict
   /\ v_time e !! 1%nat = Some t1
   /\ is_ok (_linear_protocol midpoint_quad m_linear))
  /\ (forall res, _constant_protocol m_linear = Ok res ->
        r_sigma_c res !! 1%nat
        = Some (sigma_hat (v_c_c e) (v_alpha_c e) (v_lambda_roof e)
                * (v_Jc0 e * Q_c_val e t1))
        /\ r_sigma_e res !! 1%nat
           = Some (4 * v_c_e e * v_lambda_roof e ^ 2 * (v_lambda_roof e ^ 2 - 1)
                   * (v_Je0 e * Q_e_val e t1)))
  /\ (forall res, _linear_protocol midpoint_quad m_linear = Ok res ->
        let lam := v_lambda_roof e * (1 + v_a e * t1) in
        exists Ic Ie,
          midpoint_quad (linear_integrand_c m_linear t1 lam) 0 t1 = Ok Ic
          /\ midpoint_quad (linear_integrand_e m_linear linear_dict t1 lam) 0 t1 = Ok Ie
          /\ (forall tau,
                linear_integrand_c m_linear t1 lam tau
                = Ok (q_val (v_k_cminus e) tau t1 * sigma_hat (v_c_c e) (v_alpha_c e) lam))
          /\ (forall tau,
                linear_integrand_e m_linear linear_dict t1 lam tau
                = Ok (q_val (v_k_eminus e) tau t1 * 4 * v_c_e e * lam ^ 2 * (lam ^ 2 - 1)))
          /\ r_lambda res !! 1%nat = Some lam
          /\ r_sigma_c res !! 1%nat
             = Some (v_Jc0 e / v_J0 e * sigma_hat (v_c_c e) (v_alpha_c e) lam
                     * q_val (v_k_cminus e) 0 t1
                     + v_j_cplus e / (v_Jc0 e * Q_c_val e t1) * Ic)
          /\ r_sigma_e res !! 1%nat
             = Some (v_Je0 e / v_J0 e * 4 * v_c_e e * lam ^ 2 * (lam ^ 2 - 1)
                     * q_val (v_k_eminus e) 0 t1
                     + v_j_eplus e / (v_Je0 e * Q_e_val e t1) * Ie)).
Proof.
  intros e t1.
  assert (Hti : v_time e !! 1%nat = Some t1).
  { destruct values_linear as (Ht & _). fold e in Ht. rewrite Ht, grid_two. reflexivity. }
  split.
  - split; [reflexivity|]. split; [exact Hti | exact linear_run_sample].
  - exact (C3_constant_linear_stress midpoint_quad m_linear linear_dict e 1 t1
             eq_refl reads_linear Hti).
Defined.

(** ** The cyclic protocol *)

Section Cyclic.

Context (quad : (R -> result R) -> R -> R -> result R).
Context (self : ConstrainedMixtureModel) (p : pydict) (e : env).
Hypothesis Hself : params self = Some p.
Hypothesis Hreads : reads p e.

(** The stretch series of a returned cyclic run. *)
Lemma cyclic_lambda_inv (res : results) (i : nat) (ti : R) :
  _cyclic_protocol quad self = Ok res -> v_time e !! i = Some ti ->
  r_lambda res !! i = Some (cyclic_stretch (v_lambda_roof e) (v_a e) ti).
Proof.
  intros H Hti. pose proof Hreads as Hr. split_reads Hr.
  unfold _cyclic_protocol in H. rewrite (self_params_eq self p Hself) in H.
  cbn [bind] in H. rewrite Htime, Ha in H. cbn [bind] in H.
  rewrite Hlambda_roof in H. cbn [bind] in H.
  inv_bind_as H rows Er. injection H as <-.
  destruct (mapM_lookup _ _ _ i (i, ti) Er (enumerate_lookup _ _ _ Hti)) as (row & Hrow & Hri).
  cbn beta iota zeta in Hrow.
  repeat inv_bind Hrow. injection Hrow as <-.
  cbn [r_lambda]. rewrite list_lookup_fmap, Hri. reflexivity.
Qed.

Hypothesis Hc : collagen_ok e.
Hypothesis He : elastin_ok e.
Hypothesis HJ0nz : v_J0 e <> 0.
Hypothesis Hgamma_ok : 1 + 2 * v_gamma e <> 0.
Hypothesis HJc0nz : v_Jc0 e <> 0.
Hypothesis HJe0nz : v_Je0 e <> 0.

Lemma G_c_ok (t : R) : is_ok (_G_c self t).
Proof.
  pose proof Hreads as Hr. split_reads Hr.
  unfold _G_c. rewrite (self_params_eq self p Hself). cbn [bind].
  destruct (bool_decide (t = 0)).
  - use_reads. rewrite pydiv_ok by exact Hgamma_ok. cbn [bind].
    rewrite pypow_ok by exact HJc0nz. apply is_ok_Ok.
  - unfold _calc_J_c. rewrite (self_params_eq self p Hself). cbn [bind]. use_reads.
    rewrite (Q_c_eq self p e Hself Hreads t Hc). cbn [bind]. use_reads.
    rewrite pydiv_ok by exact Hgamma_ok. cbn [bind]. apply is_ok_Ok.
Qed.

Lemma G_e_ok (t : R) : is_ok (_G_e self t).
Proof.
  pose proof Hreads as Hr. split_reads Hr.
  unfold _G_e. rewrite (self_params_eq self p Hself). cbn [bind].
  destruct (bool_decide (t = 0)).
  - use_reads. rewrite pydiv_ok by exact Hgamma_ok. cbn [bind].
    rewrite pypow_ok by exact HJe0nz. apply is_ok_Ok.
  - unfold _calc_J_e. rewrite (self_params_eq self p Hself). cbn [bind]. use_reads.
    rewrite (Q_e_eq self p e Hself Hreads t He). cbn [bind]. use_reads.
    rewrite pydiv_ok by exact Hgamma_ok. cbn [bind]. apply is_ok_Ok.
Qed.

Lemma cyclic_integrand_c_ok (lr a om ti lam tau : R) :
  is_ok (cyclic_integrand_c self p lr a om ti lam tau).
Proof.
  pose proof Hreads as Hr. split_reads Hr.
  unfold cyclic_integrand_c. cbn zeta.
  destruct (G_c_ok tau) as [g1 ->]. destruct (G_c_ok ti) as [g2 ->]. cbn [bind].
  use_reads. rewrite pydiv_ok by exact Hgamma_ok. cbn [bind]. use_reads.
  rewrite (q_c_eq self p e Hself Hreads). cbn [bind].
  rewrite (sigma_c_roof_eq self p e Hself Hreads). apply is_ok_Ok.
Qed.

Lemma cyclic_integrand_e_ok (lr a om ti lam tau : R) :
  is_ok (cyclic_integrand_e self p lr a om ti lam tau).
Proof.
  pose proof Hreads as Hr. split_reads Hr.
  unfold cyclic_integrand_e. cbn zeta.
  destruct (G_e_ok tau) as [g1 ->]. destruct (G_e_ok ti) as [g2 ->]. cbn [bind].
  use_reads. rewrite pydiv_ok by exact Hgamma_ok. cbn [bind]. use_reads.
  rewrite (q_e_eq self p e Hself Hreads). cbn [bind]. use_reads. apply is_ok_Ok.
Qed.

(** The cyclic protocol returns when the total-mass functions, the powers
    and the quadrature routine do. *)
Lemma cyclic_total : quad_total quad -> is_ok (_cyclic_protocol quad self).
Proof.
  intros Hq. pose proof Hreads as Hr. split_reads Hr.
  unfold _cyclic_protocol. rewrite (self_params_eq self p Hself). cbn [bind].
  use_reads. apply is_ok_bind; [|intros; apply is_ok_Ok].
  apply mapM_total. intros i [j ti] Hj. cbn beta iota zeta.
  rewrite (Q_c_eq self p e Hself Hreads ti Hc). cbn [bind].
  rewrite (Q_e_eq self p e Hself Hreads ti He). cbn [bind].
  use_reads.
  apply is_ok_bind; [apply Hq; intros x; apply cyclic_integrand_c_ok | intros Ic _].
  apply is_ok_bind; [apply Hq; intros x; apply cyclic_integrand_e_ok | intros Ie _].
  destruct (G_c_ok 0) as [g0 Hg0]. destruct (G_c_ok ti) as [g1 Hg1].
  destruct (G_e_ok 0) as [h0 Hh0]. destruct (G_e_ok ti) as [h1 Hh1].
  repeat first
    [ apply is_ok_Ok
    | progress use_reads
    | rewrite Hg0; cbn [bind] | rewrite Hg1; cbn [bind]
    | rewrite Hh0; cbn [bind] | rewrite Hh1; cbn [bind]
    | rewrite pydiv_ok by assumption; cbn [bind]
    | rewrite (sigma_c_roof_eq self p e Hself Hreads); cbn [bind]
    | rewrite (q_c_eq self p e Hself Hreads); cbn [bind]
    | rewrite (q_e_eq self p e Hself Hreads); cbn [bind]
    | rewrite (calc_sigma_g_eq self p e Hself Hreads ti _ HJ0nz); cbn [bind] ].
Qed.

End Cyclic.

Lemma cyclic_stretch_bounds (lambda_roof a tau : R) :
  0 <= a -> 0 <= lambda_roof ->
  lambda_roof <= cyclic_stretch lambda_roof a tau <= lambda_roof * (1 + a).
Proof.
  intros Ha Hl. unfold cyclic_stretch.
  pose proof (SIN_bound (PI * tau)) as [H1 H2].
  set (s := sin (PI * tau)) in *.
  assert (Hs : 0 <= s ^ 2 <= 1) by (split; nra).
  set (s2 := s ^ 2) in *.
  assert (Hu : 0 <= a * s2 <= a) by (split; nra).
  set (u := a * s2) in *.
  split; nra.
Qed.

Lemma cyclic_stretch_period (lambda_roof a tau : R) :
  cyclic_stretch lambda_roof a (tau + 1) = cyclic_stretch lambda_roof a tau.
Proof.
  unfold cyclic_stretch.
  replace (PI * (tau + 1)) with (PI * tau + PI) by ring.
  rewrite neg_sin. f_equal. f_equal. f_equal. ring.
Qed.

(** C7, as amended.  Source: [_cyclic_protocol], where [omega = np.pi].  On
    a resolved record, a cyclic run that returns has an entry at every grid
    index, equal to [lambda_roof * (1 + a * sin^2(pi * t_i))]: the frequency
    is the constant pi, whatever the record holds under ['omega'].  As a
    function of time that stretch has period 1, and for a non-negative
    growth coefficient and base stretch it stays within
    [[lambda_roof, lambda_roof * (1 + a)]]. *)
Theorem C7_cyclic_stretch_uses_pi
    (quad : (R -> result R) -> R -> R -> result R)
    (self : ConstrainedMixtureModel) (p : pydict) (e : env) (res : results) :
  params self = Some p -> reads p e -> _cyclic_protocol quad self = Ok res ->
  length (r_lambda res) = length (v_time e)
  /\ (forall i ti, v_time e !! i = Some ti ->
        r_lambda res !! i = Some (cyclic_stretch (v_lambda_roof e) (v_a e) ti))
  /\ (forall tau,
        cyclic_stretch (v_lambda_roof e) (v_a e) (tau + 1)
        = cyclic_stretch (v_lambda_roof e) (v_a e) tau)
  /\ (0 <= v_a e -> 0 <= v_lambda_roof e ->
      forall tau,
        v_lambda_roof e <= cyclic_stretch (v_lambda_roof e) (v_a e) tau
        <= v_lambda_roof e * (1 + v_a e)).
Proof.
  intros Hself Hreads H. split; [|split; [|split]].
  - assert (Hrun : protocol_funcs quad self "cyclic" = Some (Ok res))
      by (unfold protocol_funcs; cbn [String.eqb Ascii.eqb Bool.eqb]; rewrite H; reflexivity).
    destruct Hreads as (_ & _ & _ & _ & _ & _ & _ & _ & _ & _ & _ & _ & _ & _ & _ & _
                        & _ & _ & _ & Htime).
    apply (protocol_lengths quad self p "cyclic" res (v_time e) Hself Htime Hrun).
  - intros i ti Hti. apply (cyclic_lambda_inv quad self p e Hself Hreads res i ti H Hti).
  - intros tau. apply cyclic_stretch_period.
  - intros Ha Hl tau. apply cyclic_stretch_bounds; assumption.
Qed.

Lemma init_omega : __init__ (Some omega_record) = Ok m_omega.
Proof.
  rewrite (init_supplied (Some omega_record) (VFloat 1.0) (VFloat 0.75)
             (VFloat 0.05) (VFloat 0.20) 0.5 2 1.0 0.75 1.0 0.05);
    [reflexivity | closed_side ..].
Qed.

Lemma reads_omega : reads omega_dict (env_of omega_dict).
Proof. closed_reads. Qed.

Lemma values_omega :
  let e := env_of omega_dict in
  v_time e = grid 0.5 2 /\ v_lambda_roof e = 1.1 /\ v_a e = 0.1
  /\ v_k_cminus e = 1.0 /\ v_k_eminus e = 1.0 /\ v_J0 e = 1.0 /\ v_gamma e = 1.0
  /\ v_Jc0 e = 0.75 /\ v_Je0 e = 0.05.
Proof. repeat split; vm_compute; reflexivity. Qed.

Lemma cyclic_run_sample : is_ok (_cyclic_protocol midpoint_quad m_omega).
Proof.
  destruct values_omega as (_ & _ & _ & H1 & H2 & H3 & H4 & H5 & H6).
  apply (cyclic_total midpoint_quad m_omega omega_dict _ eq_refl reads_omega).
  - unfold collagen_ok. rewrite H1. lra.
  - unfold elastin_ok. rewrite H2. lra.
  - rewrite H3. lra.
  - rewrite H4. lra.
  - rewrite H5. lra.
  - rewrite H6. lra.
  - exact midpoint_quad_total.
Qed.

(** C7, as stated, fails.  The record holds cyclic frequency [omega = 0]
    (two grid points, [t_1 = 0.5]): with the record's frequency the stretch
    would stay at [lambda_roof = 1.1], but the run yields
    [1.1 * (1 + 0.1 * sin^2(pi / 2)) = 1.21] at [t_1]. *)
Lemma C7_counterexample :
  let e := env_of omega_dict in
  let t1 := 1 * (0.5 / (1 + 1 - 1)) in
  exists res x,
    __init__ (Some omega_record) = Ok m_omega
    /\ getnum omega_dict "omega" = Ok 0.0
    /\ _cyclic_protocol midpoint_quad m_omega = Ok res
    /\ v_time e !! 1%nat = Some t1
    /\ r_lambda res !! 1%nat = Some x
    /\ x = 1.1 * (1 + 0.1)
    /\ spec_cyclic_stretch (v_lambda_roof e) (v_a e) 0.0 t1 = 1.1
    /\ x <> spec_cyclic_stretch (v_lambda_roof e) (v_a e) 0.0 t1.
Proof.
  intros e t1.
  destruct cyclic_run_sample as [res Hres].
  destruct values_omega as (Ht & Hlr & Ha & _). fold e in Ht, Hlr, Ha.
  assert (Hti : v_time e !! 1%nat = Some t1) by (rewrite Ht, grid_two; reflexivity).
  pose proof (cyclic_lambda_inv midpoint_quad m_omega omega_dict e eq_refl reads_omega
                res 1 t1 Hres Hti) as Hx.
  assert (Ht1 : t1 = / 2).
  { unfold t1. replace (1 + 1 - 1) with 1 by lra. unfold Rdiv. rewrite Rinv_1. lra. }
  assert (Hcode : cyclic_stretch (v_lambda_roof e) (v_a e) t1 = 1.1 * (1 + 0.1)).
  { unfold cyclic_stretch. rewrite Hlr, Ha, Ht1.
    replace (PI * / 2) with (PI / 2) by (unfold Rdiv; reflexivity).
    rewrite sin_PI2. lra. }
  assert (Hspec : spec_cyclic_stretch (v_lambda_roof e) (v_a e) 0.0 t1 = 1.1).
  { unfold spec_cyclic_stretch. rewrite Hlr, Ha.
    replace (0.0 * t1) with 0 by lra. rewrite sin_0. lra. }
  exists res, (cyclic_stretch (v_lambda_roof e) (v_a e) t1).
  split; [exact init_omega|]. split; [vm_compute; reflexivity|].
  split; [exact Hres|]. split; [exact Hti|]. split; [exact Hx|].
  split; [exact Hcode|]. split; [exact Hspec|].
  rewrite Hcode, Hspec. lra.
Qed.

Lemma C7_witness :
  let e := env_of omega_dict in
  exists res,
    (params m_omega = Some omega_dict
     /\ _cyclic_protocol midpoint_quad m_omega = Ok res)
    /\ length (r_lambda res) = length (v_time e)
    /\ (forall i ti, v_time e !! i = Some ti ->
          r_lambda res !! i = Some (cyclic_stretch (v_lambda_roof e) (v_a e) ti))
    /\ (forall tau,
          cyclic_stretch (v_lambda_roof e) (v_a e) (tau + 1)
          = cyclic_stretch (v_lambda_roof e) (v_a e) tau)
    /\ (0 <= v_a e -> 0 <= v_lambda_roof e ->
        forall tau,
          v_lambda_roof e <= cyclic_stretch (v_lambda_roof e) (v_a e) tau
          <= v_lambda_roof e * (1 + v_a e)).
Proof.
  intros e. destruct cyclic_run_sample as [res Hres].
  exists res. split; [split; [reflexivity | exact Hres]|].
  exact (C7_cyclic_stretch_uses_pi midpoint_quad m_omega omega_dict e res
           eq_refl reads_omega Hres).
Defined.

(** * Further properties of the engine *)

(** ** Kinetics *)

Lemma exp_nonpos_le_1 (x : R) : x <= 0 -> exp x <= 1.
Proof.
  intros [H|H].
  - rewrite <- exp_0. left. apply exp_increasing. exact H.
  - rewrite H, exp_0. lra.
Qed.

Lemma q_val_refl (k t : R) : q_val k t t = 1.
Proof. unfold q_val. replace (- k * (t - t)) with 0 by ring. apply exp_0. Qed.

Lemma q_val_compose (k t1 t2 t3 : R) : q_val k t1 t3 = q_val k t1 t2 * q_val k t2 t3.
Proof. unfold q_val. rewrite <- exp_plus. f_equal. ring. Qed.

Lemma q_val_bounds (k tau t : R) : 0 <= k -> tau <= t -> 0 < q_val k tau t <= 1.
Proof.
  intros Hk Ht. unfold q_val. split; [apply exp_pos|].
  apply exp_nonpos_le_1. nra.
Qed.

(** X1. Source: [_q_c] and [_q_e].  On a record with a numeric degradation
    rate, the survival function of either constituent returns at all
    arguments; it is 1 when the two times coincide; the fraction surviving
    from [t1] to [t3] is the product of the fractions surviving from [t1]
    to [t2] and from [t2] to [t3]; and for a non-negative rate and
    [tau <= t] it lies in (0, 1]. *)
Theorem survival_fraction_laws (self : ConstrainedMixtureModel) (p : pydict) (kc ke : R) :
  params self = Some p ->
  getnum p "k_cminus" = Ok kc -> getnum p "k_eminus" = Ok ke ->
  (forall t, _q_c self t t = Ok 1 /\ _q_e self t t = Ok 1)
  /\ (forall t1 t2 t3, exists x y x' y',
        _q_c self t1 t2 = Ok x /\ _q_c self t2 t3 = Ok y /\ _q_c self t1 t3 = Ok (x * y)
        /\ _q_e self t1 t2 = Ok x' /\ _q_e self t2 t3 = Ok y'
        /\ _q_e self t1 t3 = Ok (x' * y'))
  /\ (forall tau t, tau <= t ->
        (0 <= kc -> exists x, _q_c self tau t = Ok x /\ 0 < x <= 1)
        /\ (0 <= ke -> exists x, _q_e self tau t = Ok x /\ 0 < x <= 1)).
Proof.
  intros Hself Hkc Hke.
  assert (Hc : forall tau t, _q_c self tau t = Ok (q_val kc tau t)).
  { intros. unfold _q_c. rewrite (self_params_eq self p Hself). cbn [bind].
    rewrite Hkc. reflexivity. }
  assert (He : forall tau t, _q_e self tau t = Ok (q_val ke tau t)).
  { intros. unfold _q_e. rewrite (self_params_eq self p Hself). cbn [bind].
    rewrite Hke. reflexivity. }
  split; [|split].
  - intros t. rewrite Hc, He, !q_val_refl. auto.
  - intros t1 t2 t3.
    exists (q_val kc t1 t2), (q_val kc t2 t3), (q_val ke t1 t2), (q_val ke t2 t3).
    rewrite !Hc, !He, <- !q_val_compose. auto 10.
  - intros tau t Ht. split; intros Hk.
    + exists (q_val kc tau t). split; [apply Hc | apply q_val_bounds; assumption].
    + exists (q_val ke tau t). split; [apply He | apply q_val_bounds; assumption].
Qed.

Lemma turnover_at_0 (kp km : R) : turnover kp km 0 = 1.
Proof.
  unfold turnover. replace (- km * 0) with 0 by ring. rewrite exp_0. lra.
Qed.

Lemma turnover_bounds (kp km t : R) :
  0 < km -> 0 <= kp -> 0 <= t ->
  Rmin 1 (kp / km) <= turnover kp km t <= Rmax 1 (kp / km) /\ 0 < turnover kp km t.
Proof.
  intros Hkm Hkp Ht. unfold turnover.
  assert (HE : 0 < exp (- km * t) <= 1).
  { split; [apply exp_pos | apply exp_nonpos_le_1; nra]. }
  set (E := exp (- km * t)) in *.
  assert (Hr : 0 <= kp / km).
  { unfold Rdiv. apply Rmult_le_pos; [lra|]. left. apply Rinv_0_lt_compat. lra. }
  set (r := kp / km) in *.
  unfold Rmin, Rmax. destruct (Rle_dec 1 r); repeat split; nra.
Qed.

Lemma Q_c_turnover (self : ConstrainedMixtureModel) (p : pydict) (kp km t : R) :
  params self = Some p -> getnum p "k_cplus" = Ok kp -> getnum p "k_cminus" = Ok km ->
  km <> 0 -> _Q_c self t = Ok (turnover kp km t).
Proof.
  intros Hself Hkp Hkm Hnz. unfold _Q_c. rewrite (self_params_eq self p Hself).
  cbn [bind]. rewrite Hkm, Hkp. cbn [bind].
  rewrite (bool_decide_eq_false_2 (km = 0)) by exact Hnz. cbn [andb].
  rewrite pydiv_ok by exact Hnz. reflexivity.
Qed.

Lemma Q_e_turnover (self : ConstrainedMixtureModel) (p : pydict) (kp km t : R) :
  params self = Some p -> getnum p "k_eplus" = Ok kp -> getnum p "k_eminus" = Ok km ->
  km <> 0 -> _Q_e self t = Ok (turnover kp km t).
Proof.
  intros Hself Hkp Hkm Hnz. unfold _Q_e. rewrite (self_params_eq self p Hself).
  cbn [bind]. rewrite Hkm, Hkp. cbn [bind].
  rewrite (bool_decide_eq_false_2 (km = 0)) by exact Hnz. cbn [andb].
  rewrite pydiv_ok by exact Hnz. reflexivity.
Qed.

(** X2. Source: [_Q_c] and [_Q_e].  For a positive degradation rate and a
    non-negative synthesis rate, the total-mass function of either
    constituent returns at every time; it is 1 at time 0; and at every
    [t >= 0] it is positive and lies between 1, its initial value, and the
    ratio of the synthesis rate to the degradation rate. *)
Theorem total_mass_between_initial_and_equilibrium
    (self : ConstrainedMixtureModel) (p : pydict) (kcp kcm kep kem : R) :
  params self = Some p ->
  getnum p "k_cplus" = Ok kcp -> getnum p "k_cminus" = Ok kcm ->
  getnum p "k_eplus" = Ok kep -> getnum p "k_eminus" = Ok kem ->
  0 < kcm -> 0 <= kcp -> 0 < kem -> 0 <= kep ->
  _Q_c self 0 = Ok 1 /\ _Q_e self 0 = Ok 1
  /\ forall t, 0 <= t ->
       exists Qc Qe,
         _Q_c self t = Ok Qc /\ _Q_e self t = Ok Qe
         /\ 0 < Qc /\ Rmin 1 (kcp / kcm) <= Qc <= Rmax 1 (kcp / kcm)
         /\ 0 < Qe /\ Rmin 1 (kep / kem) <= Qe <= Rmax 1 (kep / kem).
Proof.
  intros Hself Hcp Hcm Hep Hem H1 H2 H3 H4.
  assert (Hc : forall t, _Q_c self t = Ok (turnover kcp kcm t))
    by (intros; apply (Q_c_turnover self p); auto; lra).
  assert (He : forall t, _Q_e self t = Ok (turnover kep kem t))
    by (intros; apply (Q_e_turnover self p); auto; lra).
  rewrite Hc, He, !turnover_at_0. split; [reflexivity|]. split; [reflexivity|].
  intros t Ht. exists (turnover kcp kcm t), (turnover kep kem t).
  destruct (turnover_bounds kcp kcm t H1 H2 Ht) as [Hb1 Hp1].
  destruct (turnover_bounds kep kem t H3 H4 Ht) as [Hb2 Hp2].
  rewrite Hc, He. auto 10.
Qed.

Lemma survival_fraction_laws_witness :
  (params m_feedback = Some feedback_dict
   /\ getnum feedback_dict "k_cminus" = Ok 1.0 /\ getnum feedback_dict "k_eminus" = Ok 1.0)
  /\ (forall t, _q_c m_feedback t t = Ok 1 /\ _q_e m_feedback t t = Ok 1)
  /\ (forall t1 t2 t3, exists x y x' y',
        _q_c m_feedback t1 t2 = Ok x /\ _q_c m_feedback t2 t3 = Ok y
        /\ _q_c m_feedback t1 t3 = Ok (x * y)
        /\ _q_e m_feedback t1 t2 = Ok x' /\ _q_e m_feedback t2 t3 = Ok y'
        /\ _q_e m_feedback t1 t3 = Ok (x' * y'))
  /\ (forall tau t, tau <= t ->
        (0 <= 1.0 -> exists x, _q_c m_feedback tau t = Ok x /\ 0 < x <= 1)
        /\ (0 <= 1.0 -> exists x, _q_e m_feedback tau t = Ok x /\ 0 < x <= 1)).
Proof.
  assert (H1 : getnum feedback_dict "k_cminus" = Ok 1.0) by (vm_compute; reflexivity).
  assert (H2 : getnum feedback_dict "k_eminus" = Ok 1.0) by (vm_compute; reflexivity).
  split; [auto|].
  exact (survival_fraction_laws m_feedback feedback_dict 1.0 1.0 eq_refl H1 H2).
Defined.

Lemma total_mass_between_initial_and_equilibrium_witness :
  (params m_feedback = Some feedback_dict
   /\ getnum feedback_dict "k_cplus" = Ok 1.0 /\ getnum feedback_dict "k_cminus" = Ok 1.0
   /\ getnum feedback_dict "k_eplus" = Ok 1.0 /\ getnum feedback_dict "k_eminus" = Ok 1.0
   /\ 0 < 1.0 /\ 0 <= 1.0)
  /\ _Q_c m_feedback 0 = Ok 1 /\ _Q_e m_feedback 0 = Ok 1
  /\ forall t, 0 <= t ->
       exists Qc Qe,
         _Q_c m_feedback t = Ok Qc /\ _Q_e m_feedback t = Ok Qe
         /\ 0 < Qc /\ Rmin 1 (1.0 / 1.0) <= Qc <= Rmax 1 (1.0 / 1.0)
         /\ 0 < Qe /\ Rmin 1 (1.0 / 1.0) <= Qe <= Rmax 1 (1.0 / 1.0).
Proof.
  assert (H1 : getnum feedback_dict "k_cplus" = Ok 1.0) by (vm_compute; reflexivity).
  assert (H2 : getnum feedback_dict "k_cminus" = Ok 1.0) by (vm_compute; reflexivity).
  assert (H3 : getnum feedback_dict "k_eplus" = Ok 1.0) by (vm_compute; reflexivity).
  assert (H4 : getnum feedback_dict "k_eminus" = Ok 1.0) by (vm_compute; reflexivity).
  assert (H5 : 0 < 1.0) by lra. assert (H6 : 0 <= 1.0) by lra.
  split; [auto 10|].
  exact (total_mass_between_initial_and_equilibrium m_feedback feedback_dict
           1.0 1.0 1.0 1.0 eq_refl H1 H2 H3 H4 H5 H6 H5 H6).
Defined.

(** ** Steady states *)

Lemma turnover_balanced (k t : R) : k <> 0 -> turnover k k t = 1.
Proof.
  intros H. unfold turnover. replace (k / k) with 1 by (field; exact H). lra.
Qed.

(** X3. Source: [_calc_J_c], [_Q_c] and [_constant_protocol].  When the
    collagen synthesis and degradation rates are equal and not zero, the
    collagen volume fraction is its initial value at every time, and a
    constant-protocol run (which returns when the elastin total-mass function
    does) gives a collagen fraction and a collagen stress that do not change
    along the grid. *)
Theorem balanced_turnover_is_stationary
    (self : ConstrainedMixtureModel) (p : pydict) (e : env) :
  params self = Some p -> reads p e ->
  v_k_cplus e = v_k_cminus e -> v_k_cminus e <> 0 ->
  elastin_ok e -> v_J0 e <> 0 ->
  (forall t, _calc_J_c self t = Ok (v_Jc0 e))
  /\ exists res,
       _constant_protocol self = Ok res
       /\ r_J_c res = map (fun _ => v_Jc0 e) (v_time e)
       /\ r_sigma_c res
          = map (fun _ => sigma_hat (v_c_c e) (v_alpha_c e) (v_lambda_roof e) * v_Jc0 e)
              (v_time e).
Proof.
  intros Hself Hreads Heq Hnz He HJ0nz.
  assert (Hc : collagen_ok e) by (intros H; contradiction).
  assert (HQ : forall t, Q_c_val e t = 1).
  { intros t. unfold Q_c_val. rewrite (bool_decide_eq_false_2 _ Hnz). cbn [andb].
    rewrite Heq. apply turnover_balanced. exact Hnz. }
  split.
  - intros t. pose proof Hreads as Hr. split_reads Hr.
    unfold _calc_J_c. rewrite (self_params_eq self p Hself). cbn [bind]. use_reads.
    rewrite (Q_c_eq self p e Hself Hreads t Hc). cbn [bind].
    rewrite HQ. f_equal. lra.
  - exists (constant_series e). split; [apply (constant_protocol_eq self p e Hself Hreads); assumption|].
    unfold constant_series. cbn [r_J_c r_sigma_c]. split.
    + apply map_ext. intros t. rewrite HQ. lra.
    + apply map_ext. intros t. rewrite HQ. f_equal. lra.
Qed.

(** ** Stress responses *)

(** X4. Source: [_sigma_c_roof].  For a positive collagen stiffness, the
    collagen stress response returns at every stretch; it vanishes at unit
    stretch, is positive above it and negative for a stretch between 0 and
    1; and it takes the same value at [lam] and [- lam]. *)
Theorem collagen_response_sign
    (self : ConstrainedMixtureModel) (p : pydict) (c alpha : R) :
  params self = Some p -> getnum p "c_c" = Ok c -> getnum p "alpha_c" = Ok alpha ->
  0 < c ->
  forall lam, exists s,
    _sigma_c_roof self lam = Ok s
    /\ _sigma_c_roof self (- lam) = Ok s
    /\ (lam = 1 -> s = 0) /\ (1 < lam -> 0 < s) /\ (0 < lam < 1 -> s < 0).
Proof.
  intros Hself Hc Ha Hpos lam.
  assert (Hs : forall l, _sigma_c_roof self l = Ok (sigma_hat c alpha l)).
  { intros l. unfold _sigma_c_roof. rewrite (self_params_eq self p Hself). cbn [bind].
    rewrite Hc, Ha. reflexivity. }
  exists (sigma_hat c alpha lam). rewrite !Hs. split; [reflexivity|].
  split.
  { f_equal. unfold sigma_hat. replace ((- lam) ^ 2) with (lam ^ 2) by ring. reflexivity. }
  unfold sigma_hat.
  pose proof (exp_pos (alpha * (lam ^ 2 - 1) ^ 2)) as HE.
  set (E := exp _) in *.
  repeat split.
  - intros ->. ring.
  - intros Hl.
    assert (0 < lam ^ 2 - 1) by nra. assert (0 < lam ^ 2) by nra.
    repeat apply Rmult_lt_0_compat; lra.
  - intros [Hl1 Hl2].
    assert (lam ^ 2 - 1 < 0) by nra. assert (0 < lam ^ 2) by nra.
    assert (0 < 4 * c * lam ^ 2 * E) by (repeat apply Rmult_lt_0_compat; lra).
    nra.
Qed.

Lemma balanced_turnover_is_stationary_witness :
  let e := env_of feedback_dict in
  (params m_feedback = Some feedback_dict /\ reads feedback_dict e
   /\ v_k_cplus e = v_k_cminus e /\ v_k_cminus e <> 0 /\ elastin_ok e /\ v_J0 e <> 0)
  /\ (forall t, _calc_J_c m_feedback t = Ok (v_Jc0 e))
  /\ exists res,
       _constant_protocol m_feedback = Ok res
       /\ r_J_c res = map (fun _ => v_Jc0 e) (v_time e)
       /\ r_sigma_c res
          = map (fun _ => sigma_hat (v_c_c e) (v_alpha_c e) (v_lambda_roof e) * v_Jc0 e)
              (v_time e).
Proof.
  intros e.
  assert (H1 : v_k_cplus e = v_k_cminus e) by (vm_compute; reflexivity).
  assert (H2 : v_k_cminus e <> 0).
  { assert (H : v_k_cminus e = 1.0) by (vm_compute; reflexivity). rewrite H. lra. }
  pose proof rates_feedback as [_ H3]. pose proof J0_feedback as H4.
  split.
  { split; [reflexivity|]. split; [exact reads_feedback|]. auto. }
  exact (balanced_turnover_is_stationary m_feedback feedback_dict e eq_refl
           reads_feedback H1 H2 H3 H4).
Defined.

Lemma collagen_response_sign_witness :
  (params m_feedback = Some feedback_dict
   /\ getnum feedback_dict "c_c" = Ok 1.0 /\ getnum feedback_dict "alpha_c" = Ok 0.01
   /\ 0 < 1.0)
  /\ forall lam, exists s,
       _sigma_c_roof m_feedback lam = Ok s
       /\ _sigma_c_roof m_feedback (- lam) = Ok s
       /\ (lam = 1 -> s = 0) /\ (1 < lam -> 0 < s) /\ (0 < lam < 1 -> s < 0).
Proof.
  assert (H1 : getnum feedback_dict "c_c" = Ok 1.0) by (vm_compute; reflexivity).
  assert (H2 : getnum feedback_dict "alpha_c" = Ok 0.01) by (vm_compute; reflexivity).
  assert (H3 : 0 < 1.0) by lra.
  split; [auto|].
  exact (collagen_response_sign m_feedback feedback_dict 1.0 0.01 eq_refl H1 H2 H3).
Defined.

Lemma arr_add_zeros {A} (t : list A) :
  arr_add (map (fun _ => 0) t) (map (fun _ => 0) t) = map (fun _ => 0) t.
Proof.
  unfold arr_add. induction t as [|x t IH]; [reflexivity|].
  cbn [map zip_with]. rewrite IH. f_equal. lra.
Qed.

(** X5. Source: [_constant_protocol], [_sigma_c_roof], [_calc_sigma_g] and
    [simulate].  With a base stretch of 1 the tissue carries no stress: on a
    resolved record whose total-mass functions return, the constant-protocol
    run without feedback returns, prints nothing, and its collagen, elastin,
    matrix and total stress series are zero at every grid time, whatever the
    stiffnesses and the turnover. *)
Theorem unstretched_constant_run_is_stress_free
    (quad : (R -> result R) -> R -> R -> result R)
    (self : ConstrainedMixtureModel) (p : pydict) (e : env) :
  params self = Some p -> reads p e -> v_lambda_roof e = 1 ->
  collagen_ok e -> elastin_ok e -> v_J0 e <> 0 ->
  exists res,
    simulate quad self "constant" false = Ok (res, [])
    /\ r_sigma_c res = map (fun _ => 0) (v_time e)
    /\ r_sigma_e res = map (fun _ => 0) (v_time e)
    /\ r_sigma_g res = map (fun _ => 0) (v_time e)
    /\ r_sigma_total res = Some (map (fun _ => 0) (v_time e)).
Proof.
  intros Hself Hreads Hl Hc He HJ0nz. pose proof Hreads as Hr. split_reads Hr.
  assert (H1 : r_sigma_c (constant_series e) = map (fun _ => 0) (v_time e)).
  { unfold constant_series, sigma_hat. cbn [r_sigma_c]. apply map_ext. intros t.
    rewrite Hl. ring. }
  assert (H2 : r_sigma_e (constant_series e) = map (fun _ => 0) (v_time e)).
  { unfold constant_series. cbn [r_sigma_e]. apply map_ext. intros t. rewrite Hl. ring. }
  assert (H3 : r_sigma_g (constant_series e) = map (fun _ => 0) (v_time e)).
  { unfold constant_series, sigma_g_val. cbn [r_sigma_g]. apply map_ext. intros t.
    rewrite Hl. unfold Rdiv. ring. }
  eexists. split.
  - unfold simulate, protocol_funcs. cbn [String.eqb Ascii.eqb Bool.eqb].
    rewrite (constant_protocol_eq self p e Hself Hreads Hc He HJ0nz). cbn [bind].
    rewrite (self_params_eq self p Hself). cbn [bind]. use_reads. reflexivity.
  - cbn [r_sigma_c r_sigma_e r_sigma_g r_sigma_total].
    rewrite H1, H2, H3, !arr_add_zeros. auto.
Qed.

Lemma init_unstretched : __init__ (Some unstretched_record) = Ok m_unstretched.
Proof.
  rewrite (init_supplied (Some unstretched_record) (VFloat 1.0) (VFloat 0.75)
             (VFloat 0.05) (VFloat 0.20) 1.0 2 1.0 0.75 1.0 0.05);
    [reflexivity | closed_side ..].
Qed.

Lemma reads_unstretched : reads unstretched_dict (env_of unstretched_dict).
Proof. closed_reads. Qed.

Lemma unstretched_constant_run_is_stress_free_witness :
  let e := env_of unstretched_dict in
  (__init__ (Some unstretched_record) = Ok m_unstretched
   /\ reads unstretched_dict e /\ v_lambda_roof e = 1
   /\ collagen_ok e /\ elastin_ok e /\ v_J0 e <> 0)
  /\ exists res,
       simulate midpoint_quad m_unstretched "constant" false = Ok (res, [])
       /\ r_sigma_c res = map (fun _ => 0) (v_time e)
       /\ r_sigma_e res = map (fun _ => 0) (v_time e)
       /\ r_sigma_g res = map (fun _ => 0) (v_time e)
       /\ r_sigma_total res = Some (map (fun _ => 0) (v_time e)).
Proof.
  intros e.
  assert (H1 : v_lambda_roof e = 1).
  { assert (H : v_lambda_roof e = 1.0) by (vm_compute; reflexivity). rewrite H. lra. }
  assert (H2 : collagen_ok e).
  { assert (H : v_k_cminus e = 1.0) by (vm_compute; reflexivity).
    unfold collagen_ok. rewrite H. intros; lra. }
  assert (H3 : elastin_ok e).
  { assert (H : v_k_eminus e = 1.0) by (vm_compute; reflexivity).
    unfold elastin_ok. rewrite H. intros; lra. }
  assert (H4 : v_J0 e <> 0).
  { assert (H : v_J0 e = 1.0) by (vm_compute; reflexivity). rewrite H. lra. }
  split.
  { split; [exact init_unstretched|]. split; [exact reads_unstretched|]. auto. }
  exact (unstretched_constant_run_is_stress_free midpoint_quad m_unstretched
           unstretched_dict e eq_refl reads_unstretched H1 H2 H3 H4).
Defined.

(** ** What the constructor leaves in [self.params] *)

Lemma getitem_inv (p : pydict) (k : string) (v : pyval) :
  getitem p k = Ok v -> p !! k = Some v.
Proof. unfold getitem. destruct (p !! k); [congruence | discriminate]. Qed.

Lemma linspace_inv (stop : R) (n : Z) (t : list R) :
  linspace stop n = Ok t -> (0 <= n)%Z /\ t = grid stop n.
Proof.
  unfold linspace, grid. destruct (Z.ltb_spec n 0) as [Hlt|Hge]; [discriminate|].
  intros Heq. injection Heq as <-. auto.
Qed.

(** A constructor that returns has found a homeostatic stress in the
    record, and has written the five derived entries and the two fluxes. *)
Lemma init_inv (user : option pydict) (self : ConstrainedMixtureModel) :
  __init__ user = Ok self ->
  let c := default ∅ user ∪ default_params in
  exists p T n fc fe fg s0,
    params self = Some p
    /\ getnum c "t_end" = Ok T /\ getint c "n_points" = Ok n /\ (0 <= n)%Z
    /\ c !! "fi0_c" = Some fc /\ c !! "fi0_e" = Some fe /\ c !! "fi0_g" = Some fg
    /\ c !! "sigma0_c" = Some s0 /\ s0 <> VNone
    /\ p !! "time" = Some (VArr (grid T n)) /\ p !! "J0" = Some (VFloat 1.0)
    /\ p !! "Jc0" = Some fc /\ p !! "Je0" = Some fe /\ p !! "Jg0" = Some fg
    /\ p !! "sigma0_c" = Some s0
    /\ match c !! "j_cplus" with
       | Some v => p !! "j_cplus" = Some v
       | None => exists k J, getnum c "k_cplus" = Ok k /\ num fc = Ok J
                             /\ p !! "j_cplus" = Some (VFloat (k * J))
       end
    /\ match c !! "j_eplus" with
       | Some v => p !! "j_eplus" = Some v
       | None => exists k J, getnum c "k_eplus" = Ok k /\ num fe = Ok J
                             /\ p !! "j_eplus" = Some (VFloat (k * J))
       end.
Proof.
  intros H c. unfold __init__ in H.
  inv_bind_as H p0 E0. inv_bind_as H p1 E1. inv_bind_as H p2 E2. injection H as <-.
  unfold _validate_and_complete_params in E0. fold c in E0.
  inv_bind_as E0 T ET. inv_bind_as E0 n En. inv_bind_as E0 t Et.
  apply linspace_inv in Et as [Hn ->].
  inv_bind_as E0 fc Efc. rewrite !getitem_insert_ne in Efc by done.
  apply getitem_inv in Efc.
  inv_bind_as E0 fe Efe. rewrite !getitem_insert_ne in Efe by done.
  apply getitem_inv in Efe.
  inv_bind_as E0 fg Efg. rewrite !getitem_insert_ne in Efg by done.
  apply getitem_inv in Efg.
  inv_bind_as E0 s0 Es0. rewrite !getitem_insert_ne in Es0 by done.
  apply getitem_inv in Es0.
  assert (Hs0 : s0 <> VNone /\
                p0 = <["Jg0" := fg]> (<["Je0" := fe]> (<["Jc0" := fc]>
                       (<["J0" := VFloat 1.0]> (<["time" := VArr (grid T n)]> c))))).
  { destruct s0; try (injection E0 as <-; split; [discriminate | reflexivity]).
    exfalso. do 5 inv_bind E0. inv_bind_as E0 s Es.
    unfold _sigma_c_roof in Es. cbn in Es. discriminate. }
  destruct Hs0 as [Hs0 Hp0]. clear E0.
  assert (L0 : p0 !! "time" = Some (VArr (grid T n)) /\ p0 !! "J0" = Some (VFloat 1.0)
               /\ p0 !! "Jc0" = Some fc /\ p0 !! "Je0" = Some fe /\ p0 !! "Jg0" = Some fg
               /\ p0 !! "sigma0_c" = Some s0 /\ p0 !! "j_cplus" = c !! "j_cplus"
               /\ p0 !! "j_eplus" = c !! "j_eplus"
               /\ getnum p0 "k_cplus" = getnum c "k_cplus"
               /\ getnum p0 "k_eplus" = getnum c "k_eplus").
  { subst p0. rewrite ?getnum_insert_ne by done.
    repeat split; rewrite ?lookup_insert_ne by done;
      first [apply lookup_insert_eq | assumption | reflexivity]. }
  destruct L0 as (Lt & LJ0 & LJc & LJe & LJg & Ls & Ljc & Lje & Lkc & Lke).
  assert (L1 : (forall k, k <> "j_cplus" -> p1 !! k = p0 !! k)
               /\ match c !! "j_cplus" with
                  | Some v => p1 !! "j_cplus" = Some v
                  | None => exists k J, getnum c "k_cplus" = Ok k /\ num fc = Ok J
                                        /\ p1 !! "j_cplus" = Some (VFloat (k * J))
                  end).
  { rewrite <- Ljc. destruct (p0 !! "j_cplus") as [v|] eqn:Hj.
    - injection E1 as <-. auto.
    - inv_bind_as E1 k Ek. inv_bind_as E1 J EJ. injection E1 as <-. split.
      + intros k' Hk'. rewrite lookup_insert_ne by congruence. reflexivity.
      + exists k, J. rewrite <- Lkc. split; [exact Ek|]. split.
        * unfold getnum, getitem in EJ. rewrite LJc in EJ. exact EJ.
        * apply lookup_insert_eq. }
  destruct L1 as [F1 Hjc].
  assert (L2 : (forall k, k <> "j_eplus" -> p2 !! k = p1 !! k)
               /\ match c !! "j_eplus" with
                  | Some v => p2 !! "j_eplus" = Some v
                  | None => exists k J, getnum c "k_eplus" = Ok k /\ num fe = Ok J
                                        /\ p2 !! "j_eplus" = Some (VFloat (k * J))
                  end).
  { rewrite <- Lje, <- (F1 "j_eplus") by done.
    destruct (p1 !! "j_eplus") as [v|] eqn:Hj.
    - injection E2 as <-. auto.
    - inv_bind_as E2 k Ek. inv_bind_as E2 J EJ. injection E2 as <-. split.
      + intros k' Hk'. rewrite lookup_insert_ne by congruence. reflexivity.
      + exists k, J. split.
        * rewrite <- Lke. unfold getnum, getitem in *. rewrite <- (F1 "k_eplus") by done.
          exact Ek.
        * split; [|apply lookup_insert_eq].
          unfold getnum, getitem in EJ. rewrite (F1 "Je0"), LJe in EJ by done. exact EJ. }
  destruct L2 as [F2 Hje].
  exists p2, T, n, fc, fe, fg, s0. cbn [params].
  rewrite !F2, !F1 by done.
  repeat split; assumption.
Qed.

(** X6. Source: [__init__] and [_validate_and_complete_params].  Whenever
    the constructor returns an instance, its [params] hold 1.0 under ['J0']
    and the record's (or default) fractions under ['Jc0'], ['Je0'], ['Jg0'],
    whatever the record itself held under those keys; the record supplied a
    homeostatic stress other than [None], and it is kept; a flux the record
    supplies under ['j_cplus'] or ['j_eplus'] is kept as it is, and a flux
    it does not supply is the synthesis rate times the initial fraction. *)
Theorem constructor_writes_derived_entries
    (user : option pydict) (self : ConstrainedMixtureModel) :
  __init__ user = Ok self ->
  let c := default ∅ user ∪ default_params in
  exists p,
    params self = Some p
    /\ p !! "J0" = Some (VFloat 1.0)
    /\ p !! "Jc0" = c !! "fi0_c" /\ p !! "Je0" = c !! "fi0_e" /\ p !! "Jg0" = c !! "fi0_g"
    /\ (exists s0, s0 <> VNone /\ c !! "sigma0_c" = Some s0 /\ p !! "sigma0_c" = Some s0)
    /\ (forall v, c !! "j_cplus" = Some v -> p !! "j_cplus" = Some v)
    /\ (forall v, c !! "j_eplus" = Some v -> p !! "j_eplus" = Some v)
    /\ (c !! "j_cplus" = None ->
        exists k J, getnum c "k_cplus" = Ok k /\ getnum c "fi0_c" = Ok J
                    /\ p !! "j_cplus" = Some (VFloat (k * J)))
    /\ (c !! "j_eplus" = None ->
        exists k J, getnum c "k_eplus" = Ok k /\ getnum c "fi0_e" = Ok J
                    /\ p !! "j_eplus" = Some (VFloat (k * J))).
Proof.
  intros H c.
  destruct (init_inv user self H)
    as (p & T & n & fc & fe & fg & s0 & Hp & _ & _ & _ & Hfc & Hfe & Hfg & Hs & Hs0
        & _ & HJ0 & HJc & HJe & HJg & Hps & Hjc & Hje).
  fold c in Hfc, Hfe, Hfg, Hs, Hjc, Hje.
  exists p. rewrite Hfc, Hfe, Hfg.
  split; [exact Hp|]. split; [exact HJ0|]. split; [exact HJc|]. split; [exact HJe|].
  split; [exact HJg|]. split; [exists s0; auto|].
  split; [intros v Hv; rewrite Hv in Hjc; exact Hjc|].
  split; [intros v Hv; rewrite Hv in Hje; exact Hje|].
  split.
  - intros Hn. rewrite Hn in Hjc. destruct Hjc as (k & J & Hk & HJ & Hv).
    exists k, J. split; [exact Hk|]. split; [|exact Hv].
    unfold getnum, getitem. rewrite Hfc. exact HJ.
  - intros Hn. rewrite Hn in Hje. destruct Hje as (k & J & Hk & HJ & Hv).
    exists k, J. split; [exact Hk|]. split; [|exact Hv].
    unfold getnum, getitem. rewrite Hfe. exact HJ.
Qed.

Lemma constructor_writes_derived_entries_witness :
  let c := bare_record ∪ default_params in
  __init__ (Some bare_record) = Ok m_bare
  /\ exists p,
       params m_bare = Some p
       /\ p !! "J0" = Some (VFloat 1.0)
       /\ p !! "Jc0" = c !! "fi0_c" /\ p !! "Je0" = c !! "fi0_e"
       /\ p !! "Jg0" = c !! "fi0_g"
       /\ (exists s0, s0 <> VNone /\ c !! "sigma0_c" = Some s0 /\ p !! "sigma0_c" = Some s0)
       /\ (forall v, c !! "j_cplus" = Some v -> p !! "j_cplus" = Some v)
       /\ (forall v, c !! "j_eplus" = Some v -> p !! "j_eplus" = Some v)
       /\ (c !! "j_cplus" = None ->
           exists k J, getnum c "k_cplus" = Ok k /\ getnum c "fi0_c" = Ok J
                       /\ p !! "j_cplus" = Some (VFloat (k * J)))
       /\ (c !! "j_eplus" = None ->
           exists k J, getnum c "k_eplus" = Ok k /\ getnum c "fi0_e" = Ok J
                       /\ p !! "j_eplus" = Some (VFloat (k * J))).
Proof.
  intros c. split; [exact init_bare|].
  exact (constructor_writes_derived_entries (Some bare_record) m_bare init_bare).
Defined.

(** ** Sizes and grid of a result *)

Lemma grid_length (T : R) (n : Z) : length (grid T n) = Z.to_nat n.
Proof. unfold grid. rewrite length_map, length_seq. reflexivity. Qed.

Lemma grid_lookup (T : R) (n : Z) (i : nat) :
  (i < Z.to_nat n)%nat ->
  grid T n !! i = Some (INR i * (T / (INR (Z.to_nat n) - 1))).
Proof.
  intros Hi. unfold grid. rewrite list_lookup_fmap, lookup_seq_lt by exact Hi.
  reflexivity.
Qed.

Lemma grid_first (T : R) (n : Z) : (1 <= n)%Z -> grid T n !! 0%nat = Some 0.
Proof.
  intros Hn. rewrite grid_lookup by lia. f_equal. cbn [INR]. lra.
Qed.

Lemma grid_last (T : R) (n : Z) : (2 <= n)%Z -> last (grid T n) = Some T.
Proof.
  intros Hn. rewrite last_lookup, grid_length, grid_lookup by lia. f_equal.
  set (k := Z.to_nat n). assert (Hk : (2 <= k)%nat) by (unfold k; lia).
  replace (Init.Nat.pred k) with (k - 1)%nat by lia.
  rewrite minus_INR by lia. cbn [INR].
  assert (2 <= INR k) by (apply (le_INR 2); lia).
  field. lra.
Qed.

Lemma protocol_time (quad : (R -> result R) -> R -> R -> result R)
    (self : ConstrainedMixtureModel) (p : pydict) (protocol : string)
    (base : results) (t : list R) :
  params self = Some p -> getarr p "time" = Ok t ->
  protocol_funcs quad self protocol = Some (Ok base) ->
  r_time base = t.
Proof.
  intros Hself Htime H. unfold protocol_funcs in H.
  destruct (String.eqb protocol "constant");
    [|destruct (String.eqb protocol "linear");
      [|destruct (String.eqb protocol "cyclic"); [|discriminate]]];
    injection H as H.
  - unfold _constant_protocol in H. rewrite (self_params_eq self p Hself) in H.
    cbn [bind] in H. rewrite Htime in H. cbn [bind] in H.
    do 2 inv_bind H. injection H as <-. reflexivity.
  - unfold _linear_protocol in H. rewrite (self_params_eq self p Hself) in H.
    cbn [bind] in H. rewrite Htime in H. cbn [bind] in H.
    do 3 inv_bind H. injection H as <-. reflexivity.
  - unfold _cyclic_protocol in H. rewrite (self_params_eq self p Hself) in H.
    cbn [bind] in H. rewrite Htime in H. cbn [bind] in H.
    do 3 inv_bind H. injection H as <-. reflexivity.
Qed.

(** What [simulate] has done when it returns: the base run, the solver when
    asked for, and the two aggregates. *)
Lemma simulate_inv (quad : (R -> result R) -> R -> R -> result R)
    (self : ConstrainedMixtureModel) (p : pydict) (protocol : string) (feedback : bool)
    (res : results) (out : list event) :
  params self = Some p -> simulate quad self protocol feedback = Ok (res, out) ->
  exists base mid Jg0,
    protocol_funcs quad self protocol = Some (Ok base)
    /\ (if feedback then _apply_mechanical_feedback self base = Ok (mid, out)
        else mid = base /\ out = [])
    /\ getnum p "Jg0" = Ok Jg0
    /\ res = {| r_time := r_time mid; r_lambda := r_lambda mid;
                r_sigma_c := r_sigma_c mid; r_sigma_e := r_sigma_e mid;
                r_sigma_g := r_sigma_g mid; r_J_c := r_J_c mid; r_J_e := r_J_e mid;
                r_J_total := Some (arr_add_scalar (arr_add (r_J_c mid) (r_J_e mid)) Jg0);
                r_sigma_total :=
                  Some (arr_add (arr_add (r_sigma_c mid) (r_sigma_e mid))
                          (r_sigma_g mid)) |}.
Proof.
  intros Hself H. unfold simulate in H.
  destruct (protocol_funcs quad self protocol) as [run|] eqn:Hrun; [|discriminate].
  inv_bind_as H base Ebase. subst run.
  inv_bind_as H fbp Efb. destruct fbp as [mid out1].
  rewrite (self_params_eq self p Hself) in H. cbn [bind] in H.
  inv_bind_as H Jg0 EJ. injection H as <- <-.
  exists base, mid, Jg0. split; [reflexivity|]. split.
  - destruct feedback; [exact Efb|]. injection Efb as <- <-. auto.
  - auto.
Qed.

(** X7. Source: [_validate_and_complete_params] (the grid), the three
    protocol runs, [_apply_mechanical_feedback] and [simulate].  For an
    instance the constructor returned and any [simulate] call that returns,
    with feedback on or off: the time series is the grid of [n_points]
    evenly spaced times, which starts at 0 and (for at least two points)
    ends at [t_end]; and the stretch, the three stresses, the two volume
    fractions and the two aggregates each have exactly [n_points] entries. *)
Theorem series_have_n_points_entries
    (quad : (R -> result R) -> R -> R -> result R)
    (user : option pydict) (self : ConstrainedMixtureModel)
    (protocol : string) (feedback : bool) (res : results) (out : list event) :
  __init__ user = Ok self ->
  simulate quad self protocol feedback = Ok (res, out) ->
  let c := default ∅ user ∪ default_params in
  exists T n Jt St,
    getnum c "t_end" = Ok T /\ getint c "n_points" = Ok n /\ (0 <= n)%Z
    /\ r_time res = grid T n
    /\ ((2 <= n)%Z -> forall i, (i < Z.to_nat n)%nat ->
          r_time res !! i = Some (INR i * (T / (INR (Z.to_nat n) - 1))))
    /\ ((1 <= n)%Z -> r_time res !! 0%nat = Some 0)
    /\ ((2 <= n)%Z -> last (r_time res) = Some T)
    /\ length (r_time res) = Z.to_nat n /\ length (r_lambda res) = Z.to_nat n
    /\ length (r_sigma_c res) = Z.to_nat n /\ length (r_sigma_e res) = Z.to_nat n
    /\ length (r_sigma_g res) = Z.to_nat n
    /\ length (r_J_c res) = Z.to_nat n /\ length (r_J_e res) = Z.to_nat n
    /\ r_J_total res = Some Jt /\ length Jt = Z.to_nat n
    /\ r_sigma_total res = Some St /\ length St = Z.to_nat n.
Proof.
  intros Hinit Hsim c.
  destruct (init_inv user self Hinit)
    as (p & T & n & fc & fe & fg & s0 & Hp & HT & Hn & Hpos & _ & _ & _ & _ & _
        & Ht & _).
  fold c in HT, Hn.
  assert (Htime : getarr p "time" = Ok (grid T n)).
  { unfold getarr, getitem. rewrite Ht. reflexivity. }
  destruct (simulate_inv quad self p protocol feedback res out Hp Hsim)
    as (base & mid & Jg0 & Hrun & Hfb & _ & ->).
  pose proof (protocol_lengths quad self p protocol base _ Hp Htime Hrun)
    as (Ll & Lsc & Lse & Lsg & LJc & LJe).
  pose proof (protocol_time quad self p protocol base _ Hp Htime Hrun) as Lt.
  assert (Hmid : r_time mid = grid T n /\ length (r_lambda mid) = length (grid T n)
                 /\ length (r_sigma_c mid) = length (grid T n)
                 /\ length (r_sigma_e mid) = length (grid T n)
                 /\ length (r_sigma_g mid) = length (grid T n)
                 /\ length (r_J_c mid) = length (grid T n)
                 /\ length (r_J_e mid) = length (grid T n)).
  { destruct feedback.
    - destruct (feedback_inv self p _ base mid out Hp Htime Hfb)
        as (M1 & M2 & M3 & M4 & M5 & M6 & M7).
      rewrite M3, M4, M5, M6, M7. auto 10.
    - destruct Hfb as [-> _]. auto 10. }
  destruct Hmid as (Mt & Ml & Msc & Mse & Msg & MJc & MJe).
  rewrite grid_length in *.
  exists T, n. eexists. eexists.
  cbn [r_time r_lambda r_sigma_c r_sigma_e r_sigma_g r_J_c r_J_e r_J_total r_sigma_total].
  rewrite Mt.
  split; [exact HT|]. split; [exact Hn|]. split; [exact Hpos|]. split; [reflexivity|].
  split; [intros _ i Hi; apply grid_lookup; exact Hi|].
  split; [apply grid_first|]. split; [apply grid_last|].
  split; [apply grid_length|].
  repeat split; try assumption.
  - unfold arr_add_scalar, arr_add. rewrite length_map, length_zip_with. lia.
  - unfold arr_add. rewrite !length_zip_with. lia.
Qed.

Lemma series_have_n_points_entries_witness :
  let c := feedback_record ∪ default_params in
  exists res out,
    (__init__ (Some feedback_record) = Ok m_feedback
     /\ simulate midpoint_quad m_feedback "constant" true = Ok (res, out))
    /\ exists T n Jt St,
         getnum c "t_end" = Ok T /\ getint c "n_points" = Ok n /\ (0 <= n)%Z
         /\ r_time res = grid T n
         /\ ((2 <= n)%Z -> forall i, (i < Z.to_nat n)%nat ->
               r_time res !! i = Some (INR i * (T / (INR (Z.to_nat n) - 1))))
         /\ ((1 <= n)%Z -> r_time res !! 0%nat = Some 0)
         /\ ((2 <= n)%Z -> last (r_time res) = Some T)
         /\ length (r_time res) = Z.to_nat n /\ length (r_lambda res) = Z.to_nat n
         /\ length (r_sigma_c res) = Z.to_nat n /\ length (r_sigma_e res) = Z.to_nat n
         /\ length (r_sigma_g res) = Z.to_nat n
         /\ length (r_J_c res) = Z.to_nat n /\ length (r_J_e res) = Z.to_nat n
         /\ r_J_total res = Some Jt /\ length Jt = Z.to_nat n
         /\ r_sigma_total res = Some St /\ length St = Z.to_nat n.
Proof.
  intros c. destruct simulate_feedback_sample as (res & out & Hsim).
  exists res, out. split; [split; [exact init_feedback | exact Hsim]|].
  exact (series_have_n_points_entries midpoint_quad (Some feedback_record) m_feedback
           "constant" true res out init_feedback Hsim).
Defined.

(** ** The stand-alone resolver *)

Lemma default_in_DEFAULT (k : string) :
  is_Some (default_params !! k) -> is_Some (Constans.DEFAULT_PARAMS !! k).
Proof.
  intros H. unfold Constans.DEFAULT_PARAMS.
  change (is_Some
    ((list_to_map
        ([ ("c_c", VFloat 1.0); ("c_e", VFloat 50.0); ("c_g", VFloat 10.0);
           ("fi0_c", VFloat 0.75); ("fi0_e", VFloat 0.05); ("fi0_g", VFloat 0.20);
           ("k_cplus", VFloat 1.0); ("k_cminus", VFloat 1.0);
           ("k_eplus", VFloat 1.0); ("k_eminus", VFloat 1.0);
           ("lambda0_c", VFloat 1.05); ("lambda0_e", VFloat 1.10);
           ("lambda_roof", VFloat 1.1); ("a", VFloat 0.1);
           ("K_cplus", VFloat 0.04); ("sigma0_c", VNone);
           ("alpha_c", VFloat 0.01); ("gamma", VFloat 1.0);
           ("t_end", VFloat 10.0); ("n_points", VInt 1000) ]
         ++ [ ("epsilon", VFloat 0.0001); ("omega", VFloat PI) ]) : pydict) !! k)).
  rewrite list_to_map_app. apply lookup_union_is_Some. left. exact H.
Qed.

(** The resolver on a record that leaves the homeostatic stress unset and
    passes the two checks: it returns, with the stress derived. *)
Lemma get_parameters_unset (overrides : option pydict) (fc fe fg : pyval)
    (Jc Je kp ke km a g l0 cc al T : R) (n : Z) :
  let c := default ∅ overrides ∪ Constans.DEFAULT_PARAMS in
  c !! "sigma0_c" = Some VNone ->
  c !! "fi0_c" = Some fc -> c !! "fi0_e" = Some fe -> c !! "fi0_g" = Some fg ->
  num fc = Ok Jc -> num fe = Ok Je -> Jc <> 0 ->
  getnum c "k_cplus" = Ok kp -> getnum c "k_eplus" = Ok ke ->
  getnum c "k_cminus" = Ok km -> getnum c "a" = Ok a ->
  getnum c "gamma" = Ok g -> 1.0 + 2.0 * g <> 0 ->
  getnum c "lambda0_c" = Ok l0 -> getnum c "c_c" = Ok cc -> getnum c "alpha_c" = Ok al ->
  getnum c "t_end" = Ok T -> getint c "n_points" = Ok n -> (0 <= n)%Z ->
  ~ (km = 0 /\ kp <> 0) -> 0 < a ->
  exists p,
    Constans.get_parameters overrides = Ok p
    /\ p !! "sigma0_c" = Some (VFloat (Jc * sigma_hat cc al l0)).
Proof.
  intros c Hs Hfc Hfe Hfg HJc HJe HJcnz Hkp Hke Hkm Ha Hg Hgnz Hl0 Hcc Hal HT Hn Hpos
    Hrates Hapos.
  unfold c in *. clear c.
  set (G := rpow Jc (1.0 / (1.0 + 2.0 * g))).
  assert (HG : G <> 0) by (apply rpow_nonzero; exact HJcnz).
  assert (Hval : Jc / 1.0 * (4 * cc * (l0 * G / G) ^ 2 * ((l0 * G / G) ^ 2 - 1)
                             * exp (al * ((l0 * G / G) ^ 2 - 1) ^ 2))
                 = Jc * sigma_hat cc al l0).
  { unfold sigma_hat. replace (l0 * G / G) with l0 by (field; exact HG). lra. }
  assert (Hb1 : bool_decide (km = 0) && negb (bool_decide (kp = 0)) = false).
  { rewrite andb_false_iff, negb_false_iff, bool_decide_eq_false, bool_decide_eq_true.
    destruct (Req_dec_T km 0); destruct (Req_dec_T kp 0); tauto. }
  assert (Hb2 : bool_decide (a <= 0) = false) by (apply bool_decide_eq_false; lra).
  unfold Constans.get_parameters.
  unfold getitem at 1. rewrite ?lookup_insert_ne by done. rewrite Hfc. cbn [bind].
  unfold getitem at 1. rewrite ?lookup_insert_ne by done. rewrite Hfe. cbn [bind].
  unfold getitem at 1. rewrite ?lookup_insert_ne by done. rewrite Hfg. cbn [bind].
  rewrite ?getnum_insert_ne by done. rewrite Hkp. cbn [bind].
  unfold getnum at 1. rewrite ?getitem_insert_ne by done.
  rewrite getitem_insert_eq. cbn [bind]. rewrite HJc. cbn [bind].
  rewrite ?getnum_insert_ne by done. rewrite Hke. cbn [bind].
  unfold getnum at 1. rewrite ?getitem_insert_ne by done.
  rewrite getitem_insert_eq. cbn [bind]. rewrite HJe. cbn [bind].
  unfold getitem at 1. rewrite ?lookup_insert_ne by done. rewrite Hs. cbn [bind].
  unfold getnum at 1. rewrite ?getitem_insert_ne by done.
  rewrite getitem_insert_eq. cbn [bind]. rewrite HJc. cbn [bind].
  rewrite ?getnum_insert_ne by done. rewrite Hg. cbn [bind].
  rewrite pydiv_ok by exact Hgnz. cbn [bind].
  rewrite pypow_ok by exact HJcnz. cbn [bind]. fold G.
  rewrite Hl0. cbn [bind]. rewrite pydiv_ok by exact HG. cbn [bind].
  rewrite Hcc, Hal. cbn [bind].
  unfold getnum at 1. rewrite ?getitem_insert_ne by done.
  rewrite getitem_insert_eq. cbn [bind]. rewrite HJc. cbn [bind].
  unfold getnum at 1. rewrite ?getitem_insert_ne by done.
  rewrite getitem_insert_eq. cbn [bind num].
  rewrite pydiv_ok by lra. cbn [bind].
  rewrite ?getnum_insert_ne by done. rewrite Hkm, Hkp. cbn [bind]. rewrite Hb1. rewrite Ha. cbn [bind]. rewrite Hb2.
  rewrite Hval.
  match goal with
  | |- context [match ?m !! "omega" with _ => _ end] => destruct (m !! "omega")
  end.
  - rewrite ?getnum_insert_ne, ?getint_insert_ne by done. rewrite HT, Hn. cbn [bind].
    rewrite linspace_ok by exact Hpos. cbn [bind]. eexists. split; [reflexivity|].
    rewrite lookup_insert_ne by done. apply lookup_insert_eq.
  - rewrite ?getnum_insert_ne, ?getint_insert_ne by done. rewrite HT, Hn. cbn [bind].
    rewrite linspace_ok by exact Hpos. cbn [bind]. eexists. split; [reflexivity|].
    rewrite !lookup_insert_ne by done. apply lookup_insert_eq.
Qed.

Lemma DEFAULT_has_omega (d : pydict) :
  is_Some ((d ∪ Constans.DEFAULT_PARAMS) !! "omega").
Proof.
  apply lookup_union_is_Some. right. exists (VFloat PI).
  unfold Constans.DEFAULT_PARAMS. cbn [list_to_map foldr fst snd].
  rewrite !lookup_insert_ne by done. apply lookup_insert_eq.
Qed.

(** The keys the resolver writes. *)
Lemma get_parameters_inv (overrides : option pydict) (p : pydict) :
  Constans.get_parameters overrides = Ok p ->
  let c := default ∅ overrides ∪ Constans.DEFAULT_PARAMS in
  exists fc fe fg kp Jc ke Je s1 T n,
    c !! "fi0_c" = Some fc /\ c !! "fi0_e" = Some fe /\ c !! "fi0_g" = Some fg
    /\ getnum c "k_cplus" = Ok kp /\ num fc = Ok Jc
    /\ getnum c "k_eplus" = Ok ke /\ num fe = Ok Je
    /\ getnum c "t_end" = Ok T /\ getint c "n_points" = Ok n /\ (0 <= n)%Z
    /\ p !! "J0" = Some (VFloat 1.0)
    /\ p !! "Jc0" = Some fc /\ p !! "Je0" = Some fe /\ p !! "Jg0" = Some fg
    /\ p !! "j_cplus" = Some (VFloat (kp * Jc))
    /\ p !! "j_eplus" = Some (VFloat (ke * Je))
    /\ p !! "sigma0_c" = Some s1 /\ s1 <> VNone
    /\ p !! "time" = Some (VArr (grid T n))
    /\ (forall k, k ∉ ["J0"; "Jc0"; "Je0"; "Jg0"; "j_cplus"; "j_eplus"; "sigma0_c"; "time"] ->
          p !! k = c !! k).
Proof.
  intros H c. unfold Constans.get_parameters in H. fold c in H.
  inv_bind_as H fc Efc. inv_bind_as H fe Efe. inv_bind_as H fg Efg.
  inv_bind_as H kp Ekp. inv_bind_as H Jc EJc.
  inv_bind_as H ke Eke. inv_bind_as H Je EJe.
  inv_bind_as H s0 Es0. inv_bind_as H q Eq.
  inv_bind_as H km Ekm. inv_bind_as H kp' Ekp'.
  destruct (bool_decide (km = 0) && negb (bool_decide (kp' = 0))); [discriminate|].
  inv_bind_as H a Ea. destruct (bool_decide (a <= 0)); [discriminate|].
  repeat rewrite getitem_insert_ne in Efc by done.
  repeat rewrite getitem_insert_ne in Efe by done.
  repeat rewrite getitem_insert_ne in Efg by done.
  repeat rewrite getitem_insert_ne in Es0 by done.
  apply getitem_inv in Efc. apply getitem_inv in Efe.
  apply getitem_inv in Efg. apply getitem_inv in Es0.
  repeat rewrite getnum_insert_ne in Ekp by done.
  repeat rewrite getnum_insert_ne in Eke by done.
  unfold getnum in EJc, EJe.
  repeat rewrite getitem_insert_ne in EJc by done.
  repeat rewrite getitem_insert_ne in EJe by done.
  rewrite getitem_insert_eq in EJc. rewrite getitem_insert_eq in EJe.
  cbn [bind] in EJc, EJe.
  set (q5 := <["j_eplus" := VFloat (ke * Je)]> (<["j_cplus" := VFloat (kp * Jc)]>
               (<["Jg0" := fg]> (<["Je0" := fe]> (<["Jc0" := fc]>
                  (<["J0" := VFloat 1.0]> c)))))) in *.
  assert (Hq : (forall k, k <> "sigma0_c" -> q !! k = q5 !! k)
               /\ exists s1, q !! "sigma0_c" = Some s1 /\ s1 <> VNone).
  { assert (Hs5 : q5 !! "sigma0_c" = Some s0).
    { unfold q5. rewrite !lookup_insert_ne by done. exact Es0. }
    destruct s0;
      try (injection Eq as <-; split; [reflexivity | eexists; split; [exact Hs5 | discriminate]]).
    do 11 inv_bind Eq. injection Eq as <-. split.
    - intros k Hk. rewrite lookup_insert_ne by congruence. reflexivity.
    - eexists. split; [apply lookup_insert_eq | discriminate]. }
  destruct Hq as [Fq (s1 & Hs1 & Hs1nz)].
  assert (Hom : is_Some (q !! "omega")).
  { rewrite Fq by done. unfold q5. rewrite !lookup_insert_ne by done.
    apply DEFAULT_has_omega. }
  destruct Hom as [om Hom]. rewrite Hom in H.
  inv_bind_as H T ET. inv_bind_as H n En. inv_bind_as H t Et. injection H as <-.
  apply linspace_inv in Et as [Hn ->].
  assert (HT : getnum c "t_end" = Ok T).
  { unfold getnum, getitem in *. rewrite Fq in ET by done. unfold q5 in ET.
    rewrite !lookup_insert_ne in ET by done. exact ET. }
  assert (Hnn : getint c "n_points" = Ok n).
  { unfold getint, getitem in *. rewrite Fq in En by done. unfold q5 in En.
    rewrite !lookup_insert_ne in En by done. exact En. }
  assert (Fp : forall k, k <> "time" -> k <> "sigma0_c" ->
                 (<["time" := VArr (grid T n)]> q : pydict) !! k = q5 !! k).
  { intros k H1 H2. rewrite lookup_insert_ne by congruence. apply Fq. exact H2. }
  assert (L5 : q5 !! "J0" = Some (VFloat 1.0) /\ q5 !! "Jc0" = Some fc
               /\ q5 !! "Je0" = Some fe /\ q5 !! "Jg0" = Some fg
               /\ q5 !! "j_cplus" = Some (VFloat (kp * Jc))
               /\ q5 !! "j_eplus" = Some (VFloat (ke * Je))).
  { unfold q5. repeat split; rewrite ?lookup_insert_ne by done; apply lookup_insert_eq. }
  destruct L5 as (L1 & L2 & L3 & L4 & L5 & L6).
  exists fc, fe, fg, kp, Jc, ke, Je, s1, T, n.
  split; [exact Efc|]. split; [exact Efe|]. split; [exact Efg|]. split; [exact Ekp|].
  split; [exact EJc|]. split; [exact Eke|]. split; [exact EJe|]. split; [exact HT|].
  split; [exact Hnn|]. split; [exact Hn|].
  rewrite !Fp by done.
  split; [exact L1|]. split; [exact L2|]. split; [exact L3|]. split; [exact L4|].
  split; [exact L5|]. split; [exact L6|].
  split; [rewrite lookup_insert_ne by done; exact Hs1|]. split; [exact Hs1nz|].
  split; [apply lookup_insert_eq|].
  intros k Hk. rewrite !not_elem_of_cons in Hk.
  destruct Hk as (? & ? & ? & ? & ? & ? & ? & ? & _).
  rewrite lookup_insert_ne by congruence. rewrite Fq by congruence. unfold q5.
  rewrite !lookup_insert_ne by congruence. reflexivity.
Qed.

(** X8. Source: [get_parameters], the branch [if params['sigma0_c'] is
    None].  On a record that leaves the homeostatic stress unset, with a
    positive initial collagen fraction, numeric entries, an anisotropy
    parameter other than -1/2, rates and a growth coefficient that pass the
    two checks, and a non-negative number of grid points, the stand-alone
    resolver returns, and the record it returns holds under ['sigma0_c'] the
    initial collagen fraction times the collagen stress response at the
    initial collagen stretch. *)
Theorem get_parameters_derives_homeostatic_stress
    (overrides : option pydict) (fc fe fg : pyval)
    (Jc Je kp ke km a g l0 cc al T : R) (n : Z) :
  let c := default ∅ overrides ∪ Constans.DEFAULT_PARAMS in
  c !! "sigma0_c" = Some VNone ->
  c !! "fi0_c" = Some fc -> c !! "fi0_e" = Some fe -> c !! "fi0_g" = Some fg ->
  num fc = Ok Jc -> num fe = Ok Je -> 0 < Jc ->
  getnum c "k_cplus" = Ok kp -> getnum c "k_eplus" = Ok ke ->
  getnum c "k_cminus" = Ok km -> getnum c "a" = Ok a ->
  getnum c "gamma" = Ok g -> 1.0 + 2.0 * g <> 0 ->
  getnum c "lambda0_c" = Ok l0 -> getnum c "c_c" = Ok cc -> getnum c "alpha_c" = Ok al ->
  getnum c "t_end" = Ok T -> getint c "n_points" = Ok n -> (0 <= n)%Z ->
  ~ (km = 0 /\ kp <> 0) -> 0 < a ->
  exists p,
    Constans.get_parameters overrides = Ok p
    /\ p !! "sigma0_c" = Some (VFloat (Jc * sigma_hat cc al l0)).
Proof.
  intros c Hs Hfc Hfe Hfg HJc HJe HJcpos.
  apply (get_parameters_unset overrides fc fe fg Jc Je kp ke km a g l0 cc al T n);
    try assumption. lra.
Qed.

Lemma get_parameters_default :
  exists p,
    Constans.get_parameters None = Ok p
    /\ p !! "sigma0_c" = Some (VFloat (0.75 * sigma_hat 1.0 0.01 1.05)).
Proof.
  apply (get_parameters_unset None (VFloat 0.75) (VFloat 0.05) (VFloat 0.20)
           0.75 0.05 1.0 1.0 1.0 0.1 1.0 1.05 1.0 0.01 10.0 1000);
    closed_side.
Qed.

Lemma get_parameters_derives_homeostatic_stress_witness :
  let c : pydict := ∅ ∪ Constans.DEFAULT_PARAMS in
  (c !! "sigma0_c" = Some VNone /\ 0 < 0.75 /\ 1.0 + 2.0 * 1.0 <> 0
   /\ ~ (1.0 = 0 /\ 1.0 <> 0) /\ 0 < 0.1 /\ (0 <= 1000)%Z)
  /\ exists p,
       Constans.get_parameters None = Ok p
       /\ p !! "sigma0_c" = Some (VFloat (0.75 * sigma_hat 1.0 0.01 1.05)).
Proof.
  intros c.
  assert (H1 : c !! "sigma0_c" = Some VNone) by (vm_compute; reflexivity).
  assert (H2 : 0 < 0.75) by lra.
  assert (H3 : 1.0 + 2.0 * 1.0 <> 0) by lra.
  assert (H4 : ~ (1.0 = 0 /\ 1.0 <> 0)) by (intros [H _]; lra).
  assert (H5 : 0 < 0.1) by lra.
  assert (H6 : (0 <= 1000)%Z) by lia.
  split; [auto 10|].
  apply (get_parameters_derives_homeostatic_stress None (VFloat 0.75) (VFloat 0.05)
           (VFloat 0.20) 0.75 0.05 1.0 1.0 1.0 0.1 1.0 1.05 1.0 0.01 10.0 1000 H1);
    try assumption; vm_compute; reflexivity.
Defined.

Lemma union_absorb (m1 m2 : pydict) :
  (forall k, is_Some (m2 !! k) -> is_Some (m1 !! k)) -> m1 ∪ m2 = m1.
Proof.
  intros H. apply map_eq. intros k. rewrite lookup_union.
  destruct (m1 !! k) as [x|] eqn:E1; destruct (m2 !! k) as [y|] eqn:E2; try reflexivity.
  destruct (H k) as [z Hz]; [rewrite E2; eauto|]. congruence.
Qed.

(** A record the resolver returns has every key of the engine's default
    table. *)
Lemma get_parameters_has_defaults (overrides : option pydict) (p : pydict) (k : string) :
  Constans.get_parameters overrides = Ok p ->
  is_Some (default_params !! k) -> is_Some (p !! k).
Proof.
  intros H Hk.
  destruct (get_parameters_inv overrides p H)
    as (fc & fe & fg & kp & Jc & ke & Je & s1 & T & n & _ & _ & _ & _ & _ & _ & _ & _ & _ & _
        & L1 & L2 & L3 & L4 & L5 & L6 & L7 & _ & L8 & Fr).
  destruct (decide (k ∈ ["J0"; "Jc0"; "Je0"; "Jg0"; "j_cplus"; "j_eplus";
                         "sigma0_c"; "time"])) as [Hin|Hout].
  - rewrite !elem_of_cons in Hin.
    destruct Hin as [->|[->|[->|[->|[->|[->|[->|[->|Hin]]]]]]]]; eauto.
    apply elem_of_nil in Hin. contradiction.
  - rewrite (Fr k Hout). apply lookup_union_is_Some. right.
    apply default_in_DEFAULT. exact Hk.
Qed.

(** X9. Source: [get_parameters] followed by [__init__].  The constructor
    accepts every record the stand-alone resolver returns, and leaves it
    unchanged: the homeostatic stress is already there, so the derivation is
    not attempted, and the grid, the fractions and the fluxes it would write
    are those the record holds. *)
Theorem constructor_accepts_resolved_record (overrides : option pydict) (p : pydict) :
  Constans.get_parameters overrides = Ok p ->
  __init__ (Some p) = Ok {| params := Some p |}.
Proof.
  intros H.
  destruct (get_parameters_inv overrides p H)
    as (fc & fe & fg & kp & Jc & ke & Je & s1 & T & n & Hfc & Hfe & Hfg & _ & _ & _ & _
        & HT & Hn & Hpos & L1 & L2 & L3 & L4 & L5 & L6 & L7 & Hs1 & L8 & Fr).
  assert (Habs : default ∅ (Some p) ∪ default_params = p).
  { cbn [default]. apply union_absorb. intros k.
    apply (get_parameters_has_defaults overrides p k H). }
  assert (Hk : forall k, k ∉ ["J0"; "Jc0"; "Je0"; "Jg0"; "j_cplus"; "j_eplus";
                              "sigma0_c"; "time"] ->
               p !! k = (default ∅ overrides ∪ Constans.DEFAULT_PARAMS) !! k) by exact Fr.
  assert (Hout : forall k, k <> "J0" -> k <> "Jc0" -> k <> "Je0" -> k <> "Jg0" ->
                   k <> "j_cplus" -> k <> "j_eplus" -> k <> "sigma0_c" -> k <> "time" ->
                   k ∉ ["J0"; "Jc0"; "Je0"; "Jg0"; "j_cplus"; "j_eplus"; "sigma0_c"; "time"]).
  { intros k ? ? ? ? ? ? ? ?. rewrite !not_elem_of_cons. repeat split; try assumption.
    apply not_elem_of_nil. }
  pose proof (validate_supplied {| params := None |} (Some p) s1 fc fe fg T n) as Hv.
  cbn zeta in Hv. rewrite Habs in Hv.
  unfold __init__. rewrite Hv; clear Hv.
  - rewrite (insert_id p "time") by exact L8.
    rewrite (insert_id p "J0") by exact L1.
    rewrite (insert_id p "Jc0") by exact L2.
    rewrite (insert_id p "Je0") by exact L3.
    rewrite (insert_id p "Jg0") by exact L4.
    cbn [bind]. rewrite L5. cbn [bind]. rewrite L6. reflexivity.
  - exact L7.
  - exact Hs1.
  - unfold getnum, getitem in *. rewrite Hk by (apply Hout; done). exact HT.
  - unfold getint, getitem in *. rewrite Hk by (apply Hout; done). exact Hn.
  - exact Hpos.
  - rewrite Hk by (apply Hout; done). exact Hfc.
  - rewrite Hk by (apply Hout; done). exact Hfe.
  - rewrite Hk by (apply Hout; done). exact Hfg.
Qed.

Lemma constructor_accepts_resolved_record_witness :
  exists p,
    Constans.get_parameters None = Ok p
    /\ __init__ (Some p) = Ok {| params := Some p |}.
Proof.
  destruct get_parameters_default as (p & Hp & _).
  exists p. split; [exact Hp|].
  exact (constructor_accepts_resolved_record None p Hp).
Defined.

Lemma DEFAULT_has_epsilon (d : pydict) :
  is_Some ((d ∪ Constans.DEFAULT_PARAMS) !! "epsilon").
Proof.
  apply lookup_union_is_Some. right. exists (VFloat 0.0001).
  unfold Constans.DEFAULT_PARAMS. cbn [list_to_map foldr fst snd].
  rewrite !lookup_insert_ne by done. apply lookup_insert_eq.
Qed.

(** X10. Source: [get_parameters].  Every record the stand-alone resolver
    returns is consistent: ['J0'] is 1.0; the three initial volume fractions
    are the record's (or default) fractions; both fluxes are recomputed as
    synthesis rate times initial fraction, whatever the overrides held under
    ['j_cplus'] and ['j_eplus']; the homeostatic stress is not [None]; the
    collagen degradation rate is zero only if the synthesis rate is, and the
    growth coefficient is positive; a tolerance is present; and the cyclic
    frequency is the override's when there is one and pi otherwise. *)
Theorem resolved_record_is_consistent (overrides : option pydict) (p : pydict) :
  Constans.get_parameters overrides = Ok p ->
  let c := default ∅ overrides ∪ Constans.DEFAULT_PARAMS in
  exists Jc Je kp ke km a,
    p !! "J0" = Some (VFloat 1.0)
    /\ p !! "Jc0" = c !! "fi0_c" /\ p !! "Je0" = c !! "fi0_e" /\ p !! "Jg0" = c !! "fi0_g"
    /\ getnum p "Jc0" = Ok Jc /\ getnum p "Je0" = Ok Je
    /\ getnum p "k_cplus" = Ok kp /\ getnum p "k_eplus" = Ok ke
    /\ p !! "j_cplus" = Some (VFloat (kp * Jc))
    /\ p !! "j_eplus" = Some (VFloat (ke * Je))
    /\ (exists s, p !! "sigma0_c" = Some s /\ s <> VNone)
    /\ getnum p "k_cminus" = Ok km /\ (km = 0 -> kp = 0)
    /\ getnum p "a" = Ok a /\ 0 < a
    /\ is_Some (p !! "epsilon")
    /\ p !! "omega" = Some (default (VFloat PI) (default ∅ overrides !! "omega")).
Proof.
  intros H c.
  destruct (get_parameters_inv overrides p H)
    as (fc & fe & fg & kp & Jc & ke & Je & s1 & T & n & Hfc & Hfe & Hfg & Hkp & HJc & Hke & HJe
        & _ & _ & _ & L1 & L2 & L3 & L4 & L5 & L6 & L7 & Hs1 & _ & Fr).
  fold c in Hfc, Hfe, Hfg, Hkp, Hke, Fr.
  destruct (get_parameters_validates overrides p H)
    as (km & kp' & a & Hkm & Hkp' & Ha & Hrates & Hapos).
  assert (Hout : forall k, k <> "J0" -> k <> "Jc0" -> k <> "Je0" -> k <> "Jg0" ->
                   k <> "j_cplus" -> k <> "j_eplus" -> k <> "sigma0_c" -> k <> "time" ->
                   p !! k = c !! k).
  { intros k ? ? ? ? ? ? ? ?. apply Fr. rewrite !not_elem_of_cons.
    repeat split; try assumption. apply not_elem_of_nil. }
  assert (Hkp2 : getnum p "k_cplus" = Ok kp).
  { unfold getnum, getitem in *. rewrite Hout by done. exact Hkp. }
  assert (kp' = kp) as -> by congruence.
  exists Jc, Je, kp, ke, km, a.
  split; [exact L1|]. rewrite Hfc, Hfe, Hfg.
  split; [exact L2|]. split; [exact L3|]. split; [exact L4|].
  split; [unfold getnum, getitem; rewrite L2; exact HJc|].
  split; [unfold getnum, getitem; rewrite L3; exact HJe|].
  split; [exact Hkp2|].
  split; [unfold getnum, getitem in *; rewrite Hout by done; exact Hke|].
  split; [exact L5|]. split; [exact L6|]. split; [eauto|].
  split; [exact Hkm|].
  split; [intros Hz; destruct (Req_dec_T kp 0); tauto|].
  split; [exact Ha|]. split; [exact Hapos|].
  split; [rewrite Hout by done; apply DEFAULT_has_epsilon|].
  rewrite Hout by done. unfold c.
  destruct (default ∅ overrides !! "omega") as [v|] eqn:Ho; cbn [default].
  - apply lookup_union_Some_l. exact Ho.
  - rewrite lookup_union_r by exact Ho.
    unfold Constans.DEFAULT_PARAMS. cbn [list_to_map foldr fst snd].
    rewrite !lookup_insert_ne by done. apply lookup_insert_eq.
Qed.

Lemma resolved_record_is_consistent_witness :
  let c : pydict := ∅ ∪ Constans.DEFAULT_PARAMS in
  exists p,
    Constans.get_parameters None = Ok p
    /\ exists Jc Je kp ke km a,
         p !! "J0" = Some (VFloat 1.0)
         /\ p !! "Jc0" = c !! "fi0_c" /\ p !! "Je0" = c !! "fi0_e"
         /\ p !! "Jg0" = c !! "fi0_g"
         /\ getnum p "Jc0" = Ok Jc /\ getnum p "Je0" = Ok Je
         /\ getnum p "k_cplus" = Ok kp /\ getnum p "k_eplus" = Ok ke
         /\ p !! "j_cplus" = Some (VFloat (kp * Jc))
         /\ p !! "j_eplus" = Some (VFloat (ke * Je))
         /\ (exists s, p !! "sigma0_c" = Some s /\ s <> VNone)
         /\ getnum p "k_cminus" = Ok km /\ (km = 0 -> kp = 0)
         /\ getnum p "a" = Ok a /\ 0 < a
         /\ is_Some (p !! "epsilon")
         /\ p !! "omega" = Some (default (VFloat PI) ((∅ : pydict) !! "omega")).
Proof.
  intros c. destruct get_parameters_default as (p & Hp & _).
  exists p. split; [exact Hp|].
  exact (resolved_record_is_consistent None p Hp).
Defined.

(** ** Edge grids *)

Lemma protocol_name_cases (protocol : string) :
  protocol ∈ ["constant"; "linear"; "cyclic"] ->
  protocol = "constant" \/ protocol = "linear" \/ protocol = "cyclic".
Proof.
  rewrite !elem_of_cons. intros [H|[H|[H|H]]]; auto.
  apply elem_of_nil in H. contradiction.
Qed.

Lemma protocol_empty_grid (quad : (R -> result R) -> R -> R -> result R)
    (self : ConstrainedMixtureModel) (p : pydict) (lam a : R) (protocol : string) :
  params self = Some p -> getarr p "time" = Ok [] ->
  getnum p "lambda_roof" = Ok lam -> getnum p "a" = Ok a ->
  protocol ∈ ["constant"; "linear"; "cyclic"] ->
  exists base,
    protocol_funcs quad self protocol = Some (Ok base)
    /\ r_time base = [] /\ r_lambda base = []
    /\ r_sigma_c base = [] /\ r_sigma_e base = [] /\ r_sigma_g base = []
    /\ r_J_c base = [] /\ r_J_e base = [].
Proof.
  intros Hself Htime Hlam Ha Hp.
  destruct (protocol_name_cases protocol Hp) as [-> | [-> | ->]];
    unfold protocol_funcs; cbn [String.eqb Ascii.eqb Bool.eqb].
  - unfold _constant_protocol. rewrite (self_params_eq self p Hself). cbn [bind].
    rewrite Htime, Hlam. cbn [bind enumerate imap mapM map].
    eexists. split; [reflexivity|]. cbn. auto 10.
  - unfold _linear_protocol. rewrite (self_params_eq self p Hself). cbn [bind].
    rewrite Htime, Hlam. cbn [bind]. rewrite Ha. cbn [bind enumerate imap mapM map].
    eexists. split; [reflexivity|]. cbn. auto 10.
  - unfold _cyclic_protocol. rewrite (self_params_eq self p Hself). cbn [bind].
    rewrite Htime, Ha. cbn [bind]. rewrite Hlam. cbn [bind enumerate imap mapM map].
    eexists. split; [reflexivity|]. cbn. auto 10.
Qed.

(** X11. Source: the loops of the three protocol runs, [simulate], and the
    first assignment of [_apply_mechanical_feedback].  On an empty time grid
    ([n_points = 0]) no loop body runs: for each of the three protocols, and
    whatever the rates, a run without feedback returns empty series, empty
    aggregates and prints nothing, while a run with feedback raises
    [IndexError] at [results['sigma_c'][0]]. *)
Theorem empty_grid_runs
    (quad : (R -> result R) -> R -> R -> result R)
    (self : ConstrainedMixtureModel) (p : pydict) (lam a Jg0 : R) (protocol : string) :
  params self = Some p -> getarr p "time" = Ok [] ->
  getnum p "lambda_roof" = Ok lam -> getnum p "a" = Ok a -> getnum p "Jg0" = Ok Jg0 ->
  protocol ∈ ["constant"; "linear"; "cyclic"] ->
  simulate quad self protocol false
  = Ok ({| r_time := []; r_lambda := []; r_sigma_c := []; r_sigma_e := [];
           r_sigma_g := []; r_J_c := []; r_J_e := [];
           r_J_total := Some []; r_sigma_total := Some [] |}, [])
  /\ simulate quad self protocol true = Raise IndexError.
Proof.
  intros Hself Htime Hlam Ha HJg Hp.
  destruct (protocol_empty_grid quad self p lam a protocol Hself Htime Hlam Ha Hp)
    as (base & Hrun & E1 & E2 & E3 & E4 & E5 & E6 & E7).
  unfold simulate. rewrite Hrun. cbn [bind]. split.
  - rewrite (self_params_eq self p Hself). cbn [bind]. rewrite HJg. cbn [bind].
    rewrite E1, E2, E3, E4, E5, E6, E7. reflexivity.
  - unfold _apply_mechanical_feedback. rewrite (self_params_eq self p Hself). cbn [bind].
    rewrite Htime. cbn [bind]. rewrite E3. reflexivity.
Qed.

Lemma init_empty_grid : __init__ (Some empty_grid_record) = Ok m_empty_grid.
Proof.
  rewrite (init_supplied (Some empty_grid_record) (VFloat 1.0) (VFloat 0.75)
             (VFloat 0.05) (VFloat 0.20) 10.0 0 1.0 0.75 1.0 0.05);
    [reflexivity | closed_side ..].
Qed.

Lemma empty_grid_runs_witness :
  (__init__ (Some empty_grid_record) = Ok m_empty_grid
   /\ getarr empty_grid_dict "time" = Ok []
   /\ "linear" ∈ ["constant"; "linear"; "cyclic"])
  /\ simulate midpoint_quad m_empty_grid "linear" false
     = Ok ({| r_time := []; r_lambda := []; r_sigma_c := []; r_sigma_e := [];
              r_sigma_g := []; r_J_c := []; r_J_e := [];
              r_J_total := Some []; r_sigma_total := Some [] |}, [])
  /\ simulate midpoint_quad m_empty_grid "linear" true = Raise IndexError.
Proof.
  assert (H1 : getarr empty_grid_dict "time" = Ok []) by (vm_compute; reflexivity).
  assert (H2 : getnum empty_grid_dict "lambda_roof" = Ok 1.1) by (vm_compute; reflexivity).
  assert (H3 : getnum empty_grid_dict "a" = Ok 0.1) by (vm_compute; reflexivity).
  assert (H4 : getnum empty_grid_dict "Jg0" = Ok 0.20) by (vm_compute; reflexivity).
  assert (H5 : "linear" ∈ ["constant"; "linear"; "cyclic"]).
  { rewrite !elem_of_cons. auto. }
  split; [split; [exact init_empty_grid | auto]|].
  exact (empty_grid_runs midpoint_quad m_empty_grid empty_grid_dict 1.1 0.1 0.20 "linear"
           eq_refl H1 H2 H3 H4 H5).
Defined.

(** ** What the solver keeps and what it reads *)

Lemma fb_step_keeps_first (self : ConstrainedMixtureModel) (p : pydict) (res : results)
    (t : list R) (Kv kv epsv : pyval) (sigma0_c : R) (st st' : fb_state) (i : nat) :
  fb_step self p res t Kv kv epsv sigma0_c st i = Ok st' -> (1 <= i)%nat ->
  sigma_c_fb st' !! 0%nat = sigma_c_fb st !! 0%nat
  /\ J_c_fb st' !! 0%nat = J_c_fb st !! 0%nat.
Proof.
  intros H Hi. unfold fb_step in H. inv_bind_as H o Eo.
  destruct (estimate o) as [[sn jn]|]; cbn [bind] in H; [|discriminate].
  injection H as <-. cbn [sigma_c_fb J_c_fb].
  rewrite !list_lookup_insert_ne by lia. auto.
Qed.

Lemma fb_loop_keeps_first (self : ConstrainedMixtureModel) (p : pydict) (res : results)
    (t : list R) (Kv kv epsv : pyval) (sigma0_c : R) (l : list nat) (st st' : fb_state) :
  foldM (fb_step self p res t Kv kv epsv sigma0_c) st l = Ok st' ->
  Forall (fun i => 1 <= i)%nat l ->
  sigma_c_fb st' !! 0%nat = sigma_c_fb st !! 0%nat
  /\ J_c_fb st' !! 0%nat = J_c_fb st !! 0%nat.
Proof.
  revert st. induction l as [|i l IH]; cbn [foldM]; intros st H Hl.
  - injection H as <-. auto.
  - inv_bind_as H st1 E1. inversion Hl as [|? ? Hi Hl']; subst.
    apply fb_step_keeps_first in E1 as [E1 E2]; [|exact Hi].
    apply IH in H as [H1 H2]; [|exact Hl']. split; congruence.
Qed.

(** X12. Source: [_apply_mechanical_feedback], the two assignments before
    the time loop and the range of the loop.  Whenever the solver returns,
    the grid is not empty, the first entry of the collagen stress it returns
    is the first entry of the base collagen stress, and the first entry of
    the collagen fraction it returns is the record's ['Jc0']: the time loop
    starts at index 1 and never writes index 0. *)
Theorem feedback_keeps_initial_values
    (self : ConstrainedMixtureModel) (p : pydict) (t : list R) (Jc0 : R)
    (base fbres : results) (out : list event) :
  params self = Some p -> getarr p "time" = Ok t -> getnum p "Jc0" = Ok Jc0 ->
  _apply_mechanical_feedback self base = Ok (fbres, out) ->
  (1 <= length t)%nat
  /\ (exists s0, r_sigma_c base !! 0%nat = Some s0 /\ r_sigma_c fbres !! 0%nat = Some s0)
  /\ r_J_c fbres !! 0%nat = Some Jc0.
Proof.
  intros Hself Htime HJ H. unfold _apply_mechanical_feedback in H.
  rewrite (self_params_eq self p Hself) in H. cbn [bind] in H.
  rewrite Htime in H. cbn [bind] in H.
  inv_bind_as H s0 Es0. rewrite HJ in H. cbn [bind] in H.
  inv_bind_as H Kv EK. inv_bind_as H s0' Es0'. inv_bind_as H kv Ek.
  inv_bind_as H epsv Ee. inv_bind_as H st Est. injection H as <- <-.
  assert (Hn : (1 <= length t)%nat).
  { destruct t as [|t0 t']; [|cbn [length]; lia]. cbn in Es0'. discriminate. }
  apply fb_loop_keeps_first in Est as [L1 L2].
  - cbn [sigma_c_fb J_c_fb] in L1, L2.
    rewrite list_lookup_insert_eq in L1, L2 by (rewrite length_replicate; lia).
    split; [exact Hn|]. cbn [r_sigma_c r_J_c]. split; [|exact L2].
    exists s0. split; [|exact L1].
    unfold arr_get in Es0. destruct (r_sigma_c base !! 0%nat); congruence.
  - apply Forall_forall. intros i Hi. apply elem_of_seq in Hi. lia.
Qed.

Lemma feedback_sample :
  exists fbres out,
    _apply_mechanical_feedback m_feedback (constant_series (env_of feedback_dict))
    = Ok (fbres, out).
Proof.
  pose proof (constant_series_lengths (env_of feedback_dict)) as (HLe & HLs & HLc).
  destruct (feedback_total m_feedback feedback_dict (env_of feedback_dict)
              (VStr "constant") (VFloat 0.04) (VFloat 0.0001)
              (constant_series (env_of feedback_dict)) 0.04 0.0001
              eq_refl reads_feedback)
    as (st & ws & kv & _ & _ & Hfb & _);
    try assumption; try reflexivity; try exact J0_feedback.
  { rewrite time_feedback. lia. }
  eauto.
Qed.

Lemma feedback_keeps_initial_values_witness :
  exists fbres out,
    (params m_feedback = Some feedback_dict
     /\ getarr feedback_dict "time" = Ok (grid 1.0 2)
     /\ getnum feedback_dict "Jc0" = Ok 0.75
     /\ _apply_mechanical_feedback m_feedback (constant_series (env_of feedback_dict))
        = Ok (fbres, out))
    /\ (1 <= length (grid 1.0 2))%nat
    /\ (exists s0, r_sigma_c (constant_series (env_of feedback_dict)) !! 0%nat = Some s0
                   /\ r_sigma_c fbres !! 0%nat = Some s0)
    /\ r_J_c fbres !! 0%nat = Some 0.75.
Proof.
  destruct feedback_sample as (fbres & out & Hfb).
  assert (H1 : getarr feedback_dict "time" = Ok (grid 1.0 2)) by (vm_compute; reflexivity).
  assert (H2 : getnum feedback_dict "Jc0" = Ok 0.75) by (vm_compute; reflexivity).
  exists fbres, out. split; [auto|].
  exact (feedback_keeps_initial_values m_feedback feedback_dict (grid 1.0 2) 0.75
           (constant_series (env_of feedback_dict)) fbres out eq_refl H1 H2 Hfb).
Defined.

(** X13. Source: [_apply_mechanical_feedback] on a grid of one point.  The
    time loop [for i in range(1, n)] is empty: on a base result of one-entry
    series the solver returns at once and prints nothing; the collagen
    stress is the single base value, the collagen fraction is the record's
    ['Jc0'], and the total stress is the sum of the three single stresses.
    The record must hold ['K_cplus'], ['k_cplus'] and ['epsilon'], which are
    read before the loop, but their values are not used, and ['protocol'] is
    never read. *)
Theorem single_point_feedback
    (self : ConstrainedMixtureModel) (p : pydict) (t0 Jc0 s0 se sg : R)
    (Kv kv epsv : pyval) (base : results) :
  params self = Some p -> getarr p "time" = Ok [t0] -> getnum p "Jc0" = Ok Jc0 ->
  p !! "K_cplus" = Some Kv -> p !! "k_cplus" = Some kv -> p !! "epsilon" = Some epsv ->
  r_sigma_c base = [s0] -> r_sigma_e base = [se] -> r_sigma_g base = [sg] ->
  _apply_mechanical_feedback self base
  = Ok ({| r_time := r_time base; r_lambda := r_lambda base;
           r_sigma_c := [s0];
           r_sigma_e := [se]; r_sigma_g := [sg];
           r_J_c := [Jc0]; r_J_e := r_J_e base;
           r_J_total := r_J_total base;
           r_sigma_total := Some [s0 + se + sg] |}, []).
Proof.
  intros Hself Htime HJ HK Hk He Hs Hse Hsg.
  unfold _apply_mechanical_feedback. rewrite (self_params_eq self p Hself). cbn [bind].
  rewrite Htime. cbn [bind]. rewrite Hs. cbn [arr_get lookup list_lookup bind].
  rewrite HJ. cbn [bind]. unfold getitem. rewrite HK, Hk, He.
  rewrite Hse, Hsg. cbn. reflexivity.
Qed.

Lemma init_one_point : __init__ (Some one_point_record) = Ok m_one_point.
Proof.
  rewrite (init_supplied (Some one_point_record) (VFloat 1.0) (VFloat 0.75)
             (VFloat 0.05) (VFloat 0.20) 10.0 1 1.0 0.75 1.0 0.05);
    [reflexivity | closed_side ..].
Qed.

Lemma single_point_feedback_witness :
  let base := {| r_time := [0]; r_lambda := [1.1]; r_sigma_c := [1]; r_sigma_e := [2];
                 r_sigma_g := [3]; r_J_c := [0.75]; r_J_e := [0.05];
                 r_J_total := None; r_sigma_total := None |} in
  (__init__ (Some one_point_record) = Ok m_one_point
   /\ getarr one_point_dict "time" = Ok [0 * (10.0 / (1 - 1))]
   /\ one_point_dict !! "protocol" = None)
  /\ _apply_mechanical_feedback m_one_point base
     = Ok ({| r_time := r_time base; r_lambda := r_lambda base;
              r_sigma_c := [1];
              r_sigma_e := [2]; r_sigma_g := [3];
              r_J_c := [0.75]; r_J_e := r_J_e base;
              r_J_total := r_J_total base;
              r_sigma_total := Some [1 + 2 + 3] |}, []).
Proof.
  intros base.
  assert (H1 : getarr one_point_dict "time" = Ok [0 * (10.0 / (1 - 1))])
    by (vm_compute; reflexivity).
  assert (H2 : getnum one_point_dict "Jc0" = Ok 0.75) by (vm_compute; reflexivity).
  assert (H3 : one_point_dict !! "K_cplus" = Some (VFloat 0.04)) by (vm_compute; reflexivity).
  assert (H4 : one_point_dict !! "k_cplus" = Some (VFloat 1.0)) by (vm_compute; reflexivity).
  assert (H5 : one_point_dict !! "epsilon" = Some (VFloat 0.0001))
    by (vm_compute; reflexivity).
  assert (H6 : one_point_dict !! "protocol" = None) by (vm_compute; reflexivity).
  split; [split; [exact init_one_point | auto]|].
  exact (single_point_feedback m_one_point one_point_dict _ 0.75 1 2 3
           (VFloat 0.04) (VFloat 1.0) (VFloat 0.0001) base eq_refl H1 H2 H3 H4 H5
           eq_refl eq_refl eq_refl).
Defined.

Section BaseSeries.

Context (self : ConstrainedMixtureModel) (base base' : results).
Hypothesis Hs : r_sigma_c base = r_sigma_c base'.
Hypothesis Hc : r_J_c base = r_J_c base'.
Hypothesis He : r_J_e base = r_J_e base'.

Lemma attempt_base (p : pydict) (t sfb jfb : list R) (i : nat) (ti : R)
    (Kv kv : pyval) (s0 sp jp : R) :
  attempt self p base t sfb jfb i ti Kv kv s0 sp jp
  = attempt self p base' t sfb jfb i ti Kv kv s0 sp jp.
Proof. unfold attempt. rewrite He. reflexivity. Qed.

Lemma fb_step_base (p : pydict) (t : list R) (Kv kv epsv : pyval) (s0 : R)
    (st : fb_state) (i : nat) :
  fb_step self p base t Kv kv epsv s0 st i = fb_step self p base' t Kv kv epsv s0 st i.
Proof.
  assert (H : solve_step self p base t Kv kv epsv s0 st i
              = solve_step self p base' t Kv kv epsv s0 st i).
  { unfold solve_step. rewrite Hs, Hc.
    do 3 (case_bind; [|reflexivity]).
    erewrite (iterate_ext (attempt self p base _ _ _ _ _ _ _ _))
      by (intros; apply attempt_base).
    reflexivity. }
  unfold fb_step. rewrite H. reflexivity.
Qed.

End BaseSeries.

(** X14. Source: [_apply_mechanical_feedback].  Of the base result the
    solver reads only the collagen stress, the collagen fraction and the
    elastin fraction: on two base results that agree on these three series
    it raises the same exception, or returns the same collagen stress and
    collagen fraction and prints the same warnings.  In particular it never
    reads the stretch series of the base run; the stretch it uses comes from
    the record's ['protocol'] entry. *)
Theorem solver_reads_three_base_series
    (self : ConstrainedMixtureModel) (base base' : results) :
  r_sigma_c base = r_sigma_c base' -> r_J_c base = r_J_c base' ->
  r_J_e base = r_J_e base' ->
  match _apply_mechanical_feedback self base, _apply_mechanical_feedback self base' with
  | Ok (r, out), Ok (r', out') =>
      r_sigma_c r = r_sigma_c r' /\ r_J_c r = r_J_c r' /\ out = out'
  | Raise e, Raise e' => e = e'
  | _, _ => False
  end.
Proof.
  intros Hs Hc He. unfold _apply_mechanical_feedback.
  destruct (self_params self) as [p|]; cbn [bind]; [|reflexivity].
  destruct (getarr p "time") as [t|]; cbn [bind]; [|reflexivity].
  rewrite Hs. destruct (arr_get (r_sigma_c base') 0) as [s0|]; cbn [bind]; [|reflexivity].
  destruct (getnum p "Jc0") as [Jc0|]; cbn [bind]; [|reflexivity].
  destruct (getitem p "K_cplus") as [Kv|]; cbn [bind]; [|reflexivity].
  destruct (arr_get _ 0) as [s0'|]; cbn [bind]; [|reflexivity].
  destruct (getitem p "k_cplus") as [kv|]; cbn [bind]; [|reflexivity].
  destruct (getitem p "epsilon") as [epsv|]; cbn [bind]; [|reflexivity].
  rewrite (foldM_ext (fb_step self p base t Kv kv epsv s0')
             (fb_step self p base' t Kv kv epsv s0'))
    by (intros; apply fb_step_base; assumption).
  destruct (foldM _ _ _) as [st|]; cbn [bind]; [|reflexivity].
  cbn [r_sigma_c r_J_c]. auto.
Qed.

Lemma solver_reads_three_base_series_witness :
  let base := {| r_time := [0]; r_lambda := [1.1]; r_sigma_c := [1]; r_sigma_e := [2];
                 r_sigma_g := [3]; r_J_c := [0.75]; r_J_e := [0.05];
                 r_J_total := None; r_sigma_total := None |} in
  let base' := {| r_time := [0]; r_lambda := [7]; r_sigma_c := [1]; r_sigma_e := [8];
                  r_sigma_g := [9]; r_J_c := [0.75]; r_J_e := [0.05];
                  r_J_total := None; r_sigma_total := None |} in
  (r_sigma_c base = r_sigma_c base' /\ r_J_c base = r_J_c base'
   /\ r_J_e base = r_J_e base')
  /\ match _apply_mechanical_feedback m_one_point base,
           _apply_mechanical_feedback m_one_point base' with
     | Ok (r, out), Ok (r', out') =>
         r_sigma_c r = r_sigma_c r' /\ r_J_c r = r_J_c r' /\ out = out'
     | Raise e, Raise e' => e = e'
     | _, _ => False
     end.
Proof.
  intros base base'. split; [auto|].
  exact (solver_reads_three_base_series m_one_point base base' eq_refl eq_refl eq_refl).
Defined.

(** ** The run over all protocols *)

Lemma all_protocols_forward (quad : (R -> result R) -> R -> R -> result R)
    (self : ConstrainedMixtureModel) (feedback : bool) (st : attrs)
    (rc rl ry : results) (oc ol oy : list event) :
  simulate quad self "constant" feedback = Ok (rc, oc) ->
  simulate quad self "linear" feedback = Ok (rl, ol) ->
  simulate quad self "cyclic" feedback = Ok (ry, oy) ->
  simulate_all_protocols quad self feedback st
  = (Ok (<["cyclic" := ry]> (<["linear" := rl]> (<["constant" := rc]> ∅)), oc ++ ol ++ oy),
     {| a_results := Some ry;
        a_all_protocol_results :=
          <["cyclic" := ry]> (<["linear" := rl]> (<["constant" := rc]> ∅)) |}).
Proof.
  intros Hc Hl Hy. unfold simulate_all_protocols, all_protocols_loop, simulate_attrs.
  rewrite Hc, Hl, Hy. cbn [a_results a_all_protocol_results app].
  rewrite <- app_assoc. reflexivity.
Qed.

(** X15. Source: [simulate_all_protocols] with the last assignment of
    [simulate].  When the run over all protocols returns, each of the three
    [simulate] calls has returned; the table returned holds exactly the keys
    ['constant'], ['linear'] and ['cyclic'], each with the result of its
    call; the lines printed are those of the three calls in that order;
    [self.all_protocol_results] is the table returned, whatever it held
    before, and [self.results] is the cyclic result. *)
Theorem all_protocols_table
    (quad : (R -> result R) -> R -> R -> result R)
    (self : ConstrainedMixtureModel) (feedback : bool) (st st' : attrs)
    (table : gmap string results) (out : list event) :
  simulate_all_protocols quad self feedback st = (Ok (table, out), st') ->
  exists rc oc rl ol ry oy,
    simulate quad self "constant" feedback = Ok (rc, oc)
    /\ simulate quad self "linear" feedback = Ok (rl, ol)
    /\ simulate quad self "cyclic" feedback = Ok (ry, oy)
    /\ table = <["cyclic" := ry]> (<["linear" := rl]> (<["constant" := rc]> ∅))
    /\ dom table = {["constant"; "linear"; "cyclic"]}
    /\ out = oc ++ ol ++ oy
    /\ a_results st' = Some ry /\ a_all_protocol_results st' = table.
Proof.
  intros H.
  destruct (simulate quad self "constant" feedback) as [[rc oc]|e1] eqn:Hc.
  2:{ unfold simulate_all_protocols, all_protocols_loop, simulate_attrs in H.
      rewrite Hc in H. discriminate. }
  destruct (simulate quad self "linear" feedback) as [[rl ol]|e2] eqn:Hl.
  2:{ unfold simulate_all_protocols, all_protocols_loop, simulate_attrs in H.
      rewrite Hc, Hl in H. discriminate. }
  destruct (simulate quad self "cyclic" feedback) as [[ry oy]|e3] eqn:Hy.
  2:{ unfold simulate_all_protocols, all_protocols_loop, simulate_attrs in H.
      rewrite Hc, Hl, Hy in H. discriminate. }
  rewrite (all_protocols_forward quad self feedback st rc rl ry oc ol oy Hc Hl Hy) in H.
  injection H as <- <- <-.
  exists rc, oc, rl, ol, ry, oy. cbn [a_results a_all_protocol_results].
  repeat split; reflexivity.
Qed.

(** X16. Source: [simulate_all_protocols].  When the run over all
    protocols raises, the exception is that of the first [simulate] call
    that fails, in the order constant, linear, cyclic; the calls after it
    are not made; and the instance is left with a partial table:
    [self.all_protocol_results] holds the results of the calls that
    returned and nothing else (the table it held before is gone), and
    [self.results] is the last result returned, or what it was when no call
    returned. *)
Theorem all_protocols_failure_leaves_partial_table
    (quad : (R -> result R) -> R -> R -> result R)
    (self : ConstrainedMixtureModel) (feedback : bool) (st st' : attrs) (e : exn) :
  simulate_all_protocols quad self feedback st = (Raise e, st') ->
  (simulate quad self "constant" feedback = Raise e
   /\ a_all_protocol_results st' = ∅ /\ a_results st' = a_results st)
  \/ (exists rc oc,
        simulate quad self "constant" feedback = Ok (rc, oc)
        /\ simulate quad self "linear" feedback = Raise e
        /\ a_all_protocol_results st' = <["constant" := rc]> ∅
        /\ a_results st' = Some rc)
  \/ (exists rc oc rl ol,
        simulate quad self "constant" feedback = Ok (rc, oc)
        /\ simulate quad self "linear" feedback = Ok (rl, ol)
        /\ simulate quad self "cyclic" feedback = Raise e
        /\ a_all_protocol_results st' = <["linear" := rl]> (<["constant" := rc]> ∅)
        /\ a_results st' = Some rl).
Proof.
  intros H. unfold simulate_all_protocols, all_protocols_loop, simulate_attrs in H.
  destruct (simulate quad self "constant" feedback) as [[rc oc]|e1] eqn:Hc.
  2:{ injection H as <- <-. left. auto. }
  destruct (simulate quad self "linear" feedback) as [[rl ol]|e2] eqn:Hl.
  2:{ injection H as <- <-. right. left. exists rc, oc. auto. }
  destruct (simulate quad self "cyclic" feedback) as [[ry oy]|e3] eqn:Hy.
  2:{ injection H as <- <-. right. right. exists rc, oc, rl, ol. auto. }
  discriminate.
Qed.

(** ** When a run returns *)

Section Returns.

Context (quad : (R -> result R) -> R -> R -> result R).
Context (self : ConstrainedMixtureModel) (p : pydict) (e : env).
Hypothesis Hself : params self = Some p.
Hypothesis Hreads : reads p e.
Hypothesis Hq : quad_total quad.
Hypothesis Hc : collagen_ok e.
Hypothesis He : elastin_ok e.
Hypothesis HJ0nz : v_J0 e <> 0.
Hypothesis Hgamma_ok : 1 + 2 * v_gamma e <> 0.
Hypothesis HJc0nz : v_Jc0 e <> 0.
Hypothesis HJe0nz : v_Je0 e <> 0.

Lemma base_run_total (protocol : string) :
  protocol ∈ ["constant"; "linear"; "cyclic"] ->
  exists base, protocol_funcs quad self protocol = Some (Ok base).
Proof.
  intros Hp. destruct (protocol_name_cases protocol Hp) as [-> | [-> | ->]];
    unfold protocol_funcs; cbn [String.eqb Ascii.eqb Bool.eqb].
  - rewrite (constant_protocol_eq self p e Hself Hreads Hc He HJ0nz). eauto.
  - destruct (linear_total quad self p e Hself Hreads Hq Hc He HJ0nz) as [base ->]. eauto.
  - destruct (cyclic_total quad self p e Hself Hreads Hc He HJ0nz Hgamma_ok HJc0nz HJe0nz Hq)
      as [base ->]. eauto.
Qed.

Lemma simulate_base_total (protocol : string) :
  protocol ∈ ["constant"; "linear"; "cyclic"] ->
  exists res, simulate quad self protocol false = Ok (res, []).
Proof.
  intros Hp. destruct (base_run_total protocol Hp) as [base Hrun].
  pose proof Hreads as Hr. split_reads Hr.
  unfold simulate. rewrite Hrun. cbn [bind].
  rewrite (self_params_eq self p Hself). cbn [bind]. use_reads. eauto.
Qed.

Lemma simulate_feedback_total (protocol : string) (proto Kv epsv : pyval) (K eps : R) :
  protocol ∈ ["constant"; "linear"; "cyclic"] ->
  p !! "protocol" = Some proto ->
  p !! "K_cplus" = Some Kv -> num Kv = Ok K ->
  p !! "epsilon" = Some epsv -> num epsv = Ok eps ->
  (1 <= length (v_time e))%nat ->
  exists res ws,
    simulate quad self protocol true = Ok (res, map ConvergenceWarning ws)
    /\ sublist ws (seq 1 (length (v_time e) - 1)).
Proof.
  intros Hp Hproto HKv HK Hev Heps Hn.
  destruct (base_run_total protocol Hp) as [base Hrun].
  pose proof Hreads as Hr. split_reads Hr.
  pose proof (protocol_lengths quad self p protocol base _ Hself Htime Hrun)
    as (_ & Lsc & _ & _ & LJc & LJe).
  destruct (feedback_total self p e proto Kv epsv base K eps Hself Hreads Hproto HJ0nz
              LJe Lsc LJc HKv HK Hev Heps Hn)
    as (st & ws & kv & _ & _ & Hfb & Hsub).
  unfold simulate. rewrite Hrun. cbn [bind]. rewrite Hfb. cbn [bind].
  rewrite (self_params_eq self p Hself). cbn [bind]. use_reads. eauto.
Qed.

End Returns.

(** X17. Source: [simulate] with the three protocol runs and
    [_apply_mechanical_feedback].  On a resolved record whose degradation
    rates are usable (not zero, or covered by the guard of the total-mass
    function), whose ['J0'] is not zero, whose initial collagen and elastin
    fractions are positive and whose anisotropy parameter is not -1/2, and with a
    quadrature routine that returns on integrands that return: every
    [simulate] call on one of the three protocols returns without feedback
    and prints nothing; and when the record also holds ['protocol'] and a
    numeric ['K_cplus'] and ['epsilon'] and the grid is not empty, it returns
    with feedback too, printing convergence warnings only, at most one for
    each time index from 1 on, in increasing order. *)
Theorem simulate_returns
    (quad : (R -> result R) -> R -> R -> result R)
    (self : ConstrainedMixtureModel) (p : pydict) (e : env) (protocol : string) :
  params self = Some p -> reads p e -> quad_total quad ->
  collagen_ok e -> elastin_ok e -> v_J0 e <> 0 -> 1 + 2 * v_gamma e <> 0 ->
  0 < v_Jc0 e -> 0 < v_Je0 e ->
  protocol ∈ ["constant"; "linear"; "cyclic"] ->
  (exists res, simulate quad self protocol false = Ok (res, []))
  /\ (forall proto Kv epsv K eps,
        p !! "protocol" = Some proto ->
        p !! "K_cplus" = Some Kv -> num Kv = Ok K ->
        p !! "epsilon" = Some epsv -> num epsv = Ok eps ->
        (1 <= length (v_time e))%nat ->
        exists res ws,
          simulate quad self protocol true = Ok (res, map ConvergenceWarning ws)
          /\ sublist ws (seq 1 (length (v_time e) - 1))).
Proof.
  intros Hself Hreads Hq Hc He HJ0nz Hg HJc HJe Hp.
  assert (HJc' : v_Jc0 e <> 0) by lra. assert (HJe' : v_Je0 e <> 0) by lra.
  split.
  - apply (simulate_base_total quad self p e); assumption.
  - intros proto Kv epsv K eps. apply (simulate_feedback_total quad self p e); assumption.
Qed.

Lemma values_bare :
  let e := env_of bare_dict in
  collagen_ok e /\ elastin_ok e /\ v_J0 e <> 0 /\ 1 + 2 * v_gamma e <> 0
  /\ v_Jc0 e <> 0 /\ v_Je0 e <> 0.
Proof.
  intros e.
  assert (H0 : v_J0 e = 1.0) by (vm_compute; reflexivity).
  assert (H1 : v_k_cminus e = 1.0) by (vm_compute; reflexivity).
  assert (H2 : v_k_eminus e = 1.0) by (vm_compute; reflexivity).
  assert (H3 : v_gamma e = 1.0) by (vm_compute; reflexivity).
  assert (H4 : v_Jc0 e = 0.75) by (vm_compute; reflexivity).
  assert (H5 : v_Je0 e = 0.05) by (vm_compute; reflexivity).
  unfold collagen_ok, elastin_ok. rewrite H0, H1, H2, H3, H4, H5.
  repeat split; intros; lra.
Qed.

Lemma values_feedback :
  let e := env_of feedback_dict in
  collagen_ok e /\ elastin_ok e /\ v_J0 e <> 0 /\ 1 + 2 * v_gamma e <> 0
  /\ 0 < v_Jc0 e /\ 0 < v_Je0 e.
Proof.
  intros e.
  assert (H0 : v_J0 e = 1.0) by (vm_compute; reflexivity).
  assert (H1 : v_k_cminus e = 1.0) by (vm_compute; reflexivity).
  assert (H2 : v_k_eminus e = 1.0) by (vm_compute; reflexivity).
  assert (H3 : v_gamma e = 1.0) by (vm_compute; reflexivity).
  assert (H4 : v_Jc0 e = 0.75) by (vm_compute; reflexivity).
  assert (H5 : v_Je0 e = 0.05) by (vm_compute; reflexivity).
  unfold collagen_ok, elastin_ok. rewrite H0, H1, H2, H3, H4, H5.
  repeat split; intros; lra.
Qed.

Lemma simulate_returns_witness :
  let e := env_of feedback_dict in
  (params m_feedback = Some feedback_dict /\ reads feedback_dict e
   /\ quad_total midpoint_quad
   /\ (collagen_ok e /\ elastin_ok e /\ v_J0 e <> 0 /\ 1 + 2 * v_gamma e <> 0
       /\ 0 < v_Jc0 e /\ 0 < v_Je0 e)
   /\ ("cyclic" ∈ ["constant"; "linear"; "cyclic"]))
  /\ (exists res, simulate midpoint_quad m_feedback "cyclic" false = Ok (res, []))
  /\ (forall proto Kv epsv K eps,
        feedback_dict !! "protocol" = Some proto ->
        feedback_dict !! "K_cplus" = Some Kv -> num Kv = Ok K ->
        feedback_dict !! "epsilon" = Some epsv -> num epsv = Ok eps ->
        (1 <= length (v_time e))%nat ->
        exists res ws,
          simulate midpoint_quad m_feedback "cyclic" true
          = Ok (res, map ConvergenceWarning ws)
          /\ sublist ws (seq 1 (length (v_time e) - 1))).
Proof.
  intros e. pose proof values_feedback as Hv. cbn zeta in Hv. fold e in Hv.
  assert (Hin : "cyclic" ∈ ["constant"; "linear"; "cyclic"])
    by (rewrite !elem_of_cons; auto).
  split.
  { split; [reflexivity|]. split; [exact reads_feedback|].
    split; [exact midpoint_quad_total|]. split; [exact Hv | exact Hin]. }
  destruct Hv as (V1 & V2 & V3 & V4 & V5 & V6).
  exact (simulate_returns midpoint_quad m_feedback feedback_dict e "cyclic" eq_refl
           reads_feedback midpoint_quad_total V1 V2 V3 V4 V5 V6 Hin).
Defined.

Lemma simulate_bare (protocol : string) :
  protocol ∈ ["constant"; "linear"; "cyclic"] ->
  exists res, simulate midpoint_quad m_bare protocol false = Ok (res, []).
Proof.
  intros Hp. destruct values_bare as (V1 & V2 & V3 & V4 & V5 & V6).
  apply (simulate_base_total midpoint_quad m_bare bare_dict (env_of bare_dict) eq_refl
           reads_bare midpoint_quad_total V1 V2 V3 V4 V5 V6 protocol Hp).
Qed.

Lemma all_protocols_table_witness :
  exists table out st',
    simulate_all_protocols midpoint_quad m_bare false attrs_init = (Ok (table, out), st')
    /\ exists rc oc rl ol ry oy,
         simulate midpoint_quad m_bare "constant" false = Ok (rc, oc)
         /\ simulate midpoint_quad m_bare "linear" false = Ok (rl, ol)
         /\ simulate midpoint_quad m_bare "cyclic" false = Ok (ry, oy)
         /\ table = <["cyclic" := ry]> (<["linear" := rl]> (<["constant" := rc]> ∅))
         /\ dom table = {["constant"; "linear"; "cyclic"]}
         /\ out = oc ++ ol ++ oy
         /\ a_results st' = Some ry /\ a_all_protocol_results st' = table.
Proof.
  destruct (simulate_bare "constant") as [rc Hc]; [rewrite !elem_of_cons; auto|].
  destruct (simulate_bare "linear") as [rl Hl]; [rewrite !elem_of_cons; auto|].
  destruct (simulate_bare "cyclic") as [ry Hy]; [rewrite !elem_of_cons; auto|].
  pose proof (all_protocols_forward midpoint_quad m_bare false attrs_init
                rc rl ry [] [] [] Hc Hl Hy) as H.
  eexists _, _, _. split; [exact H|].
  exact (all_protocols_table midpoint_quad m_bare false attrs_init _ _ _ H).
Defined.

Lemma simulate_zero_degradation (feedback : bool) :
  simulate midpoint_quad m_bare_zero_degradation "constant" feedback
  = Raise ZeroDivisionError.
Proof.
  apply simulate_base_raises. unfold protocol_funcs.
  cbn [String.eqb Ascii.eqb Bool.eqb]. f_equal.
  assert (H1 : v_k_cminus (env_of bare_zero_degradation_dict) = 0.0)
    by (vm_compute; reflexivity).
  assert (H2 : v_k_cplus (env_of bare_zero_degradation_dict) = 1.0)
    by (vm_compute; reflexivity).
  apply (constant_protocol_raises m_bare_zero_degradation _ _ eq_refl
           reads_bare_zero_degradation
           (INR 0 * (1.0 / (INR (Z.to_nat 2) - 1)))
           [INR 1 * (1.0 / (INR (Z.to_nat 2) - 1))]).
  - vm_compute; reflexivity.
  - left. apply (Q_c_raises m_bare_zero_degradation _ _ eq_refl
                   reads_bare_zero_degradation).
    + rewrite H1. lra.
    + rewrite H2. lra.
Qed.

Lemma all_protocols_failure_leaves_partial_table_witness :
  let st := {| a_results := None;
               a_all_protocol_results := <["linear" := empty_series]> ∅ |} in
  exists e st',
    simulate_all_protocols midpoint_quad m_bare_zero_degradation false st = (Raise e, st')
    /\ ((simulate midpoint_quad m_bare_zero_degradation "constant" false = Raise e
         /\ a_all_protocol_results st' = ∅ /\ a_results st' = a_results st)
        \/ (exists rc oc,
              simulate midpoint_quad m_bare_zero_degradation "constant" false = Ok (rc, oc)
              /\ simulate midpoint_quad m_bare_zero_degradation "linear" false = Raise e
              /\ a_all_protocol_results st' = <["constant" := rc]> ∅
              /\ a_results st' = Some rc)
        \/ (exists rc oc rl ol,
              simulate midpoint_quad m_bare_zero_degradation "constant" false = Ok (rc, oc)
              /\ simulate midpoint_quad m_bare_zero_degradation "linear" false = Ok (rl, ol)
              /\ simulate midpoint_quad m_bare_zero_degradation "cyclic" false = Raise e
              /\ a_all_protocol_results st'
                 = <["linear" := rl]> (<["constant" := rc]> ∅)
              /\ a_results st' = Some rl)).
Proof.
  intros st.
  assert (H : simulate_all_protocols midpoint_quad m_bare_zero_degradation false st
              = (Raise ZeroDivisionError,
                 {| a_results := None; a_all_protocol_results := ∅ |})).
  { unfold simulate_all_protocols, all_protocols_loop, simulate_attrs.
    rewrite simulate_zero_degradation. reflexivity. }
  eexists _, _. split; [exact H|].
  exact (all_protocols_failure_leaves_partial_table midpoint_quad m_bare_zero_degradation
           false st _ _ H).
Defined.

(** ** The anisotropy parameter *)

(** X18. Source: [_G_c], reached from [_cyclic_protocol].  When the
    anisotropy parameter is -1/2 the exponent [1/(1 + 2*gamma)] divides by
    zero: on a resolved record with a grid that is not empty, the cyclic
    protocol never returns, whatever the quadrature routine does, and so no
    cyclic [simulate] call returns, with feedback or without. *)
Theorem cyclic_run_needs_anisotropy
    (quad : (R -> result R) -> R -> R -> result R)
    (self : ConstrainedMixtureModel) (p : pydict) (e : env) (feedback : bool) :
  params self = Some p -> reads p e -> v_time e <> [] -> 1 + 2 * v_gamma e = 0 ->
  ~ is_ok (_cyclic_protocol quad self)
  /\ ~ is_ok (simulate quad self "cyclic" feedback).
Proof.
  intros Hself Hreads Hne Hg.
  assert (HG : forall x, _G_c self 0 <> Ok x).
  { intros x HGc. pose proof Hreads as Hr. split_reads Hr.
    unfold _G_c in HGc. rewrite (self_params_eq self p Hself) in HGc. cbn [bind] in HGc.
    rewrite (bool_decide_eq_true_2 (0 = 0)) in HGc by reflexivity.
    rewrite HJc0, Hgamma in HGc. cbn [bind] in HGc.
    rewrite Hg, pydiv_zero in HGc. discriminate. }
  assert (Hcyc : ~ is_ok (_cyclic_protocol quad self)).
  { intros [res H]. pose proof Hreads as Hr. split_reads Hr.
    unfold _cyclic_protocol in H. rewrite (self_params_eq self p Hself) in H.
    cbn [bind] in H. rewrite Htime, Ha in H. cbn [bind] in H.
    rewrite Hlambda_roof in H. cbn [bind] in H.
    inv_bind_as H rows Er.
    destruct (v_time e) as [|t0 tl]; [contradiction|].
    unfold enumerate in Er. cbn [imap mapM] in Er.
    inv_bind_as Er row Erow. cbn zeta in Erow.
    do 8 inv_bind Erow. inv_bind_as Erow G0 EG0.
    exact (HG G0 EG0). }
  split; [exact Hcyc|].
  intros [[res out] H]. apply Hcyc.
  unfold simulate, protocol_funcs in H. cbn [String.eqb Ascii.eqb Bool.eqb] in H.
  inv_bind_as H base Ebase. exists base. exact Ebase.
Qed.

Lemma init_half_gamma : __init__ (Some half_gamma_record) = Ok m_half_gamma.
Proof.
  rewrite (init_supplied (Some half_gamma_record) (VFloat 1.0) (VFloat 0.75)
             (VFloat 0.05) (VFloat 0.20) 1.0 2 1.0 0.75 1.0 0.05);
    [reflexivity | closed_side ..].
Qed.

Lemma reads_half_gamma : reads half_gamma_dict (env_of half_gamma_dict).
Proof. closed_reads. Qed.

Lemma cyclic_run_needs_anisotropy_witness :
  let e := env_of half_gamma_dict in
  (__init__ (Some half_gamma_record) = Ok m_half_gamma
   /\ reads half_gamma_dict e /\ v_time e <> [] /\ 1 + 2 * v_gamma e = 0)
  /\ ~ is_ok (_cyclic_protocol midpoint_quad m_half_gamma)
  /\ ~ is_ok (simulate midpoint_quad m_half_gamma "cyclic" true).
Proof.
  intros e.
  assert (H1 : v_time e <> []).
  { assert (H : length (v_time e) = 2%nat) by (vm_compute; reflexivity).
    intros Hnil. rewrite Hnil in H. discriminate. }
  assert (H2 : 1 + 2 * v_gamma e = 0).
  { assert (H : v_gamma e = -0.5) by (vm_compute; reflexivity). rewrite H. lra. }
  split.
  { split; [exact init_half_gamma|]. split; [exact reads_half_gamma|]. auto. }
  exact (cyclic_run_needs_anisotropy midpoint_quad m_half_gamma half_gamma_dict e true
           eq_refl reads_half_gamma H1 H2).
Defined.

(** ** The keys a run without feedback reads *)

Section BaseFrame.

Context (quad : (R -> result R) -> R -> R -> result R).
Context (p : pydict) (k : string) (v : pyval).
Hypothesis Hk : k ∉ engine_keys.

Let self : ConstrainedMixtureModel := {| params := Some p |}.
Let p' : pydict := <[k := v]> p.
Let self' : ConstrainedMixtureModel := {| params := Some p' |}.

Lemma engine_key_ne (k' : string) : k' ∈ engine_keys -> k <> k'.
Proof. intros Hin ->. exact (Hk Hin). Qed.

Lemma getnum_engine (k' : string) :
  k' ∈ engine_keys -> getnum (<[k := v]> p) k' = getnum p k'.
Proof. intros Hin. apply getnum_insert_ne, engine_key_ne, Hin. Qed.

Lemma getarr_engine (k' : string) :
  k' ∈ engine_keys -> getarr (<[k := v]> p) k' = getarr p k'.
Proof. intros Hin. apply getarr_insert_ne, engine_key_ne, Hin. Qed.

Ltac engine_key :=
  match goal with
  | |- ?P => apply (bool_decide_unpack P); vm_compute; exact I
  end.

Lemma engine_reads :
  getarr p' "time" = getarr p "time"
  /\ getnum p' "lambda_roof" = getnum p "lambda_roof" /\ getnum p' "a" = getnum p "a"
  /\ getnum p' "c_c" = getnum p "c_c" /\ getnum p' "c_e" = getnum p "c_e"
  /\ getnum p' "c_g" = getnum p "c_g" /\ getnum p' "alpha_c" = getnum p "alpha_c"
  /\ getnum p' "gamma" = getnum p "gamma"
  /\ getnum p' "k_cplus" = getnum p "k_cplus" /\ getnum p' "k_cminus" = getnum p "k_cminus"
  /\ getnum p' "k_eplus" = getnum p "k_eplus" /\ getnum p' "k_eminus" = getnum p "k_eminus"
  /\ getnum p' "lambda0_c" = getnum p "lambda0_c"
  /\ getnum p' "lambda0_e" = getnum p "lambda0_e"
  /\ getnum p' "J0" = getnum p "J0" /\ getnum p' "Jc0" = getnum p "Jc0"
  /\ getnum p' "Je0" = getnum p "Je0" /\ getnum p' "Jg0" = getnum p "Jg0"
  /\ getnum p' "j_cplus" = getnum p "j_cplus" /\ getnum p' "j_eplus" = getnum p "j_eplus".
Proof.
  unfold p'.
  repeat split; first [apply getarr_engine | apply getnum_engine]; engine_key.
Qed.

Ltac with_reads :=
  destruct engine_reads
    as (Rtime & Rlambda_roof & Ra & Rc_c & Rc_e & Rc_g & Ralpha_c & Rgamma
        & Rk_cplus & Rk_cminus & Rk_eplus & Rk_eminus & Rlambda0_c & Rlambda0_e
        & RJ0 & RJc0 & RJe0 & RJg0 & Rj_cplus & Rj_eplus).

Ltac read_frame :=
  match goal with
  | H : getnum p' ?key = getnum p ?key |- context [getnum p' ?key] => rewrite H
  | H : getarr p' ?key = getarr p ?key |- context [getarr p' ?key] => rewrite H
  end.

Ltac head_bind :=
  match goal with
  | |- bind ?m _ = bind ?m _ => destruct m; cbn [bind]; [|reflexivity]
  end.

Lemma base_sigma_c_roof_frame (lam : R) : _sigma_c_roof self' lam = _sigma_c_roof self lam.
Proof.
  with_reads. unfold _sigma_c_roof, self', self. cbn [self_params params bind].
  repeat read_frame. reflexivity.
Qed.

Lemma base_q_c_frame (tau t : R) : _q_c self' tau t = _q_c self tau t.
Proof.
  with_reads. unfold _q_c, self', self. cbn [self_params params bind].
  repeat read_frame. reflexivity.
Qed.

Lemma base_q_e_frame (tau t : R) : _q_e self' tau t = _q_e self tau t.
Proof.
  with_reads. unfold _q_e, self', self. cbn [self_params params bind].
  repeat read_frame. reflexivity.
Qed.

Lemma base_Q_c_frame (t : R) : _Q_c self' t = _Q_c self t.
Proof.
  with_reads. unfold _Q_c, self', self. cbn [self_params params bind].
  repeat read_frame. reflexivity.
Qed.

Lemma base_Q_e_frame (t : R) : _Q_e self' t = _Q_e self t.
Proof.
  with_reads. unfold _Q_e, self', self. cbn [self_params params bind].
  repeat read_frame. reflexivity.
Qed.

Lemma base_sigma_g_frame (t lam : R) : _calc_sigma_g self' t lam = _calc_sigma_g self t lam.
Proof.
  with_reads. unfold _calc_sigma_g, self', self. cbn [self_params params bind].
  repeat read_frame. reflexivity.
Qed.

Lemma base_G_c_frame (t : R) : _G_c self' t = _G_c self t.
Proof.
  with_reads. unfold _G_c, _calc_J_c. rewrite base_Q_c_frame.
  unfold self', self. cbn [self_params params bind].
  repeat read_frame. reflexivity.
Qed.

Lemma base_G_e_frame (t : R) : _G_e self' t = _G_e self t.
Proof.
  with_reads. unfold _G_e, _calc_J_e. rewrite base_Q_e_frame.
  unfold self', self. cbn [self_params params bind].
  repeat read_frame. reflexivity.
Qed.

Lemma linear_integrand_c_frame (ti lam : R) :
  linear_integrand_c self' ti lam = linear_integrand_c self ti lam.
Proof.
  apply functional_extensionality. intros tau. unfold linear_integrand_c.
  rewrite base_q_c_frame, base_sigma_c_roof_frame. reflexivity.
Qed.

Lemma linear_integrand_e_frame (ti lam : R) :
  linear_integrand_e self' p' ti lam = linear_integrand_e self p ti lam.
Proof.
  with_reads. apply functional_extensionality. intros tau. unfold linear_integrand_e.
  rewrite base_q_e_frame. repeat read_frame. reflexivity.
Qed.

Lemma cyclic_integrand_c_frame (lr a om ti lam : R) :
  cyclic_integrand_c self' p' lr a om ti lam = cyclic_integrand_c self p lr a om ti lam.
Proof.
  with_reads. apply functional_extensionality. intros tau. unfold cyclic_integrand_c.
  cbn zeta. rewrite !base_G_c_frame. repeat read_frame.
  repeat head_bind.
  rewrite base_q_c_frame. head_bind. rewrite base_sigma_c_roof_frame. reflexivity.
Qed.

Lemma cyclic_integrand_e_frame (lr a om ti lam : R) :
  cyclic_integrand_e self' p' lr a om ti lam = cyclic_integrand_e self p lr a om ti lam.
Proof.
  with_reads. apply functional_extensionality. intros tau. unfold cyclic_integrand_e.
  cbn zeta. rewrite !base_G_e_frame. repeat read_frame.
  repeat head_bind.
  rewrite base_q_e_frame. reflexivity.
Qed.

Ltac base_frame_step :=
  first
    [ head_bind
    | rewrite base_Q_c_frame | rewrite base_Q_e_frame
    | rewrite base_sigma_c_roof_frame | rewrite base_sigma_g_frame
    | rewrite base_q_c_frame | rewrite base_q_e_frame
    | rewrite base_G_c_frame | rewrite base_G_e_frame
    | rewrite linear_integrand_c_frame | rewrite linear_integrand_e_frame
    | rewrite cyclic_integrand_c_frame | rewrite cyclic_integrand_e_frame
    | read_frame ].

Lemma constant_protocol_frame : _constant_protocol self' = _constant_protocol self.
Proof.
  with_reads. unfold _constant_protocol. unfold self' at 1, self at 1.
  cbn [self_params params bind]. rewrite Rtime, Rlambda_roof.
  do 2 head_bind.
  erewrite mapM_ext; [reflexivity|].
  intros [i ti]. cbn beta iota zeta. repeat base_frame_step. reflexivity.
Qed.

Lemma linear_protocol_frame : _linear_protocol quad self' = _linear_protocol quad self.
Proof.
  with_reads. unfold _linear_protocol. unfold self' at 1, self at 1.
  cbn [self_params params bind]. rewrite Rtime, Rlambda_roof, Ra.
  do 3 head_bind.
  erewrite mapM_ext; [reflexivity|].
  intros [i ti]. cbn beta iota zeta. repeat base_frame_step. reflexivity.
Qed.

Lemma cyclic_protocol_frame : _cyclic_protocol quad self' = _cyclic_protocol quad self.
Proof.
  with_reads. unfold _cyclic_protocol. unfold self' at 1, self at 1.
  cbn [self_params params bind]. rewrite Rtime, Ra, Rlambda_roof.
  do 3 head_bind.
  erewrite mapM_ext; [reflexivity|].
  intros [i ti]. cbn beta iota zeta. repeat base_frame_step. reflexivity.
Qed.

Lemma simulate_base_frame (protocol : string) :
  simulate quad self' protocol false = simulate quad self protocol false.
Proof.
  with_reads. unfold simulate, protocol_funcs.
  rewrite constant_protocol_frame, linear_protocol_frame, cyclic_protocol_frame.
  destruct (if String.eqb protocol "constant" then _ else _) as [run|]; [|reflexivity].
  destruct run as [res|]; cbn [bind]; [|reflexivity].
  unfold self', self. cbn [self_params params bind]. rewrite RJg0. reflexivity.
Qed.

End BaseFrame.

(** X19. Source: [_constant_protocol], [_linear_protocol],
    [_cyclic_protocol] with the methods they call, and the aggregation of
    [simulate].  A [simulate] call without feedback reads the instance's
    [params] only under the twenty keys of [engine_keys]: adding or changing
    an entry under any other key (for instance ['K_cplus'], ['sigma0_c'],
    ['epsilon'], ['protocol'], ['omega'], ['t_end'], ['n_points'] or a
    ['fi0_...'] fraction) changes neither the result nor the exception, for
    any protocol name. *)
Theorem run_without_feedback_reads_engine_keys
    (quad : (R -> result R) -> R -> R -> result R)
    (p : pydict) (k : string) (v : pyval) (protocol : string) :
  k ∉ engine_keys ->
  simulate quad {| params := Some (<[k := v]> p) |} protocol false
  = simulate quad {| params := Some p |} protocol false.
Proof. intros Hk. apply simulate_base_frame. exact Hk. Qed.

Lemma run_without_feedback_reads_engine_keys_witness :
  ("K_cplus" ∉ engine_keys)
  /\ simulate midpoint_quad {| params := Some (<["K_cplus" := VFloat 0.5]> bare_dict) |}
       "linear" false
     = simulate midpoint_quad {| params := Some bare_dict |} "linear" false.
Proof.
  assert (H : "K_cplus" ∉ engine_keys).
  { apply (bool_decide_unpack ("K_cplus" ∉ engine_keys)). vm_compute. exact I. }
  split; [exact H|].
  exact (run_without_feedback_reads_engine_keys midpoint_quad bare_dict "K_cplus"
           (VFloat 0.5) "linear" H).
Defined.

(** ** The command line *)

Lemma cli_vars_lookups (args : Cli.Namespace) :
  Cli.vars args !! "sigma0_c" = None
  /\ Cli.vars args !! "t_end" = Some (VFloat (Cli.t_end args))
  /\ Cli.vars args !! "n_points" = Some (VInt (Cli.n_points args))
  /\ Cli.vars args !! "fi0_c" = Some (VFloat (Cli.fi0_c args))
  /\ Cli.vars args !! "gamma" = Some (VFloat (Cli.gamma args))
  /\ Cli.vars args !! "lambda0_c" = Some (VFloat (Cli.lambda0_c args)).
Proof.
  unfold Cli.vars. cbn [list_to_map foldr fst snd].
  repeat split; rewrite ?lookup_insert_ne by done;
    first [apply lookup_insert_eq | apply lookup_empty].
Qed.

(** X20. Source: [run_simulation] of [src/ui/cli.py], with [__init__].  The
    command line never completes a simulation: the dict [vars(params)] has no
    ['sigma0_c'], so for every namespace the constructor raises, after the
    opening lines have been printed (none when quiet), and no protocol is
    run.  When the number of points is not negative, the anisotropy
    parameter is not -1/2 and the initial collagen fraction is not zero, the
    exception is [AttributeError] on [params]. *)
Theorem cli_run_never_returns
    (quad : (R -> result R) -> R -> R -> result R) (args : Cli.Namespace) :
  exists e,
    Cli.run_simulation quad args
    = ((if Cli.quiet args then []
        else Cli.Running (Cli.protocol args)
             :: (if Cli.feedback args then [Cli.FeedbackGain (Cli.K_cplus args)] else [])),
       Raise e)
    /\ __init__ (Some (Cli.vars args)) = Raise e
    /\ ((0 <= Cli.n_points args)%Z -> 1 + 2 * Cli.gamma args <> 0 ->
        Cli.fi0_c args <> 0 -> e = AttributeError "params").
Proof.
  destruct (cli_vars_lookups args) as (Hs & HT & Hn & Hfc & Hg & Hl).
  destruct (init_unset_never_resolves (Some (Cli.vars args))) as [e He].
  { left. exact Hs. }
  exists e. split; [|split; [exact He|]].
  - unfold Cli.run_simulation. rewrite He. reflexivity.
  - intros Hpos Hgnz HJnz.
    assert (Hv : _validate_and_complete_params {| params := None |} (Some (Cli.vars args))
                 = Raise (AttributeError "params")).
    { apply (validate_unset_attribute_error (Some (Cli.vars args)) (Cli.t_end args)
               (Cli.n_points args) (Cli.fi0_c args) (Cli.gamma args) (Cli.lambda0_c args));
        cbn [default]; try assumption.
      - apply (sigma0_c_unset_merged (Some (Cli.vars args))). left. exact Hs.
      - unfold getnum, getitem. rewrite (lookup_union_Some_l _ _ _ _ HT). reflexivity.
      - unfold getint, getitem. rewrite (lookup_union_Some_l _ _ _ _ Hn). reflexivity.
      - unfold getnum, getitem. rewrite (lookup_union_Some_l _ _ _ _ Hfc). reflexivity.
      - unfold getnum, getitem. rewrite (lookup_union_Some_l _ _ _ _ Hg). reflexivity.
      - unfold getnum, getitem. rewrite (lookup_union_Some_l _ _ _ _ Hl). reflexivity. }
    unfold __init__ in He. rewrite Hv in He. cbn [bind] in He. congruence.
Qed.

(** ** The window *)

Lemma pyint_floor (x : R) : 0 <= x -> IZR (pyint x) <= x < IZR (pyint x) + 1.
Proof.
  intros Hx. unfold pyint. rewrite bool_decide_eq_true_2 by exact Hx.
  destruct (archimed x) as [H1 H2]. rewrite minus_IZR. lra.
Qed.

Lemma pyint_range (x : R) (n : Z) : 0 <= x < IZR n -> (0 <= pyint x < n)%Z.
Proof.
  intros [H0 Hn]. destruct (pyint_floor x H0) as [H1 H2]. split.
  - apply Z.lt_succ_r. apply lt_IZR. rewrite succ_IZR. lra.
  - apply lt_IZR. lra.
Qed.

Lemma pyint_ge (x : R) (n : Z) : IZR n <= x -> (0 <= n)%Z -> (n <= pyint x)%Z.
Proof.
  intros Hn Hpos. assert (H0 : 0 <= x) by (apply IZR_le in Hpos; lra).
  destruct (pyint_floor x H0) as [H1 H2].
  apply Z.lt_succ_r. apply lt_IZR. rewrite succ_IZR. lra.
Qed.

Lemma pyint_IZR (n : Z) : (0 <= n)%Z -> pyint (IZR n) = n.
Proof.
  intros Hn. assert (H0 : 0 <= IZR n) by (apply IZR_le in Hn; exact Hn).
  destruct (pyint_floor (IZR n) H0) as [H1 H2].
  apply le_IZR in H1. rewrite <- succ_IZR in H2. apply lt_IZR in H2. lia.
Qed.

Lemma Ok_inj {A} (a b : A) : Ok a = Ok b -> a = b.
Proof. intros H. injection H. auto. Qed.

(** The dict the window builds when the protocol box holds an index of the
    list. *)
Lemma get_current_parameters_inv (w : Gui.CMMGUI) (u : pydict) :
  Gui.get_current_parameters w = Ok u ->
  exists name,
    name ∈ ["constant"; "linear"; "cyclic"]
    /\ u !! "protocol" = Some (VStr name)
    /\ u !! "a" = Some (VFloat (Gui.a_spin w))
    /\ u !! "lambda_roof" = Some (VFloat (Gui.lambda_roof_spin w))
    /\ u !! "c_c" = Some (VFloat (Gui.c_c_spin w))
    /\ u !! "c_e" = Some (VFloat (Gui.c_e_spin w))
    /\ u !! "c_g" = Some (VFloat (Gui.c_g_spin w))
    /\ u !! "fi0_c" = Some (VFloat (Gui.fi0_c_spin w))
    /\ u !! "fi0_e" = Some (VFloat (Gui.fi0_e_spin w))
    /\ u !! "fi0_g" = Some (VFloat (Gui.fi0_g_spin w))
    /\ u !! "lambda0_c" = Some (VFloat (Gui.lambda0_c_spin w))
    /\ u !! "lambda0_e" = Some (VFloat (Gui.lambda0_e_spin w))
    /\ u !! "k_cplus" = Some (VFloat (Gui.k_cplus_spin w))
    /\ u !! "k_cminus" = Some (VFloat (Gui.k_cminus_spin w))
    /\ u !! "k_eplus" = Some (VFloat (Gui.k_eplus_spin w))
    /\ u !! "k_eminus" = Some (VFloat (Gui.k_eminus_spin w))
    /\ u !! "alpha_c" = Some (VFloat (Gui.alpha_c_spin w))
    /\ u !! "gamma" = Some (VFloat (Gui.gamma_spin w))
    /\ u !! "K_cplus" = Some (VFloat (Gui.K_cplus_spin w))
    /\ u !! "sigma0_c" = Some (VFloat (Gui.sigma0_c_spin w))
    /\ u !! "t_end" = Some (VFloat (Gui.t_end_spin w))
    /\ u !! "n_points" = Some (VInt (pyint (Gui.n_points_spin w)))
    /\ u !! "epsilon" = Some (VFloat (Gui.epsilon_spin w))
    /\ u !! "j_cplus" = None /\ u !! "j_eplus" = None.
Proof.
  intros H. unfold Gui.get_current_parameters in H. inv_bind_as H name Ename.
  apply Ok_inj in H. subst u. exists name. split.
  - unfold pylist_get in Ename. cbn [length] in Ename.
    destruct (_ || _); [discriminate|].
    destruct (_ !! _) as [x|] eqn:Hx; [|discriminate]. injection Ename as <-.
    apply list_elem_of_lookup_2 in Hx. exact Hx.
  - cbn [list_to_map foldr fst snd].
    repeat split; rewrite ?lookup_insert_ne by done;
      first [apply lookup_insert_eq | apply lookup_empty].
Qed.

Lemma get_current_parameters_ok (w : Gui.CMMGUI) :
  0 <= Gui.protocol_type_spin w < 3 -> is_ok (Gui.get_current_parameters w).
Proof.
  intros Hr. apply (pyint_range _ 3) in Hr.
  unfold Gui.get_current_parameters, pylist_get. cbn [length].
  set (i := pyint (Gui.protocol_type_spin w)) in *.
  destruct (Z.ltb_spec i 0) as [Hlt|Hge]; [lia|].
  destruct (Z.ltb_spec i 0); [lia|].
  destruct (Z.leb_spec (Z.of_nat 3) i); [lia|]. cbn [orb].
  assert (Hi : (Z.to_nat i < 3)%nat) by lia.
  destruct (Z.to_nat i) as [|[|[|j]]]; [| | |lia]; cbn; eexists; reflexivity.
Qed.

Section Window.

Context (w : Gui.CMMGUI) (u : pydict).
Hypothesis Hu : Gui.get_current_parameters w = Ok u.
Hypothesis Hn : (0 <= pyint (Gui.n_points_spin w))%Z.

Let p : pydict :=
  resolved_dict (u ∪ default_params) (grid (Gui.t_end_spin w) (pyint (Gui.n_points_spin w)))
    (VFloat (Gui.fi0_c_spin w)) (VFloat (Gui.fi0_e_spin w)) (VFloat (Gui.fi0_g_spin w))
    (Gui.k_cplus_spin w) (Gui.fi0_c_spin w) (Gui.k_eplus_spin w) (Gui.fi0_e_spin w).

Lemma merged_lookup (k : string) (x : pyval) :
  u !! k = Some x -> (u ∪ default_params) !! k = Some x.
Proof. intros H. apply lookup_union_Some_l. exact H. Qed.

Lemma merged_getnum (k : string) (x : R) :
  u !! k = Some (VFloat x) -> getnum (u ∪ default_params) k = Ok x.
Proof. intros H. unfold getnum, getitem. rewrite (merged_lookup k _ H). reflexivity. Qed.

Lemma window_init : __init__ (Some u) = Ok {| params := Some p |}.
Proof.
  destruct (get_current_parameters_inv w u Hu)
    as (name & _ & _ & _ & _ & _ & _ & _ & Hfc & Hfe & Hfg & _ & _ & Hkc & _ & Hke & _ & _ & _
        & _ & Hs & HT & Hnp & _ & Hjc & Hje).
  apply (init_supplied (Some u) (VFloat (Gui.sigma0_c_spin w))
           (VFloat (Gui.fi0_c_spin w)) (VFloat (Gui.fi0_e_spin w))
           (VFloat (Gui.fi0_g_spin w)) (Gui.t_end_spin w) (pyint (Gui.n_points_spin w))
           (Gui.k_cplus_spin w) (Gui.fi0_c_spin w) (Gui.k_eplus_spin w)
           (Gui.fi0_e_spin w)); change (default ∅ (Some u)) with u.
  - apply merged_lookup. exact Hs.
  - discriminate.
  - apply merged_getnum. exact HT.
  - unfold getint, getitem. rewrite (merged_lookup _ _ Hnp). reflexivity.
  - exact Hn.
  - apply merged_lookup. exact Hfc.
  - apply merged_lookup. exact Hfe.
  - apply merged_lookup. exact Hfg.
  - apply lookup_union_None. split; [exact Hjc | reflexivity].
  - apply lookup_union_None. split; [exact Hje | reflexivity].
  - apply merged_getnum. exact Hkc.
  - reflexivity.
  - apply merged_getnum. exact Hke.
  - reflexivity.
Qed.

Lemma window_reads : reads p (gui_env w).
Proof.
  destruct (get_current_parameters_inv w u Hu)
    as (name & _ & _ & Ha & Hlr & Hcc & Hce & Hcg & Hfc & Hfe & Hfg & Hl0c & Hl0e
        & Hkc & Hkcm & Hke & Hkem & Hal & Hg & _ & _ & _ & _ & _ & _ & _).
  unfold reads, gui_env, p, resolved_dict.
  cbn [v_c_c v_c_e v_c_g v_k_cplus v_k_cminus v_k_eplus v_k_eminus v_lambda0_c
       v_lambda0_e v_lambda_roof v_a v_alpha_c v_gamma v_J0 v_Jc0 v_Je0 v_Jg0
       v_j_cplus v_j_eplus v_time].
  repeat split;
    rewrite ?getnum_insert_ne, ?getarr_insert_ne by done;
    first [ apply getnum_insert_eq
          | apply getarr_insert_eq
          | apply merged_getnum; assumption ].
Qed.

Lemma window_keys (name : string) :
  u !! "protocol" = Some (VStr name) ->
  p !! "protocol" = Some (VStr name)
  /\ p !! "epsilon" = Some (VFloat (Gui.epsilon_spin w))
  /\ p !! "K_cplus" = Some (VFloat (Gui.K_cplus_spin w))
  /\ p !! "sigma0_c" = Some (VFloat (Gui.sigma0_c_spin w)).
Proof.
  intros Hname.
  destruct (get_current_parameters_inv w u Hu)
    as (name' & _ & _ & _ & _ & _ & _ & _ & _ & _ & _ & _ & _ & _ & _ & _ & _ & _ & _
        & HK & Hs & _ & _ & He & _ & _).
  unfold p, resolved_dict. rewrite !lookup_insert_ne by done.
  repeat split; apply merged_lookup; assumption.
Qed.

End Window.

Lemma window_run_eq (quad : (R -> result R) -> R -> R -> result R)
    (w : Gui.CMMGUI) (u : pydict) (self : ConstrainedMixtureModel) (name : string) :
  Gui.get_current_parameters w = Ok u -> __init__ (Some u) = Ok self ->
  u !! "protocol" = Some (VStr name) ->
  Gui.run_simulation quad w
  = let* (res, out) := simulate quad self name (bool_decide (0 < Gui.K_cplus_spin w)) in
    Ok (self, res, out).
Proof.
  intros Hu Hinit Hname. unfold Gui.run_simulation. rewrite Hu. cbn [bind].
  rewrite Hinit. cbn [bind]. unfold getitem. rewrite Hname. reflexivity.
Qed.

(** X21. Source: [get_current_parameters] and [run_simulation] of
    [src/ui/gui.py], with [__init__].  Whenever the window builds a record
    (the protocol box holds an index of the list) with a non-negative number
    of points, the constructor returns an instance: the record carries the
    homeostatic stress of its spin box, so the derivation is not attempted.
    The instance holds the tolerance of the spin box and, under
    ['protocol'], one of the three protocol names, and it is that protocol
    the window then simulates, with feedback exactly when the feedback
    coefficient is positive. *)
Theorem window_record_constructs
    (quad : (R -> result R) -> R -> R -> result R) (w : Gui.CMMGUI) (u : pydict) :
  Gui.get_current_parameters w = Ok u -> (0 <= pyint (Gui.n_points_spin w))%Z ->
  exists self p name,
    __init__ (Some u) = Ok self /\ params self = Some p
    /\ name ∈ ["constant"; "linear"; "cyclic"]
    /\ p !! "protocol" = Some (VStr name)
    /\ p !! "epsilon" = Some (VFloat (Gui.epsilon_spin w))
    /\ p !! "sigma0_c" = Some (VFloat (Gui.sigma0_c_spin w))
    /\ Gui.run_simulation quad w
       = let* (res, out) := simulate quad self name (bool_decide (0 < Gui.K_cplus_spin w)) in
         Ok (self, res, out).
Proof.
  intros Hu Hn.
  destruct (get_current_parameters_inv w u Hu) as (name & Hin & Hname & _).
  destruct (window_keys w u Hu name Hname) as (K1 & K2 & _ & K4).
  eexists _, _, name. split; [exact (window_init w u Hu Hn)|].
  split; [reflexivity|]. split; [exact Hin|]. split; [exact K1|].
  split; [exact K2|]. split; [exact K4|].
  apply (window_run_eq quad w u _ name Hu (window_init w u Hu Hn) Hname).
Qed.

(** X22. Source: [run_simulation] of [src/ui/gui.py] with the engine.  With
    a quadrature routine that returns on integrands that return, the
    computing part of the window's run returns, so that no error dialog is
    shown, whenever: the protocol box holds 0, 1 or 2 (up to truncation); the
    number of points is not negative, and at least 1 when the feedback
    coefficient is positive; the collagen degradation rate is zero only if
    the synthesis rate is; the elastin degradation rate is zero only if the
    synthesis rate is not; the anisotropy parameter is not -1/2; and the
    initial collagen and elastin fractions are positive.  What it prints is
    convergence warnings only. *)
Theorem window_run_returns
    (quad : (R -> result R) -> R -> R -> result R) (w : Gui.CMMGUI) :
  quad_total quad ->
  0 <= Gui.protocol_type_spin w < 3 ->
  0 <= Gui.n_points_spin w ->
  (0 < Gui.K_cplus_spin w -> 1 <= Gui.n_points_spin w) ->
  (Gui.k_cminus_spin w = 0 -> Gui.k_cplus_spin w = 0) ->
  (Gui.k_eminus_spin w = 0 -> Gui.k_eplus_spin w <> 0) ->
  1 + 2 * Gui.gamma_spin w <> 0 ->
  0 < Gui.fi0_c_spin w -> 0 < Gui.fi0_e_spin w ->
  exists self res ws,
    Gui.run_simulation quad w = Ok (self, res, map ConvergenceWarning ws).
Proof.
  intros Hq Hproto Hnp Hfbn Hc He Hg HJcpos HJepos.
  assert (HJc : Gui.fi0_c_spin w <> 0) by lra.
  assert (HJe : Gui.fi0_e_spin w <> 0) by lra.
  destruct (get_current_parameters_ok w Hproto) as [u Hu].
  assert (Hn : (0 <= pyint (Gui.n_points_spin w))%Z) by (apply pyint_ge; [exact Hnp | lia]).
  destruct (get_current_parameters_inv w u Hu) as (name & Hin & Hname & _).
  destruct (window_keys w u Hu name Hname) as (K1 & K2 & K3 & _).
  pose proof (window_init w u Hu Hn) as Hinit.
  pose proof (window_reads w u Hu) as Hreads.
  rewrite (window_run_eq quad w u _ name Hu Hinit Hname).
  match type of Hreads with reads ?d _ => set (p := d) in * end.
  assert (HJ0 : v_J0 (gui_env w) <> 0) by (cbn [gui_env v_J0]; lra).
  destruct (bool_decide (0 < Gui.K_cplus_spin w)) eqn:Hfb.
  - apply bool_decide_eq_true in Hfb.
    destruct (simulate_feedback_total quad {| params := Some p |} p (gui_env w) eq_refl Hreads Hq Hc He HJ0 Hg
                HJc HJe name (VStr name) (VFloat (Gui.K_cplus_spin w))
                (VFloat (Gui.epsilon_spin w)) (Gui.K_cplus_spin w) (Gui.epsilon_spin w)
                Hin K1 K3 eq_refl K2 eq_refl)
      as (res & ws & Hsim & _).
    { cbn [gui_env v_time]. rewrite grid_length.
      assert ((1 <= pyint (Gui.n_points_spin w))%Z)
        by (apply pyint_ge; [apply Hfbn; exact Hfb | lia]).
      lia. }
    rewrite Hsim. cbn [bind]. eauto.
  - destruct (simulate_base_total quad {| params := Some p |} p (gui_env w) eq_refl Hreads Hq Hc He HJ0 Hg
                HJc HJe name Hin) as (res & Hsim).
    rewrite Hsim. cbn [bind]. exists {| params := Some p |}, res, []. reflexivity.
Qed.

Lemma default_window_values :
  0 <= Gui.protocol_type_spin default_window < 3
  /\ 0 <= Gui.n_points_spin default_window
  /\ (0 < Gui.K_cplus_spin default_window -> 1 <= Gui.n_points_spin default_window)
  /\ (Gui.k_cminus_spin default_window = 0 -> Gui.k_cplus_spin default_window = 0)
  /\ (Gui.k_eminus_spin default_window = 0 -> Gui.k_eplus_spin default_window <> 0)
  /\ 1 + 2 * Gui.gamma_spin default_window <> 0
  /\ 0 < Gui.fi0_c_spin default_window /\ 0 < Gui.fi0_e_spin default_window.
Proof. cbn. repeat split; intros; lra. Qed.

Lemma window_run_returns_witness :
  (quad_total midpoint_quad
   /\ 0 <= Gui.protocol_type_spin default_window < 3
   /\ 0 <= Gui.n_points_spin default_window
   /\ (0 < Gui.K_cplus_spin default_window -> 1 <= Gui.n_points_spin default_window)
   /\ (Gui.k_cminus_spin default_window = 0 -> Gui.k_cplus_spin default_window = 0)
   /\ (Gui.k_eminus_spin default_window = 0 -> Gui.k_eplus_spin default_window <> 0)
   /\ 1 + 2 * Gui.gamma_spin default_window <> 0
   /\ 0 < Gui.fi0_c_spin default_window /\ 0 < Gui.fi0_e_spin default_window)
  /\ exists self res ws,
       Gui.run_simulation midpoint_quad default_window
       = Ok (self, res, map ConvergenceWarning ws).
Proof.
  pose proof default_window_values as Hv.
  split; [split; [exact midpoint_quad_total | exact Hv]|].
  destruct Hv as (V1 & V2 & V3 & V4 & V5 & V6 & V7 & V8).
  exact (window_run_returns midpoint_quad default_window midpoint_quad_total
           V1 V2 V3 V4 V5 V6 V7 V8).
Defined.

Lemma window_record_constructs_witness :
  exists u,
    (Gui.get_current_parameters default_window = Ok u
     /\ (0 <= pyint (Gui.n_points_spin default_window))%Z)
    /\ exists self p name,
         __init__ (Some u) = Ok self /\ params self = Some p
         /\ name ∈ ["constant"; "linear"; "cyclic"]
         /\ p !! "protocol" = Some (VStr name)
         /\ p !! "epsilon" = Some (VFloat (Gui.epsilon_spin default_window))
         /\ p !! "sigma0_c" = Some (VFloat (Gui.sigma0_c_spin default_window))
         /\ Gui.run_simulation midpoint_quad default_window
            = let* (res, out) :=
                simulate midpoint_quad self name
                  (bool_decide (0 < Gui.K_cplus_spin default_window)) in
              Ok (self, res, out).
Proof.
  destruct default_window_values as (V1 & V2 & _).
  destruct (get_current_parameters_ok default_window V1) as [u Hu].
  assert (Hn : (0 <= pyint (Gui.n_points_spin default_window))%Z)
    by (apply pyint_ge; [exact V2 | lia]).
  exists u. split; [auto|].
  exact (window_record_constructs midpoint_quad default_window u Hu Hn).
Defined.

(** ** Zero degradation with synthesis *)

(** X23. Source: the guards of [_Q_e] and [_Q_c], with [_calc_J_e] and
    [_calc_J_c].  With a zero degradation rate and a synthesis rate that is
    not zero the two constituents behave differently: the elastin guard
    answers 1, so the elastin volume fraction stays at its initial value at
    every time although elastin is still deposited; the collagen guard does
    not answer, and the collagen total-mass function and volume fraction
    raise [ZeroDivisionError] at every time. *)
Theorem zero_degradation_with_synthesis
    (self : ConstrainedMixtureModel) (p : pydict) (kep kcp Je0 Jc0 : R) :
  params self = Some p ->
  getnum p "k_eminus" = Ok 0 -> getnum p "k_eplus" = Ok kep -> kep <> 0 ->
  getnum p "k_cminus" = Ok 0 -> getnum p "k_cplus" = Ok kcp -> kcp <> 0 ->
  getnum p "Je0" = Ok Je0 -> getnum p "Jc0" = Ok Jc0 ->
  forall t,
    _Q_e self t = Ok 1 /\ _calc_J_e self t = Ok Je0
    /\ _Q_c self t = Raise ZeroDivisionError
    /\ _calc_J_c self t = Raise ZeroDivisionError.
Proof.
  intros Hself Hem Hep Hepnz Hcm Hcp Hcpnz HJe HJc t.
  assert (HQe : _Q_e self t = Ok 1).
  { unfold _Q_e. rewrite (self_params_eq self p Hself). cbn [bind].
    rewrite Hem, Hep. cbn [bind].
    rewrite (bool_decide_eq_true_2 (0 = 0)) by reflexivity.
    rewrite (bool_decide_eq_false_2 (kep = 0)) by exact Hepnz. cbn [negb andb].
    f_equal. lra. }
  assert (HQc : _Q_c self t = Raise ZeroDivisionError).
  { unfold _Q_c. rewrite (self_params_eq self p Hself). cbn [bind].
    rewrite Hcm, Hcp. cbn [bind].
    rewrite (bool_decide_eq_false_2 (kcp = 0)) by exact Hcpnz.
    rewrite andb_false_r, pydiv_zero. reflexivity. }
  split; [exact HQe|]. split; [|split; [exact HQc|]].
  - unfold _calc_J_e. rewrite (self_params_eq self p Hself). cbn [bind].
    rewrite HJe. cbn [bind]. rewrite HQe. cbn [bind]. f_equal. lra.
  - unfold _calc_J_c. rewrite (self_params_eq self p Hself). cbn [bind].
    rewrite HJc. cbn [bind]. rewrite HQc. reflexivity.
Qed.

(** ** A tolerance that is not positive *)

Lemma iterate_nonpositive (body : R -> R -> result (R * R)) (epsilon : pyval) (eps : R) :
  (forall sp jp, is_ok (body sp jp)) -> num epsilon = Ok eps -> eps <= 0 ->
  forall (k : nat) (sp jp : R) (last : option (R * R)) (count : nat),
  exists o,
    iterate body epsilon k sp jp last count = Ok o
    /\ converged o = false /\ attempts o = (count + k)%nat.
Proof.
  intros Hbody Heps Hle. induction k as [|k IH]; intros sp jp last count.
  - eexists. split; [reflexivity|]. cbn [converged attempts]. split; [reflexivity | lia].
  - cbn [iterate]. destruct (Hbody sp jp) as [[sn jn] Hb]. rewrite Hb. cbn [bind].
    rewrite Heps. cbn [bind].
    rewrite (bool_decide_eq_false_2 (Rabs (sn - sp) < eps))
      by (pose proof (Rabs_pos (sn - sp)); lra).
    cbn [andb].
    destruct (IH sn jn (Some (sn, jn)) (S count)) as (o & Ho & Hc & Ha).
    exists o. split; [exact Ho|]. split; [exact Hc | lia].
Qed.

Section NonPositiveTolerance.

Context (self : ConstrainedMixtureModel) (p : pydict) (e : env).
Hypothesis Hself : params self = Some p.
Hypothesis Hreads : reads p e.
Context (proto : pyval).
Hypothesis Hproto : p !! "protocol" = Some proto.
Hypothesis HJ0nz : v_J0 e <> 0.
Context (res : results).
Hypothesis HLe : length (r_J_e res) = length (v_time e).
Hypothesis HLs : length (r_sigma_c res) = length (v_time e).
Hypothesis HLc : length (r_J_c res) = length (v_time e).
Context (Kv kv epsv : pyval) (K k eps sigma0_c : R).
Hypothesis HK : num Kv = Ok K.
Hypothesis Hk : num kv = Ok k.
Hypothesis Heps : num epsv = Ok eps.
Hypothesis Hle : eps <= 0.

Lemma fb_step_warns (st : fb_state) (i : nat) :
  (1 <= i < length (v_time e))%nat ->
  length (sigma_c_fb st) = length (v_time e) -> length (J_c_fb st) = length (v_time e) ->
  exists st',
    fb_step self p res (v_time e) Kv kv epsv sigma0_c st i = Ok st'
    /\ length (sigma_c_fb st') = length (v_time e)
    /\ length (J_c_fb st') = length (v_time e)
    /\ printed st' = printed st ++ [ConvergenceWarning i].
Proof.
  intros Hi Hs Hj.
  destruct (fb_step_spec self p e Hself Hreads proto Hproto HJ0nz res (v_time e)
              HLe HLs HLc Kv kv epsv K k eps sigma0_c HK Hk Heps st i Hi Hs Hj)
    as (o & st' & sn & jn & Hsolve & Hstep & _ & _ & _ & Hs' & Hj' & _ & Hn).
  assert (Hconv : converged o = false).
  { unfold solve_step in Hsolve.
    rewrite (arr_get_nth (v_time e) i) in Hsolve by lia. cbn [bind] in Hsolve.
    rewrite (arr_get_nth (r_sigma_c res) i) in Hsolve by lia. cbn [bind] in Hsolve.
    rewrite (arr_get_nth (r_J_c res) i) in Hsolve by lia. cbn [bind] in Hsolve.
    destruct (iterate_nonpositive
                (attempt self p res (v_time e) (sigma_c_fb st) (J_c_fb st) i
                   (nth i (v_time e) 0) Kv kv sigma0_c) epsv eps) with
      (k := max_iter) (sp := nth i (r_sigma_c res) 0) (jp := nth i (r_J_c res) 0)
      (last := @None (R * R)) (count := 0%nat) as (o' & Ho' & Hc' & _);
      try assumption.
    - intros sp jp.
      rewrite (attempt_eq self p e Hself Hreads proto Hproto HJ0nz res (v_time e)
                 HLe HLs HLc Kv kv K k sigma0_c HK Hk) by assumption.
      apply is_ok_Ok.
    - congruence. }
  exists st'. split; [exact Hstep|].
  rewrite Hs', Hj', !length_insert. split; [exact Hs|]. split; [exact Hj|].
  apply Hn. exact Hconv.
Qed.

Lemma fb_loop_warns (len a : nat) (st : fb_state) :
  (1 <= a)%nat -> (a + len <= length (v_time e))%nat ->
  length (sigma_c_fb st) = length (v_time e) ->
  length (J_c_fb st) = length (v_time e) ->
  exists st',
    foldM (fb_step self p res (v_time e) Kv kv epsv sigma0_c) st (seq a len) = Ok st'
    /\ printed st' = printed st ++ map ConvergenceWarning (seq a len).
Proof.
  revert a st. induction len as [|len IH]; intros a st Ha Hlen Hs Hj.
  - exists st. cbn [seq foldM map]. rewrite app_nil_r. auto.
  - cbn [seq foldM].
    destruct (fb_step_warns st a) as (st1 & Hst1 & Hs1 & Hj1 & Hp1); try assumption; try lia.
    rewrite Hst1. cbn [bind].
    destruct (IH (S a) st1) as (st' & Hrun & Hpr); try assumption; try lia.
    exists st'. split; [exact Hrun|].
    rewrite Hpr, Hp1, <- app_assoc. reflexivity.
Qed.

End NonPositiveTolerance.

(** X24. Source: [_apply_mechanical_feedback], the convergence test
    [np.abs(...) < epsilon].  With a tolerance that is zero or negative the
    test never holds: on a resolved record and well-sized base series the
    solver still returns, and it prints the convergence warning at every
    time index from 1 to the last, once each and in increasing order. *)
Theorem nonpositive_tolerance_warns_at_every_step
    (self : ConstrainedMixtureModel) (p : pydict) (e : env)
    (proto Kv epsv : pyval) (res : results) (K eps : R) :
  params self = Some p -> reads p e -> p !! "protocol" = Some proto -> v_J0 e <> 0 ->
  length (r_J_e res) = length (v_time e) ->
  length (r_sigma_c res) = length (v_time e) ->
  length (r_J_c res) = length (v_time e) ->
  p !! "K_cplus" = Some Kv -> num Kv = Ok K ->
  p !! "epsilon" = Some epsv -> num epsv = Ok eps -> eps <= 0 ->
  (1 <= length (v_time e))%nat ->
  exists fbres,
    _apply_mechanical_feedback self res
    = Ok (fbres, map ConvergenceWarning (seq 1 (length (v_time e) - 1))).
Proof.
  intros Hself Hreads Hproto HJ0nz HLe HLs HLc HKv HK Hev Heps Hle Hn.
  pose proof Hreads as Hr. split_reads Hr.
  destruct (getnum_getitem _ _ _ Hk_cplus) as (kv & Hkv & Hknum).
  destruct (fb_loop_warns self p e Hself Hreads proto Hproto HJ0nz res HLe HLs HLc
              Kv kv epsv K (v_k_cplus e) eps (nth 0 (r_sigma_c res) 0) HK Hknum Heps Hle
              (length (v_time e) - 1) 1
              (fb_init (length (v_time e)) (nth 0 (r_sigma_c res) 0) (v_Jc0 e)))
    as (st & Hrun & Hpr); try lia.
  { cbn [fb_init sigma_c_fb]. rewrite length_insert, length_replicate. reflexivity. }
  { cbn [fb_init J_c_fb]. rewrite length_insert, length_replicate. reflexivity. }
  eexists.
  unfold _apply_mechanical_feedback. rewrite (self_params_eq self p Hself). cbn [bind].
  use_reads. rewrite (arr_get_nth (r_sigma_c res) 0) by lia. cbn [bind].
  use_reads. unfold getitem. rewrite HKv, Hkv, Hev. cbn [bind].
  unfold arr_get at 1. rewrite list_lookup_insert_eq by (rewrite length_replicate; lia).
  cbn [bind]. fold (fb_init (length (v_time e)) (nth 0 (r_sigma_c res) 0) (v_Jc0 e)).
  rewrite Hrun. cbn [bind]. rewrite Hpr. reflexivity.
Qed.

Lemma init_no_degradation : __init__ (Some no_degradation_record) = Ok m_no_degradation.
Proof.
  rewrite (init_supplied (Some no_degradation_record) (VFloat 1.0) (VFloat 0.75)
             (VFloat 0.05) (VFloat 0.20) 1.0 2 1.0 0.75 1.0 0.05);
    [reflexivity | closed_side ..].
Qed.

Lemma zero_degradation_with_synthesis_witness :
  (__init__ (Some no_degradation_record) = Ok m_no_degradation
   /\ getnum no_degradation_dict "k_eminus" = Ok 0
   /\ getnum no_degradation_dict "k_eplus" = Ok 1.0 /\ 1.0 <> 0
   /\ getnum no_degradation_dict "k_cminus" = Ok 0
   /\ getnum no_degradation_dict "k_cplus" = Ok 1.0)
  /\ forall t,
       _Q_e m_no_degradation t = Ok 1 /\ _calc_J_e m_no_degradation t = Ok 0.05
       /\ _Q_c m_no_degradation t = Raise ZeroDivisionError
       /\ _calc_J_c m_no_degradation t = Raise ZeroDivisionError.
Proof.
  assert (H1 : getnum no_degradation_dict "k_eminus" = Ok 0).
  { replace 0 with 0.0 by lra. vm_compute. reflexivity. }
  assert (H2 : getnum no_degradation_dict "k_eplus" = Ok 1.0) by (vm_compute; reflexivity).
  assert (H3 : 1.0 <> 0) by lra.
  assert (H4 : getnum no_degradation_dict "k_cminus" = Ok 0).
  { replace 0 with 0.0 by lra. vm_compute. reflexivity. }
  assert (H5 : getnum no_degradation_dict "k_cplus" = Ok 1.0) by (vm_compute; reflexivity).
  assert (H6 : getnum no_degradation_dict "Je0" = Ok 0.05) by (vm_compute; reflexivity).
  assert (H7 : getnum no_degradation_dict "Jc0" = Ok 0.75) by (vm_compute; reflexivity).
  split; [split; [exact init_no_degradation | auto 10]|].
  exact (zero_degradation_with_synthesis m_no_degradation no_degradation_dict
           1.0 1.0 0.05 0.75 eq_refl H1 H2 H3 H4 H5 H3 H6 H7).
Defined.

Lemma init_zero_tolerance : __init__ (Some zero_tolerance_record) = Ok m_zero_tolerance.
Proof.
  rewrite (init_supplied (Some zero_tolerance_record) (VFloat 1.0) (VFloat 0.75)
             (VFloat 0.05) (VFloat 0.20) 1.0 2 1.0 0.75 1.0 0.05);
    [reflexivity | closed_side ..].
Qed.

Lemma reads_zero_tolerance : reads zero_tolerance_dict (env_of zero_tolerance_dict).
Proof. closed_reads. Qed.

Lemma nonpositive_tolerance_warns_at_every_step_witness :
  let e := env_of zero_tolerance_dict in
  let res := constant_series e in
  (__init__ (Some zero_tolerance_record) = Ok m_zero_tolerance
   /\ reads zero_tolerance_dict e
   /\ zero_tolerance_dict !! "protocol" = Some (VStr "constant")
   /\ zero_tolerance_dict !! "epsilon" = Some (VFloat 0.0) /\ 0.0 <= 0
   /\ length (v_time e) = 2%nat)
  /\ exists fbres,
       _apply_mechanical_feedback m_zero_tolerance res
       = Ok (fbres, map ConvergenceWarning (seq 1 (length (v_time e) - 1))).
Proof.
  intros e res.
  pose proof (constant_series_lengths e) as (HLe & HLs & HLc).
  assert (H1 : zero_tolerance_dict !! "protocol" = Some (VStr "constant"))
    by (vm_compute; reflexivity).
  assert (H2 : zero_tolerance_dict !! "epsilon" = Some (VFloat 0.0))
    by (vm_compute; reflexivity).
  assert (H3 : 0.0 <= 0) by lra.
  assert (H4 : length (v_time e) = 2%nat) by (vm_compute; reflexivity).
  assert (H5 : v_J0 e <> 0).
  { assert (H : v_J0 e = 1.0) by (vm_compute; reflexivity). rewrite H. lra. }
  assert (H6 : zero_tolerance_dict !! "K_cplus" = Some (VFloat 0.04))
    by (vm_compute; reflexivity).
  assert (H7 : (1 <= length (v_time e))%nat) by (rewrite H4; lia).
  split.
  { split; [exact init_zero_tolerance|]. split; [exact reads_zero_tolerance|]. auto. }
  exact (nonpositive_tolerance_warns_at_every_step m_zero_tolerance zero_tolerance_dict e
           (VStr "constant") (VFloat 0.04) (VFloat 0.0) res 0.04 0.0 eq_refl
           reads_zero_tolerance H1 H5 HLe HLs HLc H6 eq_refl H2 eq_refl H3 H7).
Defined.
